(** * AVP protocol engine of NexusClaw (avp.c / avp.h), shallow embedding

    The firmware keeps one [avp_ctx_t]; every handler mutates it in place and
    calls the platform callbacks [get_time] and [random_bytes].  We model a
    handler as a state-passing function over a [world]: the context plus the
    number of clock readings and random bytes drawn so far.  The callbacks
    themselves are Section variables: [clock k] is the value of the [k]-th
    call of [get_time], [rng k] the [k]-th random byte. *)

From Stdlib Require Import ZArith Lia Ascii String.
From stdpp Require Import base list strings.

Open Scope Z_scope.

Module Avp.

(** ** Configuration (avp.h, avp.c) *)

Definition AVP_MAX_NAME_LEN : nat := 64.
Definition AVP_MAX_VALUE_LEN : nat := 512.
Definition AVP_MAX_SECRETS : nat := 32.
Definition AVP_DEFAULT_TTL : Z := 300.
Definition AVP_SESSION_ID_LEN : nat := 32.
Definition AVP_MAX_PIN_ATTEMPTS : Z := 5.
Definition SLOT_SECRETS_START : Z := 96.

(** C unsigned arithmetic. *)
Definition u8 (z : Z) : Z := z mod 256.
Definition u32 (z : Z) : Z := z mod 2 ^ 32.

(** ** Return codes and operations *)

Inductive avp_ret : Type :=
| AVP_OK
| AVP_ERR_PARSE
| AVP_ERR_INVALID_OP
| AVP_ERR_INVALID_PARAM
| AVP_ERR_NOT_AUTHENTICATED
| AVP_ERR_SESSION_EXPIRED
| AVP_ERR_SECRET_NOT_FOUND
| AVP_ERR_CAPACITY
| AVP_ERR_HARDWARE
| AVP_ERR_CRYPTO
| AVP_ERR_PIN_INVALID
| AVP_ERR_PIN_LOCKED
| AVP_ERR_INTERNAL.

Inductive avp_op : Type :=
| AVP_OP_UNKNOWN
| AVP_OP_DISCOVER
| AVP_OP_AUTHENTICATE
| AVP_OP_STORE
| AVP_OP_RETRIEVE
| AVP_OP_DELETE
| AVP_OP_LIST
| AVP_OP_ROTATE
| AVP_OP_HW_CHALLENGE
| AVP_OP_HW_SIGN
| AVP_OP_HW_ATTEST.

Scheme Equality for avp_op.

(** ** Data structures (avp.h) *)

Record avp_secret_meta : Type := {
  sm_name : string;
  sm_slot_index : Z;
  sm_created_at : Z;
  sm_updated_at : Z;
  sm_in_use : bool
}.

(** [memset(&meta, 0, sizeof meta)] *)
Definition meta_zero : avp_secret_meta :=
  {| sm_name := ""; sm_slot_index := 0; sm_created_at := 0;
     sm_updated_at := 0; sm_in_use := false |}.

Record avp_session : Type := {
  ss_active : bool;
  ss_session_id : string;
  ss_workspace : string;
  ss_created_at : Z;
  ss_ttl : Z;
  ss_pin_attempts : Z
}.

Record avp_ctx : Type := {
  ctx_session : avp_session;
  ctx_secrets : list avp_secret_meta;   (* avp_secret_meta_t[AVP_MAX_SECRETS] *)
  ctx_secret_count : Z
}.

Record avp_cmd : Type := {
  cmd_op : avp_op;
  cmd_session_id : string;
  cmd_workspace : string;
  cmd_name : string;
  cmd_value : string;
  cmd_auth_method : string;
  cmd_pin : string;
  cmd_ttl : Z;
  cmd_key_name : string;
  cmd_data : list Z;        (* bytes written into cmd->data *)
  cmd_data_len : Z
}.

(** [avp_resp_t]; [error_msg] is never written by the engine and is left
    out. *)
Record avp_resp : Type := {
  r_ok : bool;
  r_error_code : avp_ret;
  r_discover_version : string;
  r_discover_backend_type : string;
  r_discover_manufacturer : string;
  r_discover_model : string;
  r_discover_serial : string;
  r_discover_hw_sign : bool;
  r_discover_hw_attest : bool;
  r_discover_max_secrets : Z;
  r_discover_max_secret_size : Z;
  r_auth_session_id : string;
  r_auth_expires_in : Z;
  r_auth_workspace : string;
  r_retrieve_value : string;
  r_list_names : list string;
  r_list_count : Z;
  r_hwc_verified : bool;
  r_hwc_model : string;
  r_hwc_serial : string;
  r_sign_signature : string;
  r_attest : string
}.

(** [memset(&resp, 0, sizeof resp)] followed by the [ok]/[error_code]
    assignments of a failing handler. *)
Definition resp_zero : avp_resp :=
  {| r_ok := false; r_error_code := AVP_OK;
     r_discover_version := ""; r_discover_backend_type := "";
     r_discover_manufacturer := ""; r_discover_model := "";
     r_discover_serial := ""; r_discover_hw_sign := false;
     r_discover_hw_attest := false; r_discover_max_secrets := 0;
     r_discover_max_secret_size := 0;
     r_auth_session_id := ""; r_auth_expires_in := 0; r_auth_workspace := "";
     r_retrieve_value := ""; r_list_names := []; r_list_count := 0;
     r_hwc_verified := false; r_hwc_model := ""; r_hwc_serial := "";
     r_sign_signature := ""; r_attest := "" |}.

Definition resp_err (e : avp_ret) : avp_resp :=
  {| r_ok := false; r_error_code := e;
     r_discover_version := ""; r_discover_backend_type := "";
     r_discover_manufacturer := ""; r_discover_model := "";
     r_discover_serial := ""; r_discover_hw_sign := false;
     r_discover_hw_attest := false; r_discover_max_secrets := 0;
     r_discover_max_secret_size := 0;
     r_auth_session_id := ""; r_auth_expires_in := 0; r_auth_workspace := "";
     r_retrieve_value := ""; r_list_names := []; r_list_count := 0;
     r_hwc_verified := false; r_hwc_model := ""; r_hwc_serial := "";
     r_sign_signature := ""; r_attest := "" |}.

(** [resp->ok = true] on a zeroed response, with nothing else written. *)
Definition resp_ok : avp_resp :=
  {| r_ok := true; r_error_code := AVP_OK;
     r_discover_version := ""; r_discover_backend_type := "";
     r_discover_manufacturer := ""; r_discover_model := "";
     r_discover_serial := ""; r_discover_hw_sign := false;
     r_discover_hw_attest := false; r_discover_max_secrets := 0;
     r_discover_max_secret_size := 0;
     r_auth_session_id := ""; r_auth_expires_in := 0; r_auth_workspace := "";
     r_retrieve_value := ""; r_list_names := []; r_list_count := 0;
     r_hwc_verified := false; r_hwc_model := ""; r_hwc_serial := "";
     r_sign_signature := ""; r_attest := "" |}.

(** ** Record updates *)

Definition set_active (b : bool) (s : avp_session) : avp_session :=
  {| ss_active := b; ss_session_id := ss_session_id s;
     ss_workspace := ss_workspace s; ss_created_at := ss_created_at s;
     ss_ttl := ss_ttl s; ss_pin_attempts := ss_pin_attempts s |}.

Definition set_pin_attempts (p : Z) (s : avp_session) : avp_session :=
  {| ss_active := ss_active s; ss_session_id := ss_session_id s;
     ss_workspace := ss_workspace s; ss_created_at := ss_created_at s;
     ss_ttl := ss_ttl s; ss_pin_attempts := p |}.

Definition set_session (s : avp_session) (c : avp_ctx) : avp_ctx :=
  {| ctx_session := s; ctx_secrets := ctx_secrets c;
     ctx_secret_count := ctx_secret_count c |}.

Definition set_secrets (l : list avp_secret_meta) (n : Z) (c : avp_ctx)
  : avp_ctx :=
  {| ctx_session := ctx_session c; ctx_secrets := l; ctx_secret_count := n |}.

Definition set_updated_at (t : Z) (m : avp_secret_meta) : avp_secret_meta :=
  {| sm_name := sm_name m; sm_slot_index := sm_slot_index m;
     sm_created_at := sm_created_at m; sm_updated_at := t;
     sm_in_use := sm_in_use m |}.

(** ** The world and its state monad *)

Record world : Type := {
  w_ctx : avp_ctx;
  w_clock : nat;   (* get_time calls made so far *)
  w_rng : nat      (* random bytes drawn so far *)
}.

Definition M (A : Type) : Type := world -> A * world.

Definition mret {A} (a : A) : M A := fun w => (a, w).
Definition mbind {A B} (m : M A) (k : A -> M B) : M B :=
  fun w => let '(a, w') := m w in k a w'.

Notation "x <- m ;; k" := (mbind m (fun x => k))
  (at level 100, m at next level, right associativity).
Notation "m ;;; k" := (mbind m (fun _ => k))
  (at level 100, right associativity).

Definition get_ctx : M avp_ctx := fun w => (w_ctx w, w).
Definition put_ctx (c : avp_ctx) : M unit :=
  fun w => (tt, {| w_ctx := c; w_clock := w_clock w; w_rng := w_rng w |}).
Definition modify_ctx (f : avp_ctx -> avp_ctx) : M unit :=
  c <- get_ctx ;; put_ctx (f c).

(** C string helpers: [strncpy] into a zeroed buffer of [n] usable bytes
    keeps the first [n] characters. *)
Definition c_trunc (n : nat) (s : string) : string := substring 0 n s.

Definition hex_digit (n : Z) : ascii :=
  match String.get (Z.to_nat n) "0123456789abcdef" with
  | Some c => c
  | None => "0"%char
  end.

(** [hex_encode] *)
Fixpoint hex_encode (l : list Z) : string :=
  match l with
  | [] => EmptyString
  | b :: l' =>
      String (hex_digit (Z.shiftr b 4))
        (String (hex_digit (Z.land b 15)) (hex_encode l'))
  end.

(** ** Secret table lookups (avp.c) *)

Fixpoint find_from (p : avp_secret_meta -> bool) (l : list avp_secret_meta)
    (i : nat) : option nat :=
  match l with
  | [] => None
  | m :: l' => if p m then Some i else find_from p l' (S i)
  end.

(** [find_secret_by_name]: [for (i = 0; i < AVP_MAX_SECRETS; i++)], first
    entry with [in_use && strcmp(name, ...) == 0]. *)
Definition find_secret_by_name (c : avp_ctx) (name : string) : option nat :=
  find_from (fun m => sm_in_use m && String.eqb (sm_name m) name)
    (take AVP_MAX_SECRETS (ctx_secrets c)) 0.

(** [find_free_slot]: first entry with [!in_use]. *)
Definition find_free_slot (c : avp_ctx) : option nat :=
  find_from (fun m => negb (sm_in_use m))
    (take AVP_MAX_SECRETS (ctx_secrets c)) 0.

(** The loop of [avp_op_list]:
    [for (i = 0; i < AVP_MAX_SECRETS && count < AVP_MAX_SECRETS; i++)]. *)
Fixpoint list_names (l : list avp_secret_meta) (count : nat) : list string :=
  match l with
  | [] => []
  | m :: l' =>
      if (count <? AVP_MAX_SECRETS)%nat then
        if sm_in_use m then
          c_trunc (AVP_MAX_NAME_LEN - 1) (sm_name m) :: list_names l' (S count)
        else list_names l' count
      else []
  end.

Definition dq : string := String (ascii_of_nat 34) EmptyString.

(** The constant strings of [avp_op_hw_attest] and [avp_op_retrieve]. *)
Definition ATTESTATION : string :=
  "{" ++ dq ++ "model" ++ dq ++ ":" ++ dq ++ "TROPIC01" ++ dq ++ ","
      ++ dq ++ "firmware" ++ dq ++ ":" ++ dq ++ "1.0.0" ++ dq ++ "}".
Definition STORED_VALUE_PLACEHOLDER : string := "[stored_value]".

(** [avp_init]: [memset(ctx, 0, sizeof *ctx)]. *)
Definition session_zero : avp_session :=
  {| ss_active := false; ss_session_id := ""; ss_workspace := "";
     ss_created_at := 0; ss_ttl := 0; ss_pin_attempts := 0 |}.

Definition avp_init : avp_ctx :=
  {| ctx_session := session_zero;
     ctx_secrets := replicate AVP_MAX_SECRETS meta_zero;
     ctx_secret_count := 0 |}.

Definition world_init : world := {| w_ctx := avp_init; w_clock := 0; w_rng := 0 |}.

(** ** Minimal JSON reader of avp.c *)

Definition dq_char : ascii := ascii_of_nat 34.

(** The bytes of a C string up to its terminator. *)
Fixpoint c_str (s : string) : string :=
  match s with
  | EmptyString => EmptyString
  | String c s' => if Ascii.eqb c (ascii_of_nat 0) then EmptyString
                   else String c (c_str s')
  end.

(** [strstr(hay, needle)]: the suffix of [hay] at the first occurrence. *)
Fixpoint strstr (hay needle : string) : option string :=
  if String.prefix needle hay then Some hay else
  match hay with
  | EmptyString => None
  | String _ h' => strstr h' needle
  end.

(** [strchr(s, c)]: the suffix of [s] at the first [c]. *)
Fixpoint strchr (s : string) (c : ascii) : option string :=
  match s with
  | EmptyString => None
  | String d s' => if Ascii.eqb c d then Some s else strchr s' c
  end.

Definition is_json_ws (c : ascii) : bool :=
  Ascii.eqb c " " || Ascii.eqb c (ascii_of_nat 9) ||
  Ascii.eqb c (ascii_of_nat 10) || Ascii.eqb c (ascii_of_nat 13).

Definition is_blank (c : ascii) : bool :=
  Ascii.eqb c " " || Ascii.eqb c (ascii_of_nat 9).

(** C [isspace]: space, \t, \n, \v, \f, \r. *)
Definition is_c_space (c : ascii) : bool :=
  Ascii.eqb c " " ||
  ((9 <=? nat_of_ascii c)%nat && (nat_of_ascii c <=? 13)%nat).

Fixpoint skip_while (p : ascii -> bool) (s : string) : string :=
  match s with
  | String c s' => if p c then skip_while p s' else s
  | EmptyString => EmptyString
  end.

(** The copy loop of [json_find_string]: up to [max_len - 1] characters,
    stopping at the terminator or at a double quote. *)
Fixpoint copy_until_quote (n : nat) (s : string) : string :=
  match n, s with
  | O, _ => EmptyString
  | _, EmptyString => EmptyString
  | S n', String c s' => if Ascii.eqb c dq_char then EmptyString
                         else String c (copy_until_quote n' s')
  end.

(** [json_find_string(json, key, out, max_len)]: [Some out] when a value
    was copied, [None] for the [NULL] return. *)
Definition json_find_string (json key : string) (max_len : nat) : option string :=
  match strstr json (dq ++ key ++ dq) with
  | None => None
  | Some pos =>
      match strchr pos ":" with
      | Some (String _ pos') =>
          match skip_while is_json_ws pos' with
          | String c rest =>
              if Ascii.eqb c dq_char then Some (copy_until_quote (max_len - 1) rest)
              else None
          | EmptyString => None
          end
      | _ => None
      end
  end.

Definition digit_val (c : ascii) : option Z :=
  let n := Z.of_nat (nat_of_ascii c) in
  if (48 <=? n) && (n <=? 57) then Some (n - 48) else None.

Definition hex_val (c : ascii) : option Z :=
  let n := Z.of_nat (nat_of_ascii c) in
  if (48 <=? n) && (n <=? 57) then Some (n - 48)
  else if (97 <=? n) && (n <=? 102) then Some (n - 87)
  else if (65 <=? n) && (n <=? 70) then Some (n - 55)
  else None.

(** Decimal digits, at least one: value and rest. *)
Fixpoint scan_digits (s : string) (acc : option Z) : option Z :=
  match s with
  | String c s' =>
      match digit_val c with
      | Some d => scan_digits s' (Some (10 * default 0 acc + d))
      | None => acc
      end
  | EmptyString => acc
  end.

Definition split_sign (s : string) : bool * string :=
  match s with
  | String c s' =>
      if Ascii.eqb c "-" then (true, s')
      else if Ascii.eqb c "+" then (false, s') else (false, s)
  | EmptyString => (false, s)
  end.

(** [sscanf(s, "%u", &out)] on a 32-bit target (strtoul semantics:
    leading space, optional sign, saturation at [UINT32_MAX]). *)
Definition scan_u (s : string) : option Z :=
  let '(neg, s') := split_sign (skip_while is_c_space s) in
  match scan_digits s' None with
  | None => None
  | Some v =>
      if v >? 2 ^ 32 - 1 then Some (2 ^ 32 - 1)
      else Some (u32 (if neg then - v else v))
  end.

(** [sscanf(s, "%2x", &byte)]: leading space, then a field of width 2
    (an optional sign counts in the width), converted to unsigned. *)
Definition scan_x2 (s : string) : option Z :=
  let s0 := skip_while is_c_space s in
  let '(neg, s1) := split_sign s0 in
  let width := if String.eqb s1 s0 then 2%nat else 1%nat in
  let r :=
    match s1 with
    | String c1 r1 =>
        match hex_val c1 with
        | None => None
        | Some d1 =>
            match width, r1 with
            | S (S _), String c2 _ =>
                match hex_val c2 with
                | Some d2 => Some (16 * d1 + d2)
                | None => Some d1
                end
            | _, _ => Some d1
            end
        end
    | EmptyString => None
    end in
  match r with
  | None => None
  | Some v => Some (u32 (if neg then - v else v))
  end.

(** [json_find_int(json, key, out)] *)
Definition json_find_int (json key : string) : option Z :=
  match strstr json (dq ++ key ++ dq) with
  | None => None
  | Some pos =>
      match strchr pos ":" with
      | Some (String _ pos') => scan_u (skip_while is_blank pos')
      | _ => None
      end
  end.

(** The loop of [hex_decode]: the bytes written to [out] and whether every
    [sscanf] matched. *)
Fixpoint hex_decode_loop (hex : string) (i n : nat) : list Z * bool :=
  match n with
  | O => ([], true)
  | S n' =>
      match scan_x2 (substring (2 * i) (String.length hex - 2 * i) hex) with
      | None => ([], false)
      | Some b =>
          let '(bs, ok) := hex_decode_loop hex (S i) n' in (u8 b :: bs, ok)
      end
  end.

(** [hex_decode(hex, out, max_len)]: the bytes written and the return
    value. *)
Definition hex_decode (hex : string) (max_len : nat) : list Z * Z :=
  let len := String.length hex in
  if negb (Nat.even len) || (max_len <? len / 2)%nat then ([], -1) else
  let '(bs, ok) := hex_decode_loop hex 0 (len / 2) in
  (bs, if ok then Z.of_nat (len / 2) else -1).

Definition op_of_string (s : string) : option avp_op :=
  if String.eqb s "DISCOVER" then Some AVP_OP_DISCOVER
  else if String.eqb s "AUTHENTICATE" then Some AVP_OP_AUTHENTICATE
  else if String.eqb s "STORE" then Some AVP_OP_STORE
  else if String.eqb s "RETRIEVE" then Some AVP_OP_RETRIEVE
  else if String.eqb s "DELETE" then Some AVP_OP_DELETE
  else if String.eqb s "LIST" then Some AVP_OP_LIST
  else if String.eqb s "ROTATE" then Some AVP_OP_ROTATE
  else if String.eqb s "HW_CHALLENGE" then Some AVP_OP_HW_CHALLENGE
  else if String.eqb s "HW_SIGN" then Some AVP_OP_HW_SIGN
  else if String.eqb s "HW_ATTEST" then Some AVP_OP_HW_ATTEST
  else None.

Definition or_empty (o : option string) : string := default "" o.

(** [avp_parse_cmd]: the return code and the filled command. *)
Definition avp_parse_cmd (json_in : string) : avp_ret * option avp_cmd :=
  let json := c_str json_in in
  match json_find_string json "op" 32 with
  | None => (AVP_ERR_PARSE, None)
  | Some op_str =>
      match op_of_string op_str with
      | None => (AVP_ERR_INVALID_OP, None)
      | Some op =>
          let ttl := default AVP_DEFAULT_TTL (json_find_int json "ttl") in
          let ttl := default ttl (json_find_int json "requested_ttl") in
          let '(data, data_len) :=
            match json_find_string json "data" 512 with
            | None => ([], 0)
            | Some data_hex =>
                let '(bs, len) := hex_decode data_hex 256 in
                (bs, if len >? 0 then len else 0)
            end in
          (AVP_OK, Some
            {| cmd_op := op;
               cmd_session_id := or_empty (json_find_string json "session_id" 33);
               cmd_workspace := or_empty (json_find_string json "workspace" 64);
               cmd_name := or_empty (json_find_string json "name" 64);
               cmd_value := or_empty (json_find_string json "value" 512);
               cmd_auth_method := or_empty (json_find_string json "auth_method" 16);
               cmd_pin := or_empty (json_find_string json "pin" 16);
               cmd_ttl := ttl;
               cmd_key_name := or_empty (json_find_string json "key_name" 64);
               cmd_data := data;
               cmd_data_len := data_len |})
      end
  end.

Section Platform.

(** [clock k]: value returned by the [k]-th call of [ctx->get_time()];
    [rng k]: the [k]-th byte produced by [ctx->random_bytes]. *)
Variable clock : nat -> Z.
Variable rng : nat -> Z.

Definition get_time : M Z :=
  fun w => (u32 (clock (w_clock w)),
            {| w_ctx := w_ctx w; w_clock := S (w_clock w); w_rng := w_rng w |}).

Definition random_bytes (n : nat) : M (list Z) :=
  fun w => (map (fun k => u8 (rng k)) (seq (w_rng w) n),
            {| w_ctx := w_ctx w; w_clock := w_clock w; w_rng := w_rng w + n |}).

(** [avp_session_valid] *)
Definition avp_session_valid : M bool :=
  c <- get_ctx ;;
  if negb (ss_active (ctx_session c)) then mret false else
  now <- get_time ;;
  let expires_at := u32 (ss_created_at (ctx_session c) + ss_ttl (ctx_session c)) in
  if now >=? expires_at then
    modify_ctx (fun c => set_session (set_active false (ctx_session c)) c) ;;;
    mret false
  else mret true.

Definition fail (e : avp_ret) : M (avp_ret * avp_resp) := mret (e, resp_err e).

(** [avp_op_discover] *)
Definition avp_op_discover : M (avp_ret * avp_resp) :=
  mret (AVP_OK,
    {| r_ok := true; r_error_code := AVP_OK;
       r_discover_version := "0.1.0"; r_discover_backend_type := "hardware";
       r_discover_manufacturer := "AVP Protocol"; r_discover_model := "NexusClaw";
       r_discover_serial := "NC00000001"; r_discover_hw_sign := true;
       r_discover_hw_attest := true;
       r_discover_max_secrets := Z.of_nat AVP_MAX_SECRETS;
       r_discover_max_secret_size := 256;
       r_auth_session_id := ""; r_auth_expires_in := 0; r_auth_workspace := "";
       r_retrieve_value := ""; r_list_names := []; r_list_count := 0;
       r_hwc_verified := false; r_hwc_model := ""; r_hwc_serial := "";
       r_sign_signature := ""; r_attest := "" |}).

(** [avp_op_authenticate].  The PIN check is the source's placeholder
    [strlen(cmd->pin) < 4]; [pin_attempts] is a [uint8_t]. *)
Definition avp_op_authenticate (cmd : avp_cmd) : M (avp_ret * avp_resp) :=
  c <- get_ctx ;;
  if ss_pin_attempts (ctx_session c) >=? AVP_MAX_PIN_ATTEMPTS then
    fail AVP_ERR_PIN_LOCKED
  else if (String.length (cmd_pin cmd) <? 4)%nat then
    modify_ctx (fun c =>
      set_session (set_pin_attempts (u8 (ss_pin_attempts (ctx_session c) + 1))
                     (ctx_session c)) c) ;;;
    fail AVP_ERR_PIN_INVALID
  else
    (* pin_attempts = 0; active = true; session_id = hex(random 16) *)
    rnd <- random_bytes 16 ;;
    let sid := hex_encode rnd in
    let ws := c_trunc (AVP_MAX_NAME_LEN - 1)
                (if String.eqb (cmd_workspace cmd) "" then "default"
                 else cmd_workspace cmd) in
    now <- get_time ;;
    let ttl := if cmd_ttl cmd >? 0 then cmd_ttl cmd else AVP_DEFAULT_TTL in
    modify_ctx (set_session
      {| ss_active := true; ss_session_id := sid; ss_workspace := ws;
         ss_created_at := now; ss_ttl := ttl; ss_pin_attempts := 0 |}) ;;;
    mret (AVP_OK,
      {| r_ok := true; r_error_code := AVP_OK;
         r_discover_version := ""; r_discover_backend_type := "";
         r_discover_manufacturer := ""; r_discover_model := "";
         r_discover_serial := ""; r_discover_hw_sign := false;
         r_discover_hw_attest := false; r_discover_max_secrets := 0;
         r_discover_max_secret_size := 0;
         r_auth_session_id := c_trunc AVP_SESSION_ID_LEN sid;
         r_auth_expires_in := ttl;
         r_auth_workspace := c_trunc (AVP_MAX_NAME_LEN - 1) ws;
         r_retrieve_value := ""; r_list_names := []; r_list_count := 0;
         r_hwc_verified := false; r_hwc_model := ""; r_hwc_serial := "";
         r_sign_signature := ""; r_attest := "" |}).

(** [ctx->secrets[idx].updated_at = ctx->get_time(); resp->ok = true;] *)
Definition store_touch (idx : nat) : M (avp_ret * avp_resp) :=
  t <- get_time ;;
  modify_ctx (fun c =>
    set_secrets (alter (set_updated_at t) idx (ctx_secrets c))
      (ctx_secret_count c) c) ;;;
  mret (AVP_OK, resp_ok).

(** [avp_op_store]; the TROPIC01 slot write is a TODO in the source. *)
Definition avp_op_store (cmd : avp_cmd) : M (avp_ret * avp_resp) :=
  valid <- avp_session_valid ;;
  if negb valid then fail AVP_ERR_NOT_AUTHENTICATED else
  c <- get_ctx ;;
  match find_secret_by_name c (cmd_name cmd) with
  | Some idx => store_touch idx
  | None =>
      match find_free_slot c with
      | None => fail AVP_ERR_CAPACITY
      | Some idx =>
          t <- get_time ;;
          let e := {| sm_name := c_trunc (AVP_MAX_NAME_LEN - 1) (cmd_name cmd);
                      sm_slot_index := u8 (SLOT_SECRETS_START + Z.of_nat idx);
                      sm_created_at := t;
                      sm_updated_at := default 0
                        (sm_updated_at <$> ctx_secrets c !! idx);
                      sm_in_use := true |} in
          modify_ctx (fun c =>
            set_secrets (<[idx := e]> (ctx_secrets c))
              (u8 (ctx_secret_count c + 1)) c) ;;;
          store_touch idx
      end
  end.

(** [avp_op_retrieve]; the slot read is a TODO, a placeholder is
    returned. *)
Definition avp_op_retrieve (cmd : avp_cmd) : M (avp_ret * avp_resp) :=
  valid <- avp_session_valid ;;
  if negb valid then fail AVP_ERR_NOT_AUTHENTICATED else
  c <- get_ctx ;;
  match find_secret_by_name c (cmd_name cmd) with
  | None => fail AVP_ERR_SECRET_NOT_FOUND
  | Some _ =>
      mret (AVP_OK,
        {| r_ok := true; r_error_code := AVP_OK;
           r_discover_version := ""; r_discover_backend_type := "";
           r_discover_manufacturer := ""; r_discover_model := "";
           r_discover_serial := ""; r_discover_hw_sign := false;
           r_discover_hw_attest := false; r_discover_max_secrets := 0;
           r_discover_max_secret_size := 0;
           r_auth_session_id := ""; r_auth_expires_in := 0; r_auth_workspace := "";
           r_retrieve_value := c_trunc (AVP_MAX_VALUE_LEN - 1) STORED_VALUE_PLACEHOLDER;
           r_list_names := []; r_list_count := 0;
           r_hwc_verified := false; r_hwc_model := ""; r_hwc_serial := "";
           r_sign_signature := ""; r_attest := "" |})
  end.

(** [avp_op_delete]; the slot erase is a TODO. *)
Definition avp_op_delete (cmd : avp_cmd) : M (avp_ret * avp_resp) :=
  valid <- avp_session_valid ;;
  if negb valid then fail AVP_ERR_NOT_AUTHENTICATED else
  c <- get_ctx ;;
  match find_secret_by_name c (cmd_name cmd) with
  | None => fail AVP_ERR_SECRET_NOT_FOUND
  | Some idx =>
      modify_ctx (fun c =>
        set_secrets (<[idx := meta_zero]> (ctx_secrets c))
          (u8 (ctx_secret_count c - 1)) c) ;;;
      mret (AVP_OK, resp_ok)
  end.

(** [avp_op_list] *)
Definition avp_op_list (cmd : avp_cmd) : M (avp_ret * avp_resp) :=
  valid <- avp_session_valid ;;
  if negb valid then fail AVP_ERR_NOT_AUTHENTICATED else
  c <- get_ctx ;;
  let names := list_names (take AVP_MAX_SECRETS (ctx_secrets c)) 0 in
  mret (AVP_OK,
    {| r_ok := true; r_error_code := AVP_OK;
       r_discover_version := ""; r_discover_backend_type := "";
       r_discover_manufacturer := ""; r_discover_model := "";
       r_discover_serial := ""; r_discover_hw_sign := false;
       r_discover_hw_attest := false; r_discover_max_secrets := 0;
       r_discover_max_secret_size := 0;
       r_auth_session_id := ""; r_auth_expires_in := 0; r_auth_workspace := "";
       r_retrieve_value := ""; r_list_names := names;
       r_list_count := Z.of_nat (length names);
       r_hwc_verified := false; r_hwc_model := ""; r_hwc_serial := "";
       r_sign_signature := ""; r_attest := "" |}).

(** [avp_op_rotate]: [return avp_op_store(ctx, cmd, resp);] *)
Definition avp_op_rotate (cmd : avp_cmd) : M (avp_ret * avp_resp) :=
  avp_op_store cmd.

(** [avp_op_hw_challenge] *)
Definition avp_op_hw_challenge (cmd : avp_cmd) : M (avp_ret * avp_resp) :=
  mret (AVP_OK,
    {| r_ok := true; r_error_code := AVP_OK;
       r_discover_version := ""; r_discover_backend_type := "";
       r_discover_manufacturer := ""; r_discover_model := "";
       r_discover_serial := ""; r_discover_hw_sign := false;
       r_discover_hw_attest := false; r_discover_max_secrets := 0;
       r_discover_max_secret_size := 0;
       r_auth_session_id := ""; r_auth_expires_in := 0; r_auth_workspace := "";
       r_retrieve_value := ""; r_list_names := []; r_list_count := 0;
       r_hwc_verified := true; r_hwc_model := "TROPIC01";
       r_hwc_serial := "NC00000001";
       r_sign_signature := ""; r_attest := "" |}).

(** [avp_op_hw_sign]: a placeholder signature of 64 random bytes. *)
Definition avp_op_hw_sign (cmd : avp_cmd) : M (avp_ret * avp_resp) :=
  valid <- avp_session_valid ;;
  if negb valid then fail AVP_ERR_NOT_AUTHENTICATED else
  sig <- random_bytes 64 ;;
  mret (AVP_OK,
    {| r_ok := true; r_error_code := AVP_OK;
       r_discover_version := ""; r_discover_backend_type := "";
       r_discover_manufacturer := ""; r_discover_model := "";
       r_discover_serial := ""; r_discover_hw_sign := false;
       r_discover_hw_attest := false; r_discover_max_secrets := 0;
       r_discover_max_secret_size := 0;
       r_auth_session_id := ""; r_auth_expires_in := 0; r_auth_workspace := "";
       r_retrieve_value := ""; r_list_names := []; r_list_count := 0;
       r_hwc_verified := false; r_hwc_model := ""; r_hwc_serial := "";
       r_sign_signature := hex_encode sig; r_attest := "" |}).

(** [avp_op_hw_attest] *)
Definition avp_op_hw_attest (cmd : avp_cmd) : M (avp_ret * avp_resp) :=
  valid <- avp_session_valid ;;
  if negb valid then fail AVP_ERR_NOT_AUTHENTICATED else
  mret (AVP_OK,
    {| r_ok := true; r_error_code := AVP_OK;
       r_discover_version := ""; r_discover_backend_type := "";
       r_discover_manufacturer := ""; r_discover_model := "";
       r_discover_serial := ""; r_discover_hw_sign := false;
       r_discover_hw_attest := false; r_discover_max_secrets := 0;
       r_discover_max_secret_size := 0;
       r_auth_session_id := ""; r_auth_expires_in := 0; r_auth_workspace := "";
       r_retrieve_value := ""; r_list_names := []; r_list_count := 0;
       r_hwc_verified := false; r_hwc_model := ""; r_hwc_serial := "";
       r_sign_signature := ""; r_attest := c_trunc 511 ATTESTATION |}).

(** The [switch (cmd.op)] of [avp_process]. *)
Definition avp_exec (cmd : avp_cmd) : M (avp_ret * avp_resp) :=
  match cmd_op cmd with
  | AVP_OP_DISCOVER => avp_op_discover
  | AVP_OP_AUTHENTICATE => avp_op_authenticate cmd
  | AVP_OP_STORE => avp_op_store cmd
  | AVP_OP_RETRIEVE => avp_op_retrieve cmd
  | AVP_OP_DELETE => avp_op_delete cmd
  | AVP_OP_LIST => avp_op_list cmd
  | AVP_OP_ROTATE => avp_op_rotate cmd
  | AVP_OP_HW_CHALLENGE => avp_op_hw_challenge cmd
  | AVP_OP_HW_SIGN => avp_op_hw_sign cmd
  | AVP_OP_HW_ATTEST => avp_op_hw_attest cmd
  | AVP_OP_UNKNOWN => fail AVP_ERR_INVALID_OP
  end.

(** One decoded request: the response handed to [avp_format_resp]. *)
Definition avp_dispatch (cmd : avp_cmd) : M avp_resp :=
  r <- avp_exec cmd ;; mret (snd r).

(** A sequence of decoded requests, processed one at a time. *)
Fixpoint avp_run (cmds : list avp_cmd) : M (list avp_resp) :=
  match cmds with
  | [] => mret []
  | cmd :: rest =>
      r <- avp_dispatch cmd ;; rs <- avp_run rest ;; mret (r :: rs)
  end.

(** [avp_process] up to [avp_format_resp]: the response structure. *)
Definition avp_process (json_in : string) : M avp_resp :=
  match avp_parse_cmd json_in with
  | (AVP_OK, Some cmd) => avp_dispatch cmd
  | (ret, _) => mret (resp_err ret)
  end.

End Platform.

(** ** Predicates on states used by the statements *)

(** The condition under which [avp_session_valid] answers true at clock
    reading [now]. *)
Definition session_live (c : avp_ctx) (now : Z) : bool :=
  ss_active (ctx_session c) &&
  (now <? u32 (ss_created_at (ctx_session c) + ss_ttl (ctx_session c))).

(** Operations whose handler starts with [avp_session_valid]. *)
Definition requires_session (op : avp_op) : bool :=
  match op with
  | AVP_OP_STORE | AVP_OP_RETRIEVE | AVP_OP_DELETE | AVP_OP_LIST
  | AVP_OP_ROTATE | AVP_OP_HW_SIGN | AVP_OP_HW_ATTEST => true
  | _ => false
  end.

Definition count_in_use (l : list avp_secret_meta) : nat :=
  length (List.filter sm_in_use l).

Definition pin_attempts (w : world) : Z := ss_pin_attempts (ctx_session (w_ctx w)).

Definition tick (w : world) : world :=
  {| w_ctx := w_ctx w; w_clock := S (w_clock w); w_rng := w_rng w |}.

Definition with_op (op : avp_op) (cmd : avp_cmd) : avp_cmd :=
  {| cmd_op := op; cmd_session_id := cmd_session_id cmd;
     cmd_workspace := cmd_workspace cmd; cmd_name := cmd_name cmd;
     cmd_value := cmd_value cmd; cmd_auth_method := cmd_auth_method cmd;
     cmd_pin := cmd_pin cmd; cmd_ttl := cmd_ttl cmd;
     cmd_key_name := cmd_key_name cmd; cmd_data := cmd_data cmd;
     cmd_data_len := cmd_data_len cmd |}.

Definition with_session_id (sid : string) (cmd : avp_cmd) : avp_cmd :=
  {| cmd_op := cmd_op cmd; cmd_session_id := sid;
     cmd_workspace := cmd_workspace cmd; cmd_name := cmd_name cmd;
     cmd_value := cmd_value cmd; cmd_auth_method := cmd_auth_method cmd;
     cmd_pin := cmd_pin cmd; cmd_ttl := cmd_ttl cmd;
     cmd_key_name := cmd_key_name cmd; cmd_data := cmd_data cmd;
     cmd_data_len := cmd_data_len cmd |}.

Definition is_pin_invalid (r : avp_resp) : bool :=
  match r_error_code r with
  | AVP_ERR_PIN_INVALID => negb (r_ok r)
  | _ => false
  end.

Definition n_pin_invalid (rs : list avp_resp) : nat :=
  length (List.filter is_pin_invalid rs).

(** A successful AUTHENTICATE (the only handler resetting the counter). *)
Definition auth_succeeded (cmd : avp_cmd) (r : avp_resp) : Prop :=
  cmd_op cmd = AVP_OP_AUTHENTICATE /\ r_ok r = true.

Definition is_session_expired (e : avp_ret) : bool :=
  match e with AVP_ERR_SESSION_EXPIRED => true | _ => false end.

(** The ttl [avp_parse_cmd] decodes: [requested_ttl] if present, else [ttl]
    if present, else [AVP_DEFAULT_TTL]. *)
Definition decoded_ttl (json_in : string) : Z :=
  default (default AVP_DEFAULT_TTL (json_find_int (c_str json_in) "ttl"))
          (json_find_int (c_str json_in) "requested_ttl").

(** The session ttl [avp_op_authenticate] derives from a decoded ttl. *)
Definition session_ttl_of (t : Z) : Z := if t >? 0 then t else AVP_DEFAULT_TTL.

(** ** Concrete platforms and requests *)

(** A clock that reads [k] seconds at its [k]-th call, and a byte source. *)
Definition clock_ticks (k : nat) : Z := Z.of_nat k.
Definition rng_counter (k : nat) : Z := Z.of_nat k.

Definition mk_cmd (op : avp_op) (name value pin : string) (ttl : Z) : avp_cmd :=
  {| cmd_op := op; cmd_session_id := ""; cmd_workspace := ""; cmd_name := name;
     cmd_value := value; cmd_auth_method := "pin"; cmd_pin := pin;
     cmd_ttl := ttl; cmd_key_name := ""; cmd_data := []; cmd_data_len := 0 |}.

Definition bad_pin_auth : avp_cmd := mk_cmd AVP_OP_AUTHENTICATE "" "" "1" 300.
Definition good_pin_auth : avp_cmd := mk_cmd AVP_OP_AUTHENTICATE "" "" "123456" 300.

Definition five_bad_auths : list avp_cmd :=
  [bad_pin_auth; bad_pin_auth; bad_pin_auth; bad_pin_auth; bad_pin_auth].

Definition lockout_run1 : list avp_resp * world :=
  Eval vm_compute in avp_run clock_ticks rng_counter five_bad_auths world_init.

Definition lockout_run2 : list avp_resp * world :=
  Eval vm_compute in
    avp_run clock_ticks rng_counter [good_pin_auth; good_pin_auth] (snd lockout_run1).

Definition store_anthropic : avp_cmd :=
  mk_cmd AVP_OP_STORE "anthropic" "sk-ant-abc" "" 300.
Definition retrieve_anthropic : avp_cmd :=
  mk_cmd AVP_OP_RETRIEVE "anthropic" "" "" 300.
Definition auth_ttl60 : avp_cmd := mk_cmd AVP_OP_AUTHENTICATE "" "" "123456" 60.

(** A clock whose [k]-th reading is [61 * k] seconds: the request after an
    AUTHENTICATE with ttl 60 runs 61 seconds later. *)
Definition clock_61s (k : nat) : Z := 61 * Z.of_nat k.

(** JSON request texts. *)
Definition jkey (k : string) : string := dq ++ k ++ dq ++ ":".
Definition jstr (k v : string) : string := jkey k ++ dq ++ v ++ dq.

Definition json_auth_ttl (ttl : string) : string :=
  "{" ++ jstr "op" "AUTHENTICATE" ++ "," ++ jstr "pin" "123456" ++ ","
      ++ jkey "requested_ttl" ++ ttl ++ "}".
Definition json_auth_plain : string :=
  "{" ++ jstr "op" "AUTHENTICATE" ++ "," ++ jstr "pin" "123456" ++ "}".

(** Thirty-two STORE requests of distinct one-letter names, then one more. *)
Definition store_letter (i : nat) : avp_cmd :=
  mk_cmd AVP_OP_STORE (String (ascii_of_nat (65 + i)) EmptyString) "v" "" 300.
Definition fill_table : list avp_cmd := good_pin_auth :: map store_letter (seq 0 32).
Definition store_extra : avp_cmd := mk_cmd AVP_OP_STORE "extra" "v" "" 300.

Definition full_run : list avp_resp * world :=
  Eval vm_compute in avp_run clock_ticks rng_counter fill_table world_init.

Section Observe.

Variable clock : nat -> Z.

Definition now_of (w : world) : Z := u32 (clock (w_clock w)).

(** The world after [avp_session_valid]. *)
Definition session_valid_after (w : world) : world :=
  if ss_active (ctx_session (w_ctx w)) then
    if session_live (w_ctx w) (now_of w) then tick w
    else {| w_ctx := set_session (set_active false (ctx_session (w_ctx w))) (w_ctx w);
            w_clock := S (w_clock w); w_rng := w_rng w |}
  else w.

End Observe.

Definition table_inv (c : avp_ctx) : Prop :=
  length (ctx_secrets c) = AVP_MAX_SECRETS /\
  ctx_secret_count c = Z.of_nat (count_in_use (ctx_secrets c)).

(** ** Hex, tables and response formatting (avp.c, avp_cmd.c) *)

(** The suffix of [s] after its first [k] characters. *)
Fixpoint str_drop (k : nat) (s : string) : string :=
  match k, s with
  | O, _ => s
  | S k', String _ s' => str_drop k' s'
  | S _, EmptyString => EmptyString
  end.

(** No two in-use entries of a table share a name, and every in-use name
    fits [name[AVP_MAX_NAME_LEN]]. *)
Definition names_ok (l : list avp_secret_meta) : Prop :=
  (forall i j mi mj, l !! i = Some mi -> l !! j = Some mj ->
     sm_in_use mi = true -> sm_in_use mj = true -> sm_name mi = sm_name mj -> i = j) /\
  (forall i m, l !! i = Some m -> sm_in_use m = true ->
     (String.length (sm_name m) <= AVP_MAX_NAME_LEN - 1)%nat).

(** [avp_error_str] *)
Definition avp_error_str (e : avp_ret) : string :=
  match e with
  | AVP_OK => "OK"
  | AVP_ERR_PARSE => "PARSE_ERROR"
  | AVP_ERR_INVALID_OP => "INVALID_OPERATION"
  | AVP_ERR_INVALID_PARAM => "INVALID_PARAMETER"
  | AVP_ERR_NOT_AUTHENTICATED => "NOT_AUTHENTICATED"
  | AVP_ERR_SESSION_EXPIRED => "SESSION_EXPIRED"
  | AVP_ERR_SECRET_NOT_FOUND => "SECRET_NOT_FOUND"
  | AVP_ERR_CAPACITY => "CAPACITY_EXCEEDED"
  | AVP_ERR_HARDWARE => "HARDWARE_ERROR"
  | AVP_ERR_CRYPTO => "CRYPTO_ERROR"
  | AVP_ERR_PIN_INVALID => "PIN_INVALID"
  | AVP_ERR_PIN_LOCKED => "PIN_LOCKED"
  | AVP_ERR_INTERNAL => "INTERNAL_ERROR"
  end.

(** [%u] of an [unsigned int]: the decimal digits of the value mod 2^32
    (at most ten). *)
Definition dec_digit (d : Z) : ascii := ascii_of_nat (48 + Z.to_nat d).

Fixpoint dec_aux (fuel : nat) (v : Z) (acc : string) : string :=
  match fuel with
  | O => acc
  | S f =>
      let acc' := String (dec_digit (v mod 10)) acc in
      if v <? 10 then acc' else dec_aux f (v / 10) acc'
  end.

Definition fmt_u (v : Z) : string := dec_aux 10 (u32 v) EmptyString.

(** [%s] of a [bool ? "true" : "false"]. *)
Definition fmt_bool (b : bool) : string := if b then "true" else "false".

(** [s[0] != 0] for a char array. *)
Definition c_nonempty (s : string) : bool := negb (String.eqb (c_str s) "").

Definition nul : ascii := ascii_of_nat 0.

(** The output buffer [json] of [len] bytes (its contents) and whether a
    byte has been stored at or past [json + len]. *)
Record sbuf : Type := {
  sb_data : list ascii;
  sb_oob : bool
}.

Definition sb_put (p : nat) (c : ascii) (b : sbuf) : sbuf :=
  if (p <? length (sb_data b))%nat then
    {| sb_data := <[p := c]> (sb_data b); sb_oob := sb_oob b |}
  else {| sb_data := sb_data b; sb_oob := true |}.

Fixpoint sb_write (p : nat) (s : string) (b : sbuf) : sbuf :=
  match s with
  | EmptyString => b
  | String c s' => sb_write (S p) s' (sb_put p c b)
  end.

(** [snprintf(json + off, size, ...)] whose expansion is [s]: at most
    [size - 1] characters of [s] and a terminator, nothing when
    [size = 0]; the call returns [strlen(s)]. *)
Definition snprintf_at (off size : Z) (s : string) (b : sbuf) : sbuf :=
  if size =? 0 then b
  else sb_write (Z.to_nat off)
         ((if Z.of_nat (String.length s) <? size then s
           else substring 0 (Z.to_nat (size - 1)) s) ++ String nul EmptyString) b.

(** [size_t] of the 32-bit target. *)
Definition size_t (z : Z) : Z := u32 z.

Definition error_text (e : avp_ret) : string :=
  "{" ++ jkey "ok" ++ "false," ++ jstr "error" (avp_error_str e) ++ ","
      ++ jstr "message" (avp_error_str e) ++ "}".

Definition discover_text (r : avp_resp) : string :=
  "{" ++ jkey "ok" ++ "true,"
      ++ jstr "version" (c_str (r_discover_version r)) ++ ","
      ++ jstr "backend_type" (c_str (r_discover_backend_type r)) ++ ","
      ++ jstr "manufacturer" (c_str (r_discover_manufacturer r)) ++ ","
      ++ jstr "model" (c_str (r_discover_model r)) ++ ","
      ++ jstr "serial" (c_str (r_discover_serial r)) ++ ","
      ++ jkey "capabilities" ++ "{"
      ++ jkey "hw_sign" ++ fmt_bool (r_discover_hw_sign r) ++ ","
      ++ jkey "hw_attest" ++ fmt_bool (r_discover_hw_attest r) ++ ","
      ++ jkey "max_secrets" ++ fmt_u (r_discover_max_secrets r) ++ ","
      ++ jkey "max_secret_size" ++ fmt_u (r_discover_max_secret_size r) ++ "}}".

Definition auth_text (r : avp_resp) : string :=
  "{" ++ jkey "ok" ++ "true,"
      ++ jstr "session_id" (c_str (r_auth_session_id r)) ++ ","
      ++ jkey "expires_in" ++ fmt_u (r_auth_expires_in r) ++ ","
      ++ jstr "workspace" (c_str (r_auth_workspace r)) ++ "}".

Definition value_text (r : avp_resp) : string :=
  "{" ++ jkey "ok" ++ "true," ++ jstr "value" (c_str (r_retrieve_value r)) ++ "}".

Definition signature_text (r : avp_resp) : string :=
  "{" ++ jkey "ok" ++ "true," ++ jstr "signature" (c_str (r_sign_signature r)) ++ "}".

Definition ok_text : string := "{" ++ jkey "ok" ++ "true}".

Definition list_head : string := "{" ++ jkey "ok" ++ "true," ++ jkey "secrets" ++ "[".

(** The loop [for (i = 0; i < resp->list.count && n < (int)len - 10; i++)]
    of [avp_format_resp]; [k] counts the iterations left before
    [i = count]. *)
Fixpoint fmt_list_loop (len : Z) (names : list string) (k i : nat) (n : Z)
    (b : sbuf) : Z * sbuf :=
  match k with
  | O => (n, b)
  | S k' =>
      if n <? len - 10 then
        let '(n1, b1) :=
          if (0 <? i)%nat then (n + 1, snprintf_at n (size_t (len - n)) "," b)
          else (n, b) in
        let s := (dq ++ c_str (nth i names EmptyString) ++ dq)%string in
        fmt_list_loop len names k' (S i) (n1 + Z.of_nat (String.length s))
          (snprintf_at n1 (size_t (len - n1)) s b1)
      else (n, b)
  end.

Definition one_text (len : Z) (s : string) (b : sbuf) : Z * sbuf :=
  (Z.of_nat (String.length s), snprintf_at 0 (size_t len) s b).

(** [avp_format_resp].  [error_msg] and [hw_challenge.challenge] are never
    written by the engine ([avp_process] clears the response first), so the
    message is [avp_error_str(error_code)] and the HW_CHALLENGE branch is
    never taken. *)
Definition avp_format_resp (r : avp_resp) (len : nat) (b : sbuf) : avp_ret * sbuf :=
  let L := Z.of_nat len in
  let '(n, b') :=
    if negb (r_ok r) then one_text L (error_text (r_error_code r)) b
    else if c_nonempty (r_discover_version r) then one_text L (discover_text r) b
    else if c_nonempty (r_auth_session_id r) then one_text L (auth_text r) b
    else if c_nonempty (r_retrieve_value r) then one_text L (value_text r) b
    else if 0 <? r_list_count r then
      let n0 := Z.of_nat (String.length list_head) in
      let '(n1, b1) :=
        fmt_list_loop L (r_list_names r) (Z.to_nat (r_list_count r)) 0 n0
          (snprintf_at 0 (size_t L) list_head b) in
      (n1 + 2, snprintf_at n1 (size_t (L - n1)) "]}" b1)
    else if c_nonempty (r_sign_signature r) then one_text L (signature_text r) b
    else one_text L ok_text b in
  (if n >=? L then AVP_ERR_INTERNAL else AVP_OK, b').

Definition AVP_MAX_JSON_LEN : nat := 1024.

Definition crlf : string := String (ascii_of_nat 13) (String (ascii_of_nat 10) EmptyString).

Definition internal_error_line : string :=
  "{" ++ jkey "ok" ++ "false," ++ jstr "error" "INTERNAL_ERROR" ++ "}" ++ crlf.

(** The C string held by the buffer. *)
Definition sb_text (b : sbuf) : string := c_str (string_of_list_ascii (sb_data b)).

Section Output.

Variable clock : nat -> Z.
Variable rng : nat -> Z.

(** [avp_process]: dispatch, then [avp_format_resp(&resp, json_out, out_len)]. *)
Definition avp_process_out (json_in : string) (out_len : nat) (out : sbuf)
    : M (avp_ret * sbuf) :=
  r <- avp_process clock rng json_in ;; mret (avp_format_resp r out_len out).

(** [avp_cmd_process] on the static [avp_response] buffer: the line it
    prints, [None] when a byte was stored past the buffer. *)
Definition avp_cmd_process (data : string) (avp_response : list ascii)
    : M (option string * list ascii) :=
  res <- avp_process_out data AVP_MAX_JSON_LEN
           {| sb_data := avp_response; sb_oob := false |} ;;
  let '(ret, b) := res in
  mret (if sb_oob b then None
        else Some (match ret with
                   | AVP_OK => (sb_text b ++ crlf)%string
                   | _ => internal_error_line
                   end),
        sb_data b).

End Output.

(** ** Session invalidation (avp.c) *)

(** [avp_session_invalidate] *)
Definition avp_session_invalidate (c : avp_ctx) : avp_ctx :=
  set_session
    {| ss_active := false; ss_session_id := EmptyString;
       ss_workspace := ss_workspace (ctx_session c);
       ss_created_at := ss_created_at (ctx_session c);
       ss_ttl := ss_ttl (ctx_session c);
       ss_pin_attempts := ss_pin_attempts (ctx_session c) |} c.

Definition invalidate_world (w : world) : world :=
  {| w_ctx := avp_session_invalidate (w_ctx w); w_clock := w_clock w; w_rng := w_rng w |}.

(** ** Hardware abstraction (avp_hw.c) *)

(** One step of the fallback generator: [seed = seed * 1103515245 + 12345]
    in [uint32_t]. *)
Definition lcg_next (seed : Z) : Z := u32 (seed * 1103515245 + 12345).

(** [for (i = 0; i < len; i++) { seed = ...; buf[i] = (uint8_t)(seed >> 16); }] *)
Fixpoint lcg_fill (seed : Z) (n : nat) : list Z :=
  match n with
  | O => []
  | S n' => u8 (Z.shiftr (lcg_next seed) 16) :: lcg_fill (lcg_next seed) n'
  end.

Fixpoint lcg_iter (seed : Z) (n : nat) : Z :=
  match n with O => seed | S n' => lcg_iter (lcg_next seed) n' end.

Record hw_state : Type := {
  hw_timer_calls : nat;
  hw_rng_calls : nat }.

Section HW.

(** [timer k]: the [k]-th value of [timer_get_time()];
    [hal_rng k]: the [k]-th call of [HAL_RNG_GenerateRandomNumber], [Some w]
    when it returns [HAL_OK] with [random_word = w]. *)
Variable timer : nat -> Z.
Variable hal_rng : nat -> option Z.

(** [(uint8_t)(random_word >> (j * 8))] for [j < copy_len]. *)
Definition word_bytes (w : Z) (copy_len : nat) : list Z :=
  map (fun j => u8 (Z.shiftr (u32 w) (Z.of_nat j * 8))) (seq 0 copy_len).

(** The hardware loop of [avp_hw_random_bytes] with [remaining = len - i];
    [fuel] bounds the iterations (each copies at least one byte). *)
Fixpoint hw_fill (fuel remaining : nat) (st : hw_state) : list Z * hw_state :=
  match fuel with
  | O => ([], st)
  | S fuel' =>
      match remaining with
      | O => ([], st)
      | S _ =>
          match hal_rng (hw_rng_calls st) with
          | Some w =>
              let copy_len := if (4 <=? remaining)%nat then 4%nat else remaining in
              let '(rest, st') :=
                hw_fill fuel' (remaining - copy_len)
                  {| hw_timer_calls := hw_timer_calls st; hw_rng_calls := S (hw_rng_calls st) |} in
              (word_bytes w copy_len ++ rest, st')
          | None =>
              (* RNG error: timer fallback for the remaining bytes, then break *)
              (lcg_fill (u32 (timer (hw_timer_calls st))) remaining,
               {| hw_timer_calls := S (hw_timer_calls st); hw_rng_calls := S (hw_rng_calls st) |})
          end
      end
  end.

(** [avp_hw_random_bytes]: the bytes written to [buf[0..len)]. *)
Definition avp_hw_random_bytes (rng_initialized : bool) (len : nat) (st : hw_state)
  : list Z * hw_state :=
  if negb rng_initialized then
    (lcg_fill (u32 (timer (hw_timer_calls st))) len,
     {| hw_timer_calls := S (hw_timer_calls st); hw_rng_calls := hw_rng_calls st |})
  else hw_fill len len st.

(** [avp_hw_get_time]: [timer_get_time() / 1000]. *)
Definition avp_hw_get_time (st : hw_state) : Z * hw_state :=
  (u32 (timer (hw_timer_calls st)) / 1000,
   {| hw_timer_calls := S (hw_timer_calls st); hw_rng_calls := hw_rng_calls st |}).

End HW.

(** The little-endian bytes of successive words [word k], [word (k+1)], ... *)
Definition words_le (word : nat -> Z) (k n : nat) : list Z :=
  flat_map (fun i => word_bytes (word i) 4) (seq k n).

(** ** TROPIC01 wrappers (avp_tropic.c) *)

(** libtropic return codes: [LT_OK], [LT_L3_INVALID_SLOT], the others. *)
Inductive lt_ret : Type :=
| LT_OK
| LT_L3_INVALID_SLOT
| LT_OTHER (code : Z).

(** The libtropic calls the wrappers make, with their arguments. *)
Inductive lt_call : Type :=
| LT_INIT
| LT_DEINIT
| LT_R_MEM_DATA_WRITE (slot : Z) (data : list Z) (len : Z)
| LT_R_MEM_DATA_READ (slot : Z) (read_len : Z)
| LT_ECC_ECDSA_SIGN (key_slot : Z) (data_len : Z)
| LT_GET_INFO_CERT.

(** [lt_initialized], whether [ctx->tropic_handle] is non-NULL, and the
    calls made so far. *)
Record tropic_state : Type := {
  lt_initialized : bool;
  tropic_handle : bool;
  lt_log : list lt_call }.

Definition AVP_SLOT_SECRETS_END : Z := 127.
Definition AVP_SLOT_KEYS_END : Z := 31.

Definition u16 (z : Z) : Z := z mod 2 ^ 16.

Section Tropic.

(** [lt_reply h c]: what the device answers to call [c] after the calls
    [h]; [lt_read_len h]: the [read_len] a read stores. *)
Variable lt_reply : list lt_call -> lt_call -> lt_ret.
Variable lt_read_len : list lt_call -> Z.

Definition lt_do (c : lt_call) (s : tropic_state) : lt_ret * tropic_state :=
  (lt_reply (lt_log s) c,
   {| lt_initialized := lt_initialized s; tropic_handle := tropic_handle s;
      lt_log := lt_log s ++ [c] |}).

(** [!lt_initialized || !ctx->tropic_handle] *)
Definition lt_down (s : tropic_state) : bool :=
  negb (lt_initialized s) || negb (tropic_handle s).

Definition is_lt_ok (r : lt_ret) : bool :=
  match r with LT_OK => true | _ => false end.

(** [avp_tropic_init] *)
Definition avp_tropic_init (s : tropic_state) : avp_ret * tropic_state :=
  if lt_initialized s then (AVP_OK, s) else
  let '(ret, s1) := lt_do LT_INIT s in
  if negb (is_lt_ok ret) then (AVP_ERR_HARDWARE, s1) else
  (AVP_OK, {| lt_initialized := true; tropic_handle := true; lt_log := lt_log s1 |}).

(** [avp_tropic_deinit]; the result of [lt_deinit] is ignored. *)
Definition avp_tropic_deinit (s : tropic_state) : tropic_state :=
  if lt_initialized s then
    let '(_, s1) := lt_do LT_DEINIT s in
    {| lt_initialized := false; tropic_handle := false; lt_log := lt_log s1 |}
  else s.

(** [avp_tropic_verify_pin]: the result and the value of [*attempts]. *)
Definition avp_tropic_verify_pin (s : tropic_state) (pin : string) (attempts : Z)
  : avp_ret * Z :=
  if lt_down s then (AVP_ERR_HARDWARE, attempts)
  else if (4 <=? String.length pin)%nat then (AVP_OK, 5)
  else (AVP_ERR_PIN_INVALID, 4).

(** [avp_tropic_store] *)
Definition avp_tropic_store (s : tropic_state) (slot : Z) (data : list Z) (len : Z)
  : avp_ret * tropic_state :=
  if lt_down s then (AVP_ERR_HARDWARE, s)
  else if (slot <? SLOT_SECRETS_START) || (AVP_SLOT_SECRETS_END <? slot) then
    (AVP_ERR_INVALID_PARAM, s)
  else if 256 <? len then (AVP_ERR_CAPACITY, s)
  else
    let '(ret, s1) := lt_do (LT_R_MEM_DATA_WRITE slot data len) s in
    if negb (is_lt_ok ret) then (AVP_ERR_HARDWARE, s1) else (AVP_OK, s1).

(** [avp_tropic_retrieve]: the result, the value of [*len], and the state. *)
Definition avp_tropic_retrieve (s : tropic_state) (slot : Z) (len : Z)
  : avp_ret * Z * tropic_state :=
  if lt_down s then (AVP_ERR_HARDWARE, len, s)
  else if (slot <? SLOT_SECRETS_START) || (AVP_SLOT_SECRETS_END <? slot) then
    (AVP_ERR_INVALID_PARAM, len, s)
  else
    let read_len := u16 len in
    let read_len' := u16 (lt_read_len (lt_log s)) in
    let '(ret, s1) := lt_do (LT_R_MEM_DATA_READ slot read_len) s in
    match ret with
    | LT_OK => (AVP_OK, read_len', s1)
    | LT_L3_INVALID_SLOT => (AVP_ERR_SECRET_NOT_FOUND, len, s1)
    | LT_OTHER _ => (AVP_ERR_HARDWARE, len, s1)
    end.

(** [avp_tropic_erase]: [uint8_t zeros[256] = {0}] written to the slot. *)
Definition avp_tropic_erase (s : tropic_state) (slot : Z) : avp_ret * tropic_state :=
  if lt_down s then (AVP_ERR_HARDWARE, s)
  else if (slot <? SLOT_SECRETS_START) || (AVP_SLOT_SECRETS_END <? slot) then
    (AVP_ERR_INVALID_PARAM, s)
  else
    let '(ret, s1) := lt_do (LT_R_MEM_DATA_WRITE slot (repeat 0 256) 256) s in
    if negb (is_lt_ok ret) then (AVP_ERR_HARDWARE, s1) else (AVP_OK, s1).

(** [avp_tropic_sign] (the signature bytes the device writes are not
    modelled). *)
Definition avp_tropic_sign (s : tropic_state) (key_slot data_len sig_len : Z)
  : avp_ret * tropic_state :=
  if lt_down s then (AVP_ERR_HARDWARE, s)
  else if AVP_SLOT_KEYS_END <? key_slot then (AVP_ERR_INVALID_PARAM, s)
  else if sig_len <? 64 then (AVP_ERR_INVALID_PARAM, s)
  else
    let '(ret, s1) := lt_do (LT_ECC_ECDSA_SIGN key_slot data_len) s in
    if negb (is_lt_ok ret) then (AVP_ERR_CRYPTO, s1) else (AVP_OK, s1).

(** [avp_tropic_attest]: the challenge is signed with key slot 0. *)
Definition avp_tropic_attest (s : tropic_state) (resp_len : Z) : avp_ret * tropic_state :=
  if lt_down s then (AVP_ERR_HARDWARE, s)
  else if resp_len <? 64 then (AVP_ERR_INVALID_PARAM, s)
  else
    let '(ret, s1) := lt_do (LT_ECC_ECDSA_SIGN 0 32) s in
    if negb (is_lt_ok ret) then (AVP_ERR_CRYPTO, s1) else (AVP_OK, s1).

(** [avp_tropic_get_info]: the result, [serial] and [fw_version]. *)
Definition avp_tropic_get_info (s : tropic_state)
  : avp_ret * string * string * tropic_state :=
  if lt_down s then (AVP_OK, "NC00000001", "1.0.0", s)
  else
    let '(ret, s1) := lt_do LT_GET_INFO_CERT s in
    (AVP_OK, (if is_lt_ok ret then "NC00000001" else "UNKNOWN"), "1.0.0", s1).

End Tropic.

(** A call of one of the wrappers. *)
Inductive tropic_req : Type :=
| TInit
| TDeinit
| TVerifyPin (pin : string) (attempts : Z)
| TStore (slot : Z) (data : list Z) (len : Z)
| TRetrieve (slot : Z) (len : Z)
| TErase (slot : Z)
| TSign (key_slot data_len sig_len : Z)
| TAttest (resp_len : Z)
| TGetInfo.

Definition tropic_step (lt_reply : list lt_call -> lt_call -> lt_ret)
  (lt_read_len : list lt_call -> Z) (s : tropic_state) (q : tropic_req) : tropic_state :=
  match q with
  | TInit => snd (avp_tropic_init lt_reply s)
  | TDeinit => avp_tropic_deinit lt_reply s
  | TVerifyPin _ _ => s
  | TStore slot data len => snd (avp_tropic_store lt_reply s slot data len)
  | TRetrieve slot len => snd (avp_tropic_retrieve lt_reply lt_read_len s slot len)
  | TErase slot => snd (avp_tropic_erase lt_reply s slot)
  | TSign k dl sl => snd (avp_tropic_sign lt_reply s k dl sl)
  | TAttest rl => snd (avp_tropic_attest lt_reply s rl)
  | TGetInfo => snd (avp_tropic_get_info lt_reply s)
  end.

Definition tropic_run lt_reply lt_read_len (s : tropic_state) (qs : list tropic_req)
  : tropic_state :=
  fold_left (tropic_step lt_reply lt_read_len) qs s.

(** Calls that stay inside the documented slot map: writes of at most 256
    bytes and reads to the secret slots 96..127, signatures with the key
    slots 0..31. *)
Definition call_in_map (c : lt_call) : Prop :=
  match c with
  | LT_R_MEM_DATA_WRITE slot _ len => 96 <= slot <= 127 /\ len <= 256
  | LT_R_MEM_DATA_READ slot _ => 96 <= slot <= 127
  | LT_ECC_ECDSA_SIGN k _ => k <= 31
  | _ => True
  end.

(** Power-on: [lt_initialized = false], [ctx->tropic_handle = NULL]
    ([avp_cmd_init] passes [NULL] to [avp_init]), no calls made. *)
Definition tropic_boot : tropic_state :=
  {| lt_initialized := false; tropic_handle := false; lt_log := [] |}.

(** ** Further concrete platforms and requests *)

Definition name_tail : string := "bcdefghijklmnopqrstuvwxyzbcdefghijklmnopqrstuvwxyzbcdefghijklm".
Definition long_name (i : nat) : string := String (ascii_of_nat (65 + i)) name_tail.
Definition json_store_long (i : nat) : string :=
  "{" ++ jstr "op" "STORE" ++ "," ++ jstr "name" (long_name i) ++ "," ++ jstr "value" "v" ++ "}".
Definition json_list : string := "{" ++ jstr "op" "LIST" ++ "}".
Definition long_names_world : world :=
  Eval vm_compute in
    fold_left (fun w j => snd (avp_process clock_ticks rng_counter j w))
      (json_auth_plain :: map json_store_long (seq 0 16)) world_init.

Definition auth_world : world :=
  Eval vm_compute in snd (avp_dispatch clock_ticks rng_counter good_pin_auth world_init).
Definition auth_store_world : world :=
  Eval vm_compute in snd (avp_dispatch clock_ticks rng_counter store_anthropic auth_world).
Definition parsed_store_long : avp_cmd :=
  Eval vm_compute in default good_pin_auth (snd (avp_parse_cmd (json_store_long 0))).
Definition parsed_list : avp_cmd :=
  Eval vm_compute in default good_pin_auth (snd (avp_parse_cmd json_list)).
Definition avp_response_init : list ascii := repeat nul AVP_MAX_JSON_LEN.
Definition auth_ttl_max : avp_cmd := mk_cmd AVP_OP_AUTHENTICATE "" "" "123456" 4294967295.
Definition auth_ttl_hw_max : avp_cmd := mk_cmd AVP_OP_AUTHENTICATE "" "" "123456" 4290672328.
Definition sign_cmd : avp_cmd := mk_cmd AVP_OP_HW_SIGN "" "" "" 0.
Definition ms_timer (k : nat) : Z := 1000 * Z.of_nat k + 999.
Definition hw_clock (k : nat) : Z :=
  fst (avp_hw_get_time ms_timer {| hw_timer_calls := k; hw_rng_calls := 0 |}).
Definition same_ms_timer (k : nat) : Z := 4000 + Z.of_nat (k / 2).
Definition tropic_up : tropic_state :=
  {| lt_initialized := true; tropic_handle := true; lt_log := [] |}.
Definition lt_always_ok (h : list lt_call) (c : lt_call) : lt_ret := LT_OK.
Definition lt_len_32 (h : list lt_call) : Z := 32.

(** ** Theorems *)

Section Proofs.

Variable clock : nat -> Z.
Variable rng : nat -> Z.

Lemma session_valid_eq (w : world) :
  avp_session_valid clock w = (session_live (w_ctx w) (now_of clock w), session_valid_after clock w).
Proof.
  unfold avp_session_valid, session_valid_after, session_live, now_of,
    mbind, get_ctx, get_time, modify_ctx, put_ctx, mret, tick.
  destruct (ss_active (ctx_session (w_ctx w))); simpl; [|reflexivity].
  rewrite Z.geb_leb.
  destruct (Z.leb_spec (u32 (ss_created_at (ctx_session (w_ctx w)) +
                              ss_ttl (ctx_session (w_ctx w))))
                       (u32 (clock (w_clock w)))) as [Hle|Hlt].
  - replace (_ <? _) with false by (symmetry; apply Z.ltb_ge; lia). reflexivity.
  - replace (_ <? _) with true by (symmetry; apply Z.ltb_lt; lia). reflexivity.
Qed.

(** A closed gate: the handler answers [NOT_AUTHENTICATED] and only the
    session's [active] flag and the clock counter may change. *)
Lemma gate_closed (e : avp_ret) (k : M (avp_ret * avp_resp)) (w : world) :
  session_live (w_ctx w) (now_of clock w) = false ->
  mbind (avp_session_valid clock) (fun v => if negb v then fail e else k) w
  = ((e, resp_err e), session_valid_after clock w).
Proof.
  intros H. unfold mbind at 1. rewrite session_valid_eq, H. reflexivity.
Qed.

Lemma gate_open (e : avp_ret) (k : M (avp_ret * avp_resp)) (w : world) :
  session_live (w_ctx w) (now_of clock w) = true ->
  mbind (avp_session_valid clock) (fun v => if negb v then fail e else k) w
  = k (tick w).
Proof.
  intros H. unfold mbind at 1. rewrite session_valid_eq, H.
  unfold session_valid_after. rewrite H.
  unfold session_live in H. apply andb_prop in H as [-> _]. reflexivity.
Qed.

Lemma session_valid_after_secrets (w : world) :
  ctx_secrets (w_ctx (session_valid_after clock w)) = ctx_secrets (w_ctx w) /\
  ctx_secret_count (w_ctx (session_valid_after clock w)) = ctx_secret_count (w_ctx w) /\
  pin_attempts (session_valid_after clock w) = pin_attempts w.
Proof.
  unfold session_valid_after, pin_attempts.
  destruct (ss_active (ctx_session (w_ctx w))), (session_live (w_ctx w) (now_of clock w)); simpl; auto.
Qed.

(** [C1] *)
(** C1: a request whose operation is not DISCOVER, AUTHENTICATE or
    HW_CHALLENGE, dispatched while the session is inactive or expired,
    fails with NOT_AUTHENTICATED and leaves the secret table and its
    counter untouched; such a request succeeds only when the session is
    active and unexpired at dispatch time. *)
Theorem non_exempt_ops_require_session (cmd : avp_cmd) (w : world) :
  requires_session (cmd_op cmd) = true ->
  (session_live (w_ctx w) (now_of clock w) = false ->
     fst (avp_dispatch clock rng cmd w) = resp_err AVP_ERR_NOT_AUTHENTICATED /\
     ctx_secrets (w_ctx (snd (avp_dispatch clock rng cmd w))) = ctx_secrets (w_ctx w) /\
     ctx_secret_count (w_ctx (snd (avp_dispatch clock rng cmd w)))
       = ctx_secret_count (w_ctx w)) /\
  (r_ok (fst (avp_dispatch clock rng cmd w)) = true ->
     session_live (w_ctx w) (now_of clock w) = true).
Proof.
  intros Hreq.
  assert (Hclosed : session_live (w_ctx w) (now_of clock w) = false ->
     avp_exec clock rng cmd w
     = ((AVP_ERR_NOT_AUTHENTICATED, resp_err AVP_ERR_NOT_AUTHENTICATED),
        session_valid_after clock w)).
  { intros H.
    destruct cmd as [op ? ? ? ? ? ? ? ? ? ?]; destruct op; try discriminate Hreq;
      unfold avp_exec; simpl;
      [ unfold avp_op_store | unfold avp_op_retrieve | unfold avp_op_delete
      | unfold avp_op_list | unfold avp_op_rotate, avp_op_store
      | unfold avp_op_hw_sign | unfold avp_op_hw_attest ];
      apply gate_closed; exact H. }
  unfold avp_dispatch, mbind.
  destruct (session_live (w_ctx w) (now_of clock w)) eqn:Hl.
  - split; [intros Hf; discriminate Hf | intros _; reflexivity].
  - rewrite (Hclosed eq_refl). simpl.
    destruct (session_valid_after_secrets w) as (H1 & H2 & _).
    split; [auto | intros Hf; discriminate Hf].
Qed.

(** [C8] *)
(** C8: ROTATE is STORE: from every state, a decoded ROTATE produces the
    same response and the same post-state as the STORE command with the
    same fields. *)
Theorem rotate_same_as_store (cmd : avp_cmd) (w : world) :
  cmd_op cmd = AVP_OP_ROTATE ->
  avp_dispatch clock rng cmd w = avp_dispatch clock rng (with_op AVP_OP_STORE cmd) w.
Proof.
  destruct cmd as [op ? ? ? ? ? ? ? ? ? ?]; simpl; intros ->. reflexivity.
Qed.

(** [C9] *)
(** C9: the session_id field of a decoded request is never read: two
    requests differing only in it produce the same response and the same
    post-state from the same state (for every operation, in particular the
    session-requiring ones). *)
Theorem session_id_field_ignored (cmd : avp_cmd) (sid1 sid2 : string) (w : world) :
  avp_dispatch clock rng (with_session_id sid1 cmd) w
  = avp_dispatch clock rng (with_session_id sid2 cmd) w.
Proof.
  destruct cmd as [op ? ? ? ? ? ? ? ? ? ?]; destruct op; reflexivity.
Qed.

Ltac run_monad :=
  unfold mbind, get_ctx, put_ctx, modify_ctx, mret, fail, get_time,
    random_bytes, store_touch, tick in *; simpl.

Ltac split_options :=
  repeat (match goal with
          | |- context [match ?x with Some _ => _ | None => _ end] =>
              destruct x; run_monad
          end).

(** Dispatch through a handler that starts with [avp_session_valid]. *)
Lemma dispatch_gate (e : avp_ret) (k : M (avp_ret * avp_resp)) (w : world) :
  (r <- (v <- avp_session_valid clock ;; if negb v then fail e else k) ;;
   mret (snd r)) w
  = if session_live (w_ctx w) (now_of clock w) then (r <- k ;; mret (snd r)) (tick w)
    else (resp_err e, session_valid_after clock w).
Proof.
  unfold mbind at 1.
  destruct (session_live (w_ctx w) (now_of clock w)) eqn:Hl.
  - rewrite (gate_open _ _ _ Hl). reflexivity.
  - rewrite (gate_closed _ _ _ Hl). reflexivity.
Qed.

Ltac open_gate :=
  rewrite dispatch_gate;
  let Hl := fresh "Hl" in
  destruct (session_live _ _) eqn:Hl.

(** Every handler but [avp_op_authenticate] leaves [pin_attempts] alone. *)
Lemma dispatch_pin_other (cmd : avp_cmd) (w : world) :
  cmd_op cmd <> AVP_OP_AUTHENTICATE ->
  pin_attempts (snd (avp_dispatch clock rng cmd w)) = pin_attempts w.
Proof.
  intros Hop. unfold avp_dispatch.
  destruct cmd as [op ? ? ? ? ? ? ? ? ? ?]; destruct op; simpl in Hop;
    try (exfalso; apply Hop; reflexivity);
    unfold avp_exec; simpl; try reflexivity;
    unfold avp_op_rotate, avp_op_store, avp_op_retrieve, avp_op_delete,
      avp_op_list, avp_op_hw_sign, avp_op_hw_attest;
    open_gate;
    try (destruct (session_valid_after_secrets w) as (_ & _ & Hp); exact Hp);
    run_monad; split_options; reflexivity.
Qed.

Lemma dispatch_other_not_pin_invalid (cmd : avp_cmd) (w : world) :
  cmd_op cmd <> AVP_OP_AUTHENTICATE ->
  is_pin_invalid (fst (avp_dispatch clock rng cmd w)) = false.
Proof.
  intros Hop. unfold avp_dispatch.
  destruct cmd as [op ? ? ? ? ? ? ? ? ? ?]; destruct op; simpl in Hop;
    try (exfalso; apply Hop; reflexivity);
    unfold avp_exec; simpl; try reflexivity;
    unfold avp_op_rotate, avp_op_store, avp_op_retrieve, avp_op_delete,
      avp_op_list, avp_op_hw_sign, avp_op_hw_attest;
    open_gate; try reflexivity;
    run_monad; split_options; reflexivity.
Qed.

Lemma dispatch_auth_locked (cmd : avp_cmd) (w : world) :
  cmd_op cmd = AVP_OP_AUTHENTICATE -> 5 <= pin_attempts w ->
  avp_dispatch clock rng cmd w = (resp_err AVP_ERR_PIN_LOCKED, w).
Proof.
  intros Hop Hp. unfold avp_dispatch, avp_exec. rewrite Hop.
  unfold avp_op_authenticate, pin_attempts in *. run_monad.
  replace (ss_pin_attempts (ctx_session (w_ctx w)) >=? AVP_MAX_PIN_ATTEMPTS)
    with true by (symmetry; apply Z.geb_le; unfold AVP_MAX_PIN_ATTEMPTS; lia).
  reflexivity.
Qed.

Lemma dispatch_auth_unlocked (cmd : avp_cmd) (w : world) :
  cmd_op cmd = AVP_OP_AUTHENTICATE -> 0 <= pin_attempts w < 5 ->
  (fst (avp_dispatch clock rng cmd w) = resp_err AVP_ERR_PIN_INVALID /\
   pin_attempts (snd (avp_dispatch clock rng cmd w)) = pin_attempts w + 1) \/
  (r_ok (fst (avp_dispatch clock rng cmd w)) = true /\
   pin_attempts (snd (avp_dispatch clock rng cmd w)) = 0).
Proof.
  intros Hop Hp. unfold avp_dispatch, avp_exec. rewrite Hop.
  unfold avp_op_authenticate, pin_attempts in *. run_monad.
  replace (ss_pin_attempts (ctx_session (w_ctx w)) >=? AVP_MAX_PIN_ATTEMPTS)
    with false by (symmetry; rewrite Z.geb_leb; apply Z.leb_gt; unfold AVP_MAX_PIN_ATTEMPTS; lia).
  destruct (String.length (cmd_pin cmd) <? 4)%nat; simpl.
  - left. split; [reflexivity|]. unfold u8. apply Z.mod_small. lia.
  - right. split; reflexivity.
Qed.

Lemma avp_run_cons (cmd : avp_cmd) (rest : list avp_cmd) (w : world) :
  avp_run clock rng (cmd :: rest) w =
  let '(r, w1) := avp_dispatch clock rng cmd w in
  let '(rs, w2) := avp_run clock rng rest w1 in (r :: rs, w2).
Proof.
  simpl. unfold mbind at 1.
  destruct (avp_dispatch clock rng cmd w) as [r w1].
  unfold mbind, mret. destruct (avp_run clock rng rest w1). reflexivity.
Qed.

Lemma run_locked (cmds : list avp_cmd) (w w' : world) (rs : list avp_resp) :
  avp_run clock rng cmds w = (rs, w') -> 5 <= pin_attempts w ->
  5 <= pin_attempts w' /\
  Forall2 (fun c r => cmd_op c = AVP_OP_AUTHENTICATE -> r = resp_err AVP_ERR_PIN_LOCKED)
    cmds rs.
Proof.
  revert w rs. induction cmds as [|cmd rest IH]; intros w rs Hrun Hp.
  - simpl in Hrun. inversion Hrun; subst. auto.
  - rewrite avp_run_cons in Hrun.
    destruct (avp_dispatch clock rng cmd w) as [r w1] eqn:Hd.
    destruct (avp_run clock rng rest w1) as [rs1 w2] eqn:Hr.
    inversion Hrun; subst rs w2.
    assert (Hw1 : 5 <= pin_attempts w1 /\
                  (cmd_op cmd = AVP_OP_AUTHENTICATE -> r = resp_err AVP_ERR_PIN_LOCKED)).
    { destruct (avp_op_eq_dec (cmd_op cmd) AVP_OP_AUTHENTICATE) as [Ha|Ha].
      - rewrite (dispatch_auth_locked cmd w Ha Hp) in Hd. inversion Hd; subst. auto.
      - pose proof (dispatch_pin_other cmd w Ha) as Hq. rewrite Hd in Hq.
        simpl in Hq. split; [lia | intros; contradiction]. }
    destruct Hw1 as [Hw1 Hr1].
    destruct (IH w1 rs1 Hr Hw1) as [Hfin Hall]. split; [exact Hfin | constructor; auto].
Qed.

Lemma run_pin_lower_bound (cmds : list avp_cmd) (w w' : world) (rs : list avp_resp) :
  avp_run clock rng cmds w = (rs, w') -> 0 <= pin_attempts w ->
  Forall2 (fun c r => ~ auth_succeeded c r) cmds rs ->
  0 <= pin_attempts w' /\
  Z.min 5 (pin_attempts w + Z.of_nat (n_pin_invalid rs)) <= pin_attempts w'.
Proof.
  revert w rs. induction cmds as [|cmd rest IH]; intros w rs Hrun Hp Hno.
  - simpl in Hrun. inversion Hrun; subst. unfold n_pin_invalid. simpl. lia.
  - rewrite avp_run_cons in Hrun.
    destruct (avp_dispatch clock rng cmd w) as [r w1] eqn:Hd.
    destruct (avp_run clock rng rest w1) as [rs1 w2] eqn:Hr.
    inversion Hrun; subst rs w2.
    inversion Hno as [|? ? ? ? Hnot Hno1]; subst.
    assert (Hstep : 0 <= pin_attempts w1 /\
      Z.min 5 (pin_attempts w + (if is_pin_invalid r then 1 else 0))
        <= pin_attempts w1 /\
      (5 <= pin_attempts w -> 5 <= pin_attempts w1)).
    { destruct (avp_op_eq_dec (cmd_op cmd) AVP_OP_AUTHENTICATE) as [Ha|Ha].
      - destruct (Z_lt_le_dec (pin_attempts w) 5) as [Hlt|Hge].
        + destruct (dispatch_auth_unlocked cmd w Ha (conj Hp Hlt))
            as [[H1 H2]|[H1 H2]]; rewrite Hd in H1, H2; simpl in H1, H2.
          * subst r. simpl. lia.
          * exfalso. apply Hnot. split; assumption.
        + rewrite (dispatch_auth_locked cmd w Ha Hge) in Hd.
          inversion Hd; subst. simpl. lia.
      - pose proof (dispatch_pin_other cmd w Ha) as Hq.
        pose proof (dispatch_other_not_pin_invalid cmd w Ha) as Hi.
        rewrite Hd in Hq, Hi. simpl in Hq, Hi. rewrite Hi. lia. }
    destruct Hstep as (Hs0 & Hs1 & Hs2).
    destruct (IH w1 rs1 Hr Hs0 Hno1) as [Hf0 Hf1].
    split; [exact Hf0|].
    unfold n_pin_invalid in *. simpl.
    destruct (is_pin_invalid r); simpl in *; lia.
Qed.

(** [C2] *)
(** C2: PIN lockout.  With five or more recorded failures, every
    AUTHENTICATE answers PIN_LOCKED and leaves the whole state as it was
    (so the PIN check is never reached).  After any sequence of requests
    containing five PIN_INVALID answers and no successful AUTHENTICATE, the
    counter is at least 5; from then on, for every further sequence,
    every AUTHENTICATE answers PIN_LOCKED and the counter never drops below
    5. *)
Theorem pin_lockout_is_permanent :
  (forall (cmd : avp_cmd) (w : world),
     5 <= pin_attempts w -> cmd_op cmd = AVP_OP_AUTHENTICATE ->
     avp_dispatch clock rng cmd w = (resp_err AVP_ERR_PIN_LOCKED, w)) /\
  (forall (cmds1 cmds2 : list avp_cmd) (w w1 w2 : world) (rs1 rs2 : list avp_resp),
     0 <= pin_attempts w ->
     avp_run clock rng cmds1 w = (rs1, w1) ->
     Forall2 (fun c r => ~ auth_succeeded c r) cmds1 rs1 ->
     (5 <= n_pin_invalid rs1)%nat ->
     avp_run clock rng cmds2 w1 = (rs2, w2) ->
     5 <= pin_attempts w1 /\ 5 <= pin_attempts w2 /\
     Forall2 (fun c r => cmd_op c = AVP_OP_AUTHENTICATE ->
                         r = resp_err AVP_ERR_PIN_LOCKED) cmds2 rs2).
Proof.
  split.
  - intros cmd w Hp Hop. apply dispatch_auth_locked; assumption.
  - intros cmds1 cmds2 w w1 w2 rs1 rs2 Hp Hr1 Hno Hn Hr2.
    destruct (run_pin_lower_bound cmds1 w w1 rs1 Hr1 Hp Hno) as [_ Hb].
    assert (H5 : 5 <= pin_attempts w1) by lia.
    destruct (run_locked cmds2 w1 w2 rs2 Hr2 H5) as [Hf Hall].
    auto.
Qed.

(** *** The secret table *)

Lemma find_from_some (p : avp_secret_meta -> bool) (l : list avp_secret_meta) (k i : nat) :
  find_from p l k = Some i ->
  (k <= i)%nat /\ exists m, l !! (i - k)%nat = Some m /\ p m = true.
Proof.
  revert k. induction l as [|m l IH]; intros k H; simpl in H; [discriminate|].
  destruct (p m) eqn:Hp.
  - inversion H; subst. split; [lia|]. exists m. rewrite Nat.sub_diag. auto.
  - destruct (IH (S k) H) as [Hle [m' [Hl Hm']]]. split; [lia|].
    exists m'. replace (i - k)%nat with (S (i - S k)) by lia. simpl. auto.
Qed.

Lemma find_from_none (p : avp_secret_meta -> bool) (l : list avp_secret_meta) (k : nat) :
  find_from p l k = None -> Forall (fun m => p m = false) l.
Proof.
  revert k. induction l as [|m l IH]; intros k H; simpl in H; [constructor|].
  destruct (p m) eqn:Hp; [discriminate|]. constructor; eauto.
Qed.

Lemma count_in_use_le (l : list avp_secret_meta) : (count_in_use l <= length l)%nat.
Proof.
  unfold count_in_use. induction l as [|m l IH]; simpl; [lia|].
  destruct (sm_in_use m); simpl; lia.
Qed.

Lemma count_in_use_free (l : list avp_secret_meta) (i : nat) (m : avp_secret_meta) :
  l !! i = Some m -> sm_in_use m = false -> (count_in_use l < length l)%nat.
Proof.
  unfold count_in_use. revert i. induction l as [|m0 l IH]; intros i Hi Hm;
    [discriminate|].
  destruct i as [|i]; simpl in Hi.
  - inversion Hi; subst. simpl. rewrite Hm.
    pose proof (count_in_use_le l). unfold count_in_use in *. lia.
  - specialize (IH i Hi Hm). simpl. destruct (sm_in_use m0); simpl; lia.
Qed.

Lemma count_in_use_insert (l : list avp_secret_meta) (i : nat) (m x : avp_secret_meta) :
  l !! i = Some m ->
  (count_in_use (<[i := x]> l) + (if sm_in_use m then 1 else 0)
   = count_in_use l + (if sm_in_use x then 1 else 0))%nat.
Proof.
  unfold count_in_use. revert i. induction l as [|m0 l IH]; intros i Hi;
    [discriminate|].
  destruct i as [|i]; simpl in Hi.
  - inversion Hi; subst. simpl.
    destruct (sm_in_use m), (sm_in_use x); simpl; lia.
  - specialize (IH i Hi). simpl. destruct (sm_in_use m0); simpl; lia.
Qed.

Lemma count_in_use_alter (f : avp_secret_meta -> avp_secret_meta)
    (l : list avp_secret_meta) (i : nat) :
  (forall m, sm_in_use (f m) = sm_in_use m) ->
  count_in_use (alter f i l) = count_in_use l.
Proof.
  intros Hf. unfold count_in_use. revert i.
  induction l as [|m l IH]; intros i; [reflexivity|].
  destruct i as [|i].
  - change (alter f 0%nat (m :: l)) with (f m :: l). cbn [List.filter].
    rewrite Hf. destruct (sm_in_use m); reflexivity.
  - change (alter f (S i) (m :: l)) with (m :: alter f i l). cbn [List.filter].
    destruct (sm_in_use m); cbn [length]; rewrite IH; reflexivity.
Qed.

(** The table invariant: 32 entries, and [secret_count] counts the
    entries in use. *)
Lemma table_inv_init : table_inv avp_init.
Proof. split; reflexivity. Qed.

Lemma table_inv_take (c : avp_ctx) :
  table_inv c -> take AVP_MAX_SECRETS (ctx_secrets c) = ctx_secrets c.
Proof. intros [Hl _]. apply take_ge. lia. Qed.

(** Operations other than STORE, ROTATE and DELETE leave the table and
    its counter alone. *)
Lemma dispatch_secrets_other (cmd : avp_cmd) (w : world) :
  cmd_op cmd <> AVP_OP_STORE -> cmd_op cmd <> AVP_OP_ROTATE ->
  cmd_op cmd <> AVP_OP_DELETE ->
  ctx_secrets (w_ctx (snd (avp_dispatch clock rng cmd w))) = ctx_secrets (w_ctx w) /\
  ctx_secret_count (w_ctx (snd (avp_dispatch clock rng cmd w)))
    = ctx_secret_count (w_ctx w).
Proof.
  intros H1 H2 H3. unfold avp_dispatch.
  destruct cmd as [op ? ? ? ? ? ? ? ? ? ?]; destruct op; simpl in H1, H2, H3;
    try (exfalso; first [apply H1; reflexivity | apply H2; reflexivity
                        | apply H3; reflexivity]);
    unfold avp_exec; simpl; try (split; reflexivity).
  - unfold avp_op_authenticate. run_monad.
    destruct (_ >=? _); simpl; [split; reflexivity|].
    destruct (_ <? _)%nat; simpl; split; reflexivity.
  - unfold avp_op_retrieve. open_gate;
      [| destruct (session_valid_after_secrets w) as (Ha & Hb & _); auto].
    run_monad. split_options; split; reflexivity.
  - unfold avp_op_list. open_gate;
      [| destruct (session_valid_after_secrets w) as (Ha & Hb & _); auto].
    run_monad. split; reflexivity.
  - unfold avp_op_hw_sign. open_gate;
      [| destruct (session_valid_after_secrets w) as (Ha & Hb & _); auto].
    run_monad. split; reflexivity.
  - unfold avp_op_hw_attest. open_gate;
      [| destruct (session_valid_after_secrets w) as (Ha & Hb & _); auto].
    run_monad. split; reflexivity.
Qed.

Lemma dispatch_snd (cmd : avp_cmd) (w : world) :
  snd (avp_dispatch clock rng cmd w) = snd (avp_exec clock rng cmd w).
Proof.
  unfold avp_dispatch, mbind, mret. destruct (avp_exec clock rng cmd w). reflexivity.
Qed.

Lemma dispatch_fst (cmd : avp_cmd) (w : world) :
  fst (avp_dispatch clock rng cmd w) = snd (fst (avp_exec clock rng cmd w)).
Proof.
  unfold avp_dispatch, mbind, mret. destruct (avp_exec clock rng cmd w). reflexivity.
Qed.

Lemma op_store_inv (cmd : avp_cmd) (w : world) :
  table_inv (w_ctx w) -> table_inv (w_ctx (snd (avp_op_store clock cmd w))).
Proof.
  intros Hinv. unfold avp_op_store.
  destruct (session_live (w_ctx w) (now_of clock w)) eqn:Hl;
    [rewrite (gate_open _ _ _ Hl) | rewrite (gate_closed _ _ _ Hl)].
  2:{ simpl. destruct (session_valid_after_secrets w) as (Ha & Hb & _).
      unfold table_inv in *. rewrite Ha, Hb. exact Hinv. }
  run_monad.
  destruct (find_secret_by_name (w_ctx w) (cmd_name cmd)) as [idx|] eqn:Hf;
    run_monad.
  - destruct Hinv as [Hlen Hcnt]. split; simpl.
    + rewrite length_alter. exact Hlen.
    + rewrite count_in_use_alter by reflexivity. exact Hcnt.
  - destruct (find_free_slot (w_ctx w)) as [idx|] eqn:Hfree; run_monad;
      [| exact Hinv].
    unfold find_free_slot in Hfree. rewrite (table_inv_take _ Hinv) in Hfree.
    destruct (find_from_some _ _ _ _ Hfree) as [_ [m [Hm Hfm]]].
    rewrite Nat.sub_0_r in Hm. apply negb_true_iff in Hfm.
    destruct Hinv as [Hlen Hcnt].
    pose proof (count_in_use_free _ _ _ Hm Hfm) as Hlt.
    split; simpl.
    + rewrite length_alter, length_insert. exact Hlen.
    + rewrite count_in_use_alter by reflexivity.
      match goal with
      | |- context [<[idx := ?e]> ?l] =>
          pose proof (count_in_use_insert l idx m e Hm) as Hins
      end.
      rewrite Hfm in Hins. simpl in Hins.
      rewrite Hcnt. unfold u8 in *. rewrite Z.mod_small.
      * lia.
      * unfold AVP_MAX_SECRETS in Hlen. lia.
Qed.

Lemma op_delete_inv (cmd : avp_cmd) (w : world) :
  table_inv (w_ctx w) -> table_inv (w_ctx (snd (avp_op_delete clock cmd w))).
Proof.
  intros Hinv. unfold avp_op_delete.
  destruct (session_live (w_ctx w) (now_of clock w)) eqn:Hl;
    [rewrite (gate_open _ _ _ Hl) | rewrite (gate_closed _ _ _ Hl)].
  2:{ simpl. destruct (session_valid_after_secrets w) as (Ha & Hb & _).
      unfold table_inv in *. rewrite Ha, Hb. exact Hinv. }
  run_monad.
  destruct (find_secret_by_name (w_ctx w) (cmd_name cmd)) as [idx|] eqn:Hf;
    run_monad; [| exact Hinv].
  unfold find_secret_by_name in Hf. rewrite (table_inv_take _ Hinv) in Hf.
  destruct (find_from_some _ _ _ _ Hf) as [_ [m [Hm Hfm]]].
  rewrite Nat.sub_0_r in Hm. apply andb_prop in Hfm as [Huse _].
  destruct Hinv as [Hlen Hcnt].
  pose proof (count_in_use_insert _ _ _ meta_zero Hm) as Hins.
  rewrite Huse in Hins. simpl in Hins.
  pose proof (count_in_use_le (ctx_secrets (w_ctx w))) as Hle.
  split; simpl.
  - rewrite length_insert. exact Hlen.
  - rewrite Hcnt. unfold u8. rewrite Z.mod_small.
    + lia.
    + unfold AVP_MAX_SECRETS in Hlen. lia.
Qed.

Lemma dispatch_inv (cmd : avp_cmd) (w : world) :
  table_inv (w_ctx w) -> table_inv (w_ctx (snd (avp_dispatch clock rng cmd w))).
Proof.
  intros Hinv. rewrite dispatch_snd.
  destruct (avp_op_eq_dec (cmd_op cmd) AVP_OP_STORE) as [Hs|Hs];
    [unfold avp_exec; rewrite Hs; apply op_store_inv; exact Hinv|].
  destruct (avp_op_eq_dec (cmd_op cmd) AVP_OP_ROTATE) as [Hr|Hr];
    [unfold avp_exec; rewrite Hr; apply op_store_inv; exact Hinv|].
  destruct (avp_op_eq_dec (cmd_op cmd) AVP_OP_DELETE) as [Hd|Hd];
    [unfold avp_exec; rewrite Hd; apply op_delete_inv; exact Hinv|].
  destruct (dispatch_secrets_other cmd w Hs Hr Hd) as [Ha Hb].
  rewrite dispatch_snd in Ha, Hb. unfold table_inv. rewrite Ha, Hb. exact Hinv.
Qed.

Lemma run_inv (cmds : list avp_cmd) (w w' : world) (rs : list avp_resp) :
  avp_run clock rng cmds w = (rs, w') -> table_inv (w_ctx w) -> table_inv (w_ctx w').
Proof.
  revert w rs. induction cmds as [|cmd rest IH]; intros w rs Hrun Hinv.
  - simpl in Hrun. inversion Hrun; subst. exact Hinv.
  - rewrite avp_run_cons in Hrun.
    destruct (avp_dispatch clock rng cmd w) as [r w1] eqn:Hd.
    destruct (avp_run clock rng rest w1) as [rs1 w2] eqn:Hr.
    inversion Hrun; subst.
    apply (IH w1 rs1 Hr).
    pose proof (dispatch_inv cmd w Hinv) as H. rewrite Hd in H. exact H.
Qed.

(** [C10] *)
(** C10: [secret_count] equals the number of entries in use.  This holds
    after [avp_init], after every sequence of requests from there, and is
    preserved by every single request from any state where it holds;
    requests other than STORE, ROTATE and DELETE change neither the table
    nor the counter. *)
Theorem secret_count_matches_in_use :
  table_inv avp_init /\
  (forall (cmds : list avp_cmd) (rs : list avp_resp) (w : world),
     avp_run clock rng cmds world_init = (rs, w) ->
     ctx_secret_count (w_ctx w) = Z.of_nat (count_in_use (ctx_secrets (w_ctx w)))) /\
  (forall (cmd : avp_cmd) (w : world),
     table_inv (w_ctx w) -> table_inv (w_ctx (snd (avp_dispatch clock rng cmd w)))) /\
  (forall (cmd : avp_cmd) (w : world),
     cmd_op cmd <> AVP_OP_STORE -> cmd_op cmd <> AVP_OP_ROTATE ->
     cmd_op cmd <> AVP_OP_DELETE ->
     ctx_secrets (w_ctx (snd (avp_dispatch clock rng cmd w))) = ctx_secrets (w_ctx w) /\
     ctx_secret_count (w_ctx (snd (avp_dispatch clock rng cmd w)))
       = ctx_secret_count (w_ctx w)).
Proof.
  split; [exact table_inv_init|].
  split; [|split].
  - intros cmds rs w Hrun. apply (run_inv _ _ _ _ Hrun table_inv_init).
  - exact dispatch_inv.
  - exact dispatch_secrets_other.
Qed.

Lemma list_names_length (l : list avp_secret_meta) (k : nat) :
  (k + count_in_use l <= AVP_MAX_SECRETS)%nat ->
  length (list_names l k) = count_in_use l.
Proof.
  unfold count_in_use. revert k. induction l as [|m l IH]; intros k Hk; [reflexivity|].
  simpl in *. destruct (k <? AVP_MAX_SECRETS)%nat eqn:Hlt.
  - destruct (sm_in_use m); simpl in *.
    + rewrite IH; [reflexivity | lia].
    + apply IH. lia.
  - apply Nat.ltb_ge in Hlt. destruct (sm_in_use m); simpl in *; [lia|].
    unfold AVP_MAX_SECRETS in *.
    assert (length (List.filter sm_in_use l) = 0%nat) as -> by lia. reflexivity.
Qed.

(** [C6] *)
(** C6: at every point reached from [avp_init] by a sequence of requests,
    at most 32 entries are in use; a LIST under a valid session returns
    exactly that many names (and reports that count); a STORE of a name
    not in the table, under a valid session, while all 32 entries are in
    use, answers CAPACITY_EXCEEDED and leaves the context unchanged. *)
Theorem occupancy_bounded_and_listed (cmds : list avp_cmd) (rs : list avp_resp) (w : world) :
  avp_run clock rng cmds world_init = (rs, w) ->
  (count_in_use (ctx_secrets (w_ctx w)) <= AVP_MAX_SECRETS)%nat /\
  (forall cmd : avp_cmd,
     cmd_op cmd = AVP_OP_LIST -> session_live (w_ctx w) (now_of clock w) = true ->
     length (r_list_names (fst (avp_dispatch clock rng cmd w)))
       = count_in_use (ctx_secrets (w_ctx w)) /\
     r_list_count (fst (avp_dispatch clock rng cmd w))
       = Z.of_nat (count_in_use (ctx_secrets (w_ctx w)))) /\
  (forall cmd : avp_cmd,
     cmd_op cmd = AVP_OP_STORE -> session_live (w_ctx w) (now_of clock w) = true ->
     find_secret_by_name (w_ctx w) (cmd_name cmd) = None ->
     count_in_use (ctx_secrets (w_ctx w)) = AVP_MAX_SECRETS ->
     fst (avp_dispatch clock rng cmd w) = resp_err AVP_ERR_CAPACITY /\
     w_ctx (snd (avp_dispatch clock rng cmd w)) = w_ctx w).
Proof.
  intros Hrun.
  pose proof (run_inv _ _ _ _ Hrun table_inv_init) as Hinv.
  pose proof (count_in_use_le (ctx_secrets (w_ctx w))) as Hle.
  pose proof Hinv as [Hlen Hcnt].
  split; [lia|]. split.
  - intros cmd Hop Hl.
    rewrite dispatch_fst. unfold avp_exec. rewrite Hop. unfold avp_op_list.
    rewrite (gate_open _ _ _ Hl). run_monad.
    rewrite (table_inv_take _ Hinv).
    rewrite list_names_length by lia. split; reflexivity.
  - intros cmd Hop Hl Hnew Hfull.
    assert (Hfree : find_free_slot (w_ctx w) = None).
    { destruct (find_free_slot (w_ctx w)) as [idx|] eqn:Hfree; [|reflexivity].
      exfalso. unfold find_free_slot in Hfree. rewrite (table_inv_take _ Hinv) in Hfree.
      destruct (find_from_some _ _ _ _ Hfree) as [_ [m [Hm Hfm]]].
      rewrite Nat.sub_0_r in Hm. apply negb_true_iff in Hfm.
      pose proof (count_in_use_free _ _ _ Hm Hfm). lia. }
    rewrite dispatch_fst, dispatch_snd. unfold avp_exec. rewrite Hop.
    unfold avp_op_store. rewrite (gate_open _ _ _ Hl). run_monad.
    rewrite Hnew. simpl. rewrite Hfree. simpl. split; reflexivity.
Qed.

Lemma parse_ok_fields (json_in : string) (cmd : avp_cmd) :
  avp_parse_cmd json_in = (AVP_OK, Some cmd) ->
  cmd_ttl cmd = decoded_ttl json_in /\
  forall hex : string,
    json_find_string (c_str json_in) "data" 512 = Some hex ->
    cmd_data_len cmd = (if snd (hex_decode hex 256) >? 0 then snd (hex_decode hex 256) else 0).
Proof.
  unfold avp_parse_cmd, decoded_ttl. intros H.
  destruct (json_find_string (c_str json_in) "op" 32) as [s|]; [|discriminate H].
  destruct (op_of_string s) as [op|]; [|discriminate H].
  destruct (json_find_string (c_str json_in) "data" 512) as [d|] eqn:Hd.
  - destruct (hex_decode d 256) as [bs len] eqn:Hh.
    injection H as <-. simpl. split; [reflexivity|].
    intros hex Hhex. injection Hhex as ->. rewrite Hh. reflexivity.
  - injection H as <-. simpl. split; [reflexivity|]. intros hex Hhex. discriminate Hhex.
Qed.

(** [C5] *)
(** C5 (amended): a successful AUTHENTICATE request stores and reports as
    expires_in the ttl decoded from the request (requested_ttl, else ttl)
    when it is positive and 300 otherwise, with no clamping to [60, 3600];
    a request carrying neither field gets 300. *)
Theorem authenticate_ttl_default_no_clamp (json_in : string) (cmd : avp_cmd) (w : world) :
  avp_parse_cmd json_in = (AVP_OK, Some cmd) ->
  cmd_op cmd = AVP_OP_AUTHENTICATE ->
  r_ok (fst (avp_process clock rng json_in w)) = true ->
  r_auth_expires_in (fst (avp_process clock rng json_in w))
    = session_ttl_of (decoded_ttl json_in) /\
  ss_ttl (ctx_session (w_ctx (snd (avp_process clock rng json_in w))))
    = session_ttl_of (decoded_ttl json_in) /\
  (json_find_int (c_str json_in) "ttl" = None ->
   json_find_int (c_str json_in) "requested_ttl" = None ->
   r_auth_expires_in (fst (avp_process clock rng json_in w)) = AVP_DEFAULT_TTL).
Proof.
  intros Hp Hop.
  destruct (parse_ok_fields _ _ Hp) as [Httl _].
  unfold avp_process. rewrite Hp.
  unfold avp_dispatch, avp_exec. rewrite Hop.
  unfold avp_op_authenticate. run_monad.
  destruct (ss_pin_attempts (ctx_session (w_ctx w)) >=? AVP_MAX_PIN_ATTEMPTS);
    [simpl; intros Hf; discriminate Hf|].
  destruct (String.length (cmd_pin cmd) <? 4)%nat; [simpl; intros Hf; discriminate Hf|].
  simpl. intros _. rewrite Httl. unfold session_ttl_of.
  split; [reflexivity|]. split; [reflexivity|].
  unfold decoded_ttl. intros -> ->. reflexivity.
Qed.


(** No handler ever answers SESSION_EXPIRED. *)
Lemma dispatch_never_session_expired (cmd : avp_cmd) (w : world) :
  is_session_expired (r_error_code (fst (avp_dispatch clock rng cmd w))) = false.
Proof.
  unfold avp_dispatch.
  destruct cmd as [op ? ? ? ? ? ? ? ? ? ?]; destruct op;
    unfold avp_exec; simpl;
    unfold avp_op_discover, avp_op_authenticate, avp_op_hw_challenge,
      avp_op_rotate, avp_op_store, avp_op_retrieve, avp_op_delete,
      avp_op_list, avp_op_hw_sign, avp_op_hw_attest;
    try open_gate; try reflexivity;
    run_monad; split_options;
    repeat (match goal with |- context [if ?b then _ else _] => destruct b end);
    reflexivity.
Qed.

End Proofs.

(** ** Concrete runs *)

(** [C3] *)
(** C3 (code bug): after AUTHENTICATE, a successful STORE of name
    anthropic with value sk-ant-abc, and RETRIEVE of anthropic, the
    RETRIEVE succeeds but answers the fixed placeholder [stored_value]
    instead of the stored value. *)
Theorem retrieve_returns_placeholder :
  map r_ok (fst (avp_run clock_ticks rng_counter
                   [good_pin_auth; store_anthropic; retrieve_anthropic] world_init))
    = [true; true; true] /\
  map r_retrieve_value (fst (avp_run clock_ticks rng_counter
                   [good_pin_auth; store_anthropic; retrieve_anthropic] world_init))
    = [""; ""; STORED_VALUE_PLACEHOLDER] /\
  STORED_VALUE_PLACEHOLDER <> cmd_value store_anthropic.
Proof.
  split; [vm_compute; reflexivity|]. split; [vm_compute; reflexivity|].
  vm_compute. discriminate.
Qed.

(** [C4] *)
(** C4 (code bug): a session opened at time 0 with ttl 60 has expired when a
    STORE arrives at time 61; the STORE is answered NOT_AUTHENTICATED,
    not SESSION_EXPIRED, although the session existed and was active; and
    no dispatched request, on any clock, is ever answered SESSION_EXPIRED. *)
Theorem expired_session_reports_not_authenticated :
  ss_active (ctx_session (w_ctx (snd (avp_run clock_61s rng_counter [auth_ttl60] world_init))))
    = true /\
  ss_created_at (ctx_session (w_ctx (snd (avp_run clock_61s rng_counter [auth_ttl60] world_init))))
    = 0 /\
  ss_ttl (ctx_session (w_ctx (snd (avp_run clock_61s rng_counter [auth_ttl60] world_init))))
    = 60 /\
  map r_error_code (fst (avp_run clock_61s rng_counter [auth_ttl60; store_anthropic] world_init))
    = [AVP_OK; AVP_ERR_NOT_AUTHENTICATED] /\
  (forall (clock rng : nat -> Z) (cmd : avp_cmd) (w : world),
     is_session_expired (r_error_code (fst (avp_dispatch clock rng cmd w))) = false).
Proof.
  split; [vm_compute; reflexivity|]. split; [vm_compute; reflexivity|].
  split; [vm_compute; reflexivity|]. split; [vm_compute; reflexivity|].
  intros clock rng cmd w. apply dispatch_never_session_expired.
Qed.

(** [C5] counterexample *)
(** C5: requesting a ttl of 1 gives expires_in 1 (not 60), and requesting
    999999 gives expires_in 999999 (not 3600). *)
Lemma ttl_not_clamped :
  r_ok (fst (avp_process clock_ticks rng_counter (json_auth_ttl "1") world_init)) = true /\
  r_auth_expires_in (fst (avp_process clock_ticks rng_counter (json_auth_ttl "1") world_init))
    = 1 /\
  r_ok (fst (avp_process clock_ticks rng_counter (json_auth_ttl "999999") world_init)) = true /\
  r_auth_expires_in (fst (avp_process clock_ticks rng_counter (json_auth_ttl "999999") world_init))
    = 999999.
Proof. vm_compute. repeat split. Qed.


(** ** Witnesses *)

Definition parsed_auth_plain : avp_cmd :=
  Eval vm_compute in
    match snd (avp_parse_cmd json_auth_plain) with Some c => c | None => good_pin_auth end.

(** C1 at a STORE from the initial (unauthenticated) state. *)
Lemma non_exempt_ops_require_session_witness :
  requires_session (cmd_op store_anthropic) = true /\
  session_live (w_ctx world_init) (now_of clock_ticks world_init) = false /\
  ((session_live (w_ctx world_init) (now_of clock_ticks world_init) = false ->
     fst (avp_dispatch clock_ticks rng_counter store_anthropic world_init)
       = resp_err AVP_ERR_NOT_AUTHENTICATED /\
     ctx_secrets (w_ctx (snd (avp_dispatch clock_ticks rng_counter store_anthropic world_init)))
       = ctx_secrets (w_ctx world_init) /\
     ctx_secret_count (w_ctx (snd (avp_dispatch clock_ticks rng_counter store_anthropic world_init)))
       = ctx_secret_count (w_ctx world_init)) /\
   (r_ok (fst (avp_dispatch clock_ticks rng_counter store_anthropic world_init)) = true ->
     session_live (w_ctx world_init) (now_of clock_ticks world_init) = true)).
Proof.
  split; [reflexivity|]. split; [vm_compute; reflexivity|].
  apply (non_exempt_ops_require_session clock_ticks rng_counter store_anthropic world_init).
  reflexivity.
Defined.

(** C2 after five AUTHENTICATE requests with a too-short PIN, followed by
    two with a valid PIN. *)
Lemma pin_lockout_is_permanent_witness :
  5 <= pin_attempts (snd lockout_run1) /\
  avp_dispatch clock_ticks rng_counter good_pin_auth (snd lockout_run1)
    = (resp_err AVP_ERR_PIN_LOCKED, snd lockout_run1) /\
  (5 <= pin_attempts (snd lockout_run1) /\ 5 <= pin_attempts (snd lockout_run2) /\
   Forall2 (fun c r => cmd_op c = AVP_OP_AUTHENTICATE -> r = resp_err AVP_ERR_PIN_LOCKED)
     [good_pin_auth; good_pin_auth] (fst lockout_run2)).
Proof.
  destruct (pin_lockout_is_permanent clock_ticks rng_counter) as [Ha Hb].
  split; [vm_compute; discriminate|].
  split.
  - apply Ha; [vm_compute; discriminate | reflexivity].
  - apply (Hb five_bad_auths [good_pin_auth; good_pin_auth] world_init
             (snd lockout_run1) (snd lockout_run2) (fst lockout_run1) (fst lockout_run2)).
    + vm_compute. discriminate.
    + vm_compute. reflexivity.
    + vm_compute.
      repeat constructor; unfold auth_succeeded; simpl; intros [_ Hf]; discriminate Hf.
    + vm_compute. lia.
    + vm_compute. reflexivity.
Defined.

(** C5 on an AUTHENTICATE request carrying no ttl field. *)
Lemma authenticate_ttl_default_no_clamp_witness :
  avp_parse_cmd json_auth_plain = (AVP_OK, Some parsed_auth_plain) /\
  cmd_op parsed_auth_plain = AVP_OP_AUTHENTICATE /\
  r_ok (fst (avp_process clock_ticks rng_counter json_auth_plain world_init)) = true /\
  json_find_int (c_str json_auth_plain) "ttl" = None /\
  json_find_int (c_str json_auth_plain) "requested_ttl" = None /\
  r_auth_expires_in (fst (avp_process clock_ticks rng_counter json_auth_plain world_init))
    = AVP_DEFAULT_TTL.
Proof.
  assert (Hp : avp_parse_cmd json_auth_plain = (AVP_OK, Some parsed_auth_plain))
    by (vm_compute; reflexivity).
  assert (Hok : r_ok (fst (avp_process clock_ticks rng_counter json_auth_plain world_init)) = true)
    by (vm_compute; reflexivity).
  assert (Ht : json_find_int (c_str json_auth_plain) "ttl" = None) by (vm_compute; reflexivity).
  assert (Hr : json_find_int (c_str json_auth_plain) "requested_ttl" = None)
    by (vm_compute; reflexivity).
  destruct (authenticate_ttl_default_no_clamp clock_ticks rng_counter json_auth_plain
              parsed_auth_plain world_init Hp eq_refl Hok) as (_ & _ & H).
  repeat split; auto.
Defined.

(** C6 on a table filled by 32 STORE requests of distinct names. *)
Lemma occupancy_bounded_and_listed_witness :
  avp_run clock_ticks rng_counter fill_table world_init = full_run /\
  count_in_use (ctx_secrets (w_ctx (snd full_run))) = AVP_MAX_SECRETS /\
  session_live (w_ctx (snd full_run)) (now_of clock_ticks (snd full_run)) = true /\
  find_secret_by_name (w_ctx (snd full_run)) (cmd_name store_extra) = None /\
  fst (avp_dispatch clock_ticks rng_counter store_extra (snd full_run))
    = resp_err AVP_ERR_CAPACITY /\
  length (r_list_names (fst (avp_dispatch clock_ticks rng_counter
            (with_op AVP_OP_LIST store_extra) (snd full_run)))) = AVP_MAX_SECRETS.
Proof.
  assert (Hrun : avp_run clock_ticks rng_counter fill_table world_init
                 = (fst full_run, snd full_run)) by (vm_compute; reflexivity).
  destruct (occupancy_bounded_and_listed clock_ticks rng_counter _ _ _ Hrun)
    as (_ & Hlist & Hcap).
  assert (Hfull : count_in_use (ctx_secrets (w_ctx (snd full_run))) = AVP_MAX_SECRETS)
    by (vm_compute; reflexivity).
  assert (Hl : session_live (w_ctx (snd full_run)) (now_of clock_ticks (snd full_run)) = true)
    by (vm_compute; reflexivity).
  assert (Hn : find_secret_by_name (w_ctx (snd full_run)) (cmd_name store_extra) = None)
    by (vm_compute; reflexivity).
  split; [exact Hrun|]. split; [exact Hfull|]. split; [exact Hl|]. split; [exact Hn|].
  split.
  - apply (Hcap store_extra eq_refl Hl Hn Hfull).
  - destruct (Hlist (with_op AVP_OP_LIST store_extra) eq_refl Hl) as [-> _].
    exact Hfull.
Defined.


(** C8 on a ROTATE request from the initial state. *)
Lemma rotate_same_as_store_witness :
  cmd_op (with_op AVP_OP_ROTATE store_anthropic) = AVP_OP_ROTATE /\
  avp_dispatch clock_ticks rng_counter (with_op AVP_OP_ROTATE store_anthropic) (snd lockout_run2)
  = avp_dispatch clock_ticks rng_counter
      (with_op AVP_OP_STORE (with_op AVP_OP_ROTATE store_anthropic)) (snd lockout_run2).
Proof.
  split; [reflexivity|].
  apply (rotate_same_as_store clock_ticks rng_counter). reflexivity.
Defined.

(** C10 on the run filling the table, then a DELETE and a LIST. *)
Lemma secret_count_matches_in_use_witness :
  ctx_secret_count (w_ctx (snd full_run))
    = Z.of_nat (count_in_use (ctx_secrets (w_ctx (snd full_run)))) /\
  table_inv (w_ctx (snd (avp_dispatch clock_ticks rng_counter
                            (with_op AVP_OP_DELETE (store_letter 0)) (snd full_run)))) /\
  ctx_secret_count (w_ctx (snd (avp_dispatch clock_ticks rng_counter
                            (with_op AVP_OP_LIST store_extra) (snd full_run))))
    = ctx_secret_count (w_ctx (snd full_run)).
Proof.
  destruct (secret_count_matches_in_use clock_ticks rng_counter) as (Hi & Hrun & Hpres & Hother).
  assert (Hr : avp_run clock_ticks rng_counter fill_table world_init
               = (fst full_run, snd full_run)) by (vm_compute; reflexivity).
  split; [exact (Hrun _ _ _ Hr)|].
  split.
  - apply Hpres. apply (run_inv clock_ticks rng_counter _ _ _ _ Hr Hi).
  - apply Hother; discriminate.
Defined.


(** ** Hex codec, parser and tables *)



Lemma substring_all (s : string) : substring 0 (String.length s) s = s.
Proof. induction s as [|c s IH]; simpl; [reflexivity|]. rewrite IH. reflexivity. Qed.

Lemma substring_suffix (s : string) (k : nat) :
  substring k (String.length s - k) s = str_drop k s.
Proof.
  revert k. induction s as [|c s IH]; intros [|k]; simpl; try reflexivity.
  - rewrite substring_all. reflexivity.
  - apply IH.
Qed.

Lemma str_drop_hex_encode (l : list Z) (i : nat) :
  str_drop (2 * i) (hex_encode l) = hex_encode (drop i l).
Proof.
  revert l. induction i as [|i IH]; intros l; [reflexivity|].
  destruct l as [|b l]; [reflexivity|].
  replace (2 * S i)%nat with (S (S (2 * i))) by lia. simpl. apply IH.
Qed.

Lemma hex_encode_length (l : list Z) : String.length (hex_encode l) = (2 * length l)%nat.
Proof. induction l as [|b l IH]; simpl; [reflexivity|]. rewrite IH. lia. Qed.

Lemma hex_digit_val (n : Z) :
  0 <= n < 16 ->
  hex_val (hex_digit n) = Some n /\ is_c_space (hex_digit n) = false /\
  Ascii.eqb (hex_digit n) "-" = false /\ Ascii.eqb (hex_digit n) "+" = false.
Proof.
  intros Hn. rewrite <- (Z2Nat.id n) by lia.
  assert (Hk : (Z.to_nat n < 16)%nat) by lia.
  revert Hk. generalize (Z.to_nat n) as k. intros k Hk.
  do 16 (destruct k as [|k]; [vm_compute; repeat split|]). lia.
Qed.

Lemma scan_x2_pair (c1 c2 : ascii) (rest : string) (d1 d2 : Z) :
  hex_val c1 = Some d1 -> hex_val c2 = Some d2 -> is_c_space c1 = false ->
  Ascii.eqb c1 "-" = false -> Ascii.eqb c1 "+" = false ->
  scan_x2 (String c1 (String c2 rest)) = Some (u32 (16 * d1 + d2)).
Proof.
  intros H1 H2 Hs Hm Hp. unfold scan_x2. simpl. rewrite Hs. simpl.
  rewrite Hm, Hp. rewrite String.eqb_refl. simpl. rewrite H1, H2. reflexivity.
Qed.

Lemma scan_x2_hex_encode (b : Z) (l : list Z) :
  0 <= b < 256 -> scan_x2 (hex_encode (b :: l)) = Some b.
Proof.
  intros Hb. simpl.
  assert (Hhi : 0 <= Z.shiftr b 4 < 16).
  { rewrite Z.shiftr_div_pow2 by lia. change (2 ^ 4) with 16.
    split; [apply Z.div_pos; lia | apply Z.div_lt_upper_bound; lia]. }
  assert (Hlo : 0 <= Z.land b 15 < 16).
  { change 15 with (Z.ones 4). rewrite Z.land_ones by lia. change (2 ^ 4) with 16.
    apply Z.mod_pos_bound. lia. }
  destruct (hex_digit_val _ Hhi) as (H1 & Hs & Hm & Hp).
  destruct (hex_digit_val _ Hlo) as (H2 & _ & _ & _).
  rewrite (scan_x2_pair _ _ _ _ _ H1 H2 Hs Hm Hp).
  rewrite Z.shiftr_div_pow2 by lia. change 15 with (Z.ones 4). rewrite Z.land_ones by lia.
  change (2 ^ 4) with 16. unfold u32.
  rewrite <- Z.div_mod by lia. rewrite Z.mod_small by lia. reflexivity.
Qed.

Lemma hex_decode_loop_encode (l : list Z) (i n : nat) :
  Forall (fun b => 0 <= b < 256) l -> (i + n = length l)%nat ->
  hex_decode_loop (hex_encode l) i n = (drop i l, true).
Proof.
  intros Hall. revert i. induction n as [|n IH]; intros i Hin.
  - simpl. rewrite drop_ge by lia. reflexivity.
  - cbn [hex_decode_loop]. rewrite substring_suffix, str_drop_hex_encode.
    destruct (drop i l) as [|b l'] eqn:Hd.
    { apply (f_equal length) in Hd. rewrite length_drop in Hd. simpl in Hd. lia. }
    assert (Hb : 0 <= b < 256).
    { apply (Forall_lookup_1 _ _ i b Hall). rewrite <- (Nat.add_0_r i), <- lookup_drop, Hd. reflexivity. }
    rewrite (scan_x2_hex_encode _ _ Hb).
    rewrite (IH (S i)) by lia.
    assert (Hd' : drop (S i) l = l').
    { replace (S i) with (i + 1)%nat by lia. rewrite <- drop_drop, Hd. reflexivity. }
    rewrite Hd'. unfold u8. rewrite Z.mod_small by lia. reflexivity.
Qed.

Lemma hex_roundtrip (l : list Z) (max_len : nat) :
  Forall (fun b => 0 <= b < 256) l -> (length l <= max_len)%nat ->
  hex_decode (hex_encode l) max_len = (l, Z.of_nat (length l)).
Proof.
  intros Hall Hlen. unfold hex_decode. rewrite hex_encode_length.
  replace (2 * length l / 2)%nat with (length l) by (rewrite Nat.mul_comm, Nat.div_mul; lia).
  rewrite Nat.even_mul. simpl.
  replace (max_len <? length l)%nat with false by (symmetry; apply Nat.ltb_ge; lia).
  simpl. rewrite hex_decode_loop_encode by (auto; lia). reflexivity.
Qed.

(** X1: Decoding the hex encoding of a list of bytes gives back the same bytes and their count, provided the list fits the max_len limit. *)
Lemma hex_decode_encode (l : list Z) (max_len : nat) :
  Forall (fun b => 0 <= b < 256) l -> (length l <= max_len)%nat ->
  hex_decode (hex_encode l) max_len = (l, Z.of_nat (length l)).
Proof. apply hex_roundtrip. Qed.

Lemma hex_val_char (c : ascii) (v : Z) :
  hex_val c = Some v ->
  0 <= v < 16 /\ is_c_space c = false /\ Ascii.eqb c "-" = false /\ Ascii.eqb c "+" = false.
Proof.
  intros H. destruct c as [[] [] [] [] [] [] [] []]; vm_compute in H;
    try discriminate H; injection H as <-; vm_compute; repeat split; discriminate.
Qed.

Lemma scan_x2_half (c1 c2 : ascii) (rest : string) (d1 : Z) :
  hex_val c1 = Some d1 -> hex_val c2 = None ->
  scan_x2 (String c1 (String c2 rest)) = Some (u32 d1).
Proof.
  intros H1 H2. destruct (hex_val_char _ _ H1) as (_ & Hs & Hm & Hp).
  unfold scan_x2. simpl. rewrite Hs. simpl.
  rewrite Hm, Hp. rewrite String.eqb_refl. simpl. rewrite H1, H2. reflexivity.
Qed.

(** X2: hex_decode reads every two characters with sscanf %2x, so it also accepts a hex digit followed by a non-hex character as one byte. It likewise accepts a minus sign followed by a digit, decoded as the negated value mod 256. *)
Lemma hex_decode_accepts_half_pairs (c d : ascii) (v : Z) (max_len : nat) :
  hex_val c = Some v -> hex_val d = None -> (1 <= max_len)%nat ->
  hex_decode (String c (String d EmptyString)) max_len = ([v], 1) /\
  hex_decode (String "-" (String c EmptyString)) max_len = ([(256 - v) mod 256], 1).
Proof.
  intros Hc Hd Hm. destruct (hex_val_char _ _ Hc) as (Hv & Hs & Hmi & Hp).
  unfold hex_decode. simpl String.length.
  replace (max_len <? 2 / 2)%nat with false by (symmetry; apply Nat.ltb_ge; simpl; lia).
  simpl. split.
  - rewrite (scan_x2_half _ _ _ _ Hc Hd). unfold u8, u32.
    rewrite (Z.mod_small v) by lia. rewrite Z.mod_small by lia. reflexivity.
  - unfold scan_x2. simpl. rewrite Hc, Hmi. simpl.
    assert (Hv' : v = 0 \/ v = 1 \/ v = 2 \/ v = 3 \/ v = 4 \/ v = 5 \/ v = 6 \/ v = 7 \/
                  v = 8 \/ v = 9 \/ v = 10 \/ v = 11 \/ v = 12 \/ v = 13 \/ v = 14 \/ v = 15)
      by lia.
    repeat destruct Hv' as [-> | Hv']; [..| subst v]; reflexivity.
Qed.

Lemma c_trunc_id (n : nat) (s : string) : (String.length s <= n)%nat -> c_trunc n s = s.
Proof.
  unfold c_trunc. revert n. induction s as [|c s IH]; intros [|n] Hn; simpl in *;
    try reflexivity; try lia.
  rewrite IH by lia. reflexivity.
Qed.

Lemma c_trunc_length (n : nat) (s : string) : (String.length (c_trunc n s) <= n)%nat.
Proof.
  unfold c_trunc. revert n. induction s as [|c s IH]; intros [|n]; simpl; try lia.
  specialize (IH n). lia.
Qed.

Section SessionId.
Variable clock rng : nat -> Z.

(** X3: A successful AUTHENTICATE returns a 32-character session id that hex-decodes to the next 16 random bytes. It stores that same id in the session and consumes exactly 16 random bytes. *)
Theorem authenticate_session_id_hex (cmd : avp_cmd) (w : world) :
  cmd_op cmd = AVP_OP_AUTHENTICATE ->
  r_ok (fst (avp_dispatch clock rng cmd w)) = true ->
  String.length (r_auth_session_id (fst (avp_dispatch clock rng cmd w))) = AVP_SESSION_ID_LEN /\
  hex_decode (r_auth_session_id (fst (avp_dispatch clock rng cmd w))) 16
    = (map (fun k => u8 (rng k)) (seq (w_rng w) 16), 16) /\
  ss_session_id (ctx_session (w_ctx (snd (avp_dispatch clock rng cmd w))))
    = r_auth_session_id (fst (avp_dispatch clock rng cmd w)) /\
  w_rng (snd (avp_dispatch clock rng cmd w)) = (w_rng w + 16)%nat.
Proof.
  intros Hop. unfold avp_dispatch, avp_exec. rewrite Hop.
  unfold avp_op_authenticate.
  unfold mbind, get_ctx, put_ctx, modify_ctx, mret, fail, get_time, random_bytes.
  cbn -[hex_encode seq map c_trunc hex_decode].
  destruct (ss_pin_attempts (ctx_session (w_ctx w)) >=? AVP_MAX_PIN_ATTEMPTS);
    [simpl; intros Hf; discriminate Hf|].
  destruct (String.length (cmd_pin cmd) <=? 3)%nat; [cbn; intros Hf; discriminate Hf|].
  cbn -[hex_encode seq map c_trunc hex_decode]. intros _.
  set (bs := map (fun k => u8 (rng k)) (seq (w_rng w) 16)).
  assert (Hlen : length bs = 16%nat) by (unfold bs; rewrite length_map, length_seq; reflexivity).
  assert (Hb : Forall (fun b => 0 <= b < 256) bs).
  { unfold bs. apply List.Forall_forall. intros x Hx. apply in_map_iff in Hx.
    destruct Hx as (k & <- & _). unfold u8. apply Z.mod_pos_bound. lia. }
  assert (Hsl : String.length (hex_encode bs) = 32%nat)
    by (rewrite hex_encode_length, Hlen; reflexivity).
  rewrite c_trunc_id by (rewrite Hsl; unfold AVP_SESSION_ID_LEN; lia).
  split; [exact Hsl|]. split.
  - rewrite hex_roundtrip by (auto; lia). rewrite Hlen. reflexivity.
  - split; reflexivity.
Qed.
End SessionId.

Lemma copy_until_quote_length (n : nat) (s : string) :
  (String.length (copy_until_quote n s) <= n)%nat.
Proof.
  revert s. induction n as [|n IH]; intros [|c s]; simpl; try lia.
  destruct (Ascii.eqb c dq_char); simpl; [lia|]. specialize (IH s). lia.
Qed.

Lemma json_find_string_length (json key v : string) (max_len : nat) :
  json_find_string json key max_len = Some v -> (String.length v <= max_len - 1)%nat.
Proof.
  unfold json_find_string.
  destruct (strstr json (dq ++ key ++ dq)) as [pos|]; [|discriminate].
  destruct (strchr pos ":") as [[|c pos']|]; try discriminate.
  destruct (skip_while is_json_ws pos') as [|c' rest]; [discriminate|].
  destruct (Ascii.eqb c' dq_char); [|discriminate].
  intros H. injection H as <-. apply copy_until_quote_length.
Qed.

Lemma or_empty_length (o : option string) (n : nat) :
  (forall v, o = Some v -> (String.length v <= n)%nat) -> (String.length (or_empty o) <= n)%nat.
Proof. destruct o as [v|]; simpl; [auto | lia]. Qed.

Lemma hex_decode_loop_ok_length (h : string) (i n : nat) (bs : list Z) :
  hex_decode_loop h i n = (bs, true) -> length bs = n.
Proof.
  revert i bs. induction n as [|n IH]; intros i bs H.
  - simpl in H. injection H as <-. reflexivity.
  - cbn [hex_decode_loop] in H.
    destruct (scan_x2 _) as [b|]; [|discriminate H].
    destruct (hex_decode_loop h (S i) n) as [bs' ok] eqn:Hl.
    injection H as <- ->. simpl. rewrite (IH _ _ Hl). reflexivity.
Qed.

Lemma hex_decode_positive (h : string) (m : nat) :
  snd (hex_decode h m) > 0 ->
  snd (hex_decode h m) = Z.of_nat (length (fst (hex_decode h m))) /\
  snd (hex_decode h m) <= Z.of_nat m.
Proof.
  unfold hex_decode.
  destruct (negb (Nat.even (String.length h)) || (m <? String.length h / 2)%nat) eqn:Hc;
    [simpl; lia|].
  apply orb_false_iff in Hc as [_ Hm]. apply Nat.ltb_ge in Hm.
  destruct (hex_decode_loop h 0 (String.length h / 2)) as [bs []] eqn:Hl; cbn [snd fst]; [|lia].
  intros _. rewrite (hex_decode_loop_ok_length _ _ _ _ Hl). lia.
Qed.

Lemma scan_u_range (s : string) (v : Z) : scan_u s = Some v -> 0 <= v < 2 ^ 32.
Proof.
  unfold scan_u. destruct (split_sign (skip_while is_c_space s)) as [neg s'].
  destruct (scan_digits s' None) as [x|]; [|discriminate].
  destruct (x >? 2 ^ 32 - 1); intros H; injection H as <-; [lia|].
  unfold u32. apply Z.mod_pos_bound. lia.
Qed.

Lemma json_find_int_range (json key : string) (v : Z) :
  json_find_int json key = Some v -> 0 <= v < 2 ^ 32.
Proof.
  unfold json_find_int.
  destruct (strstr json (dq ++ key ++ dq)) as [pos|]; [|discriminate].
  destruct (strchr pos ":") as [[|c pos']|]; try discriminate.
  apply scan_u_range.
Qed.

Lemma parse_fields_bounds (json_in : string) (cmd : avp_cmd) :
  avp_parse_cmd json_in = (AVP_OK, Some cmd) ->
  (String.length (cmd_session_id cmd) <= 32)%nat /\
  (String.length (cmd_workspace cmd) <= 63)%nat /\
  (String.length (cmd_name cmd) <= 63)%nat /\
  (String.length (cmd_value cmd) <= 511)%nat /\
  (String.length (cmd_auth_method cmd) <= 15)%nat /\
  (String.length (cmd_pin cmd) <= 15)%nat /\
  (String.length (cmd_key_name cmd) <= 63)%nat /\
  0 <= cmd_ttl cmd < 2 ^ 32 /\
  0 <= cmd_data_len cmd <= 256 /\
  (cmd_data_len cmd > 0 -> cmd_data_len cmd = Z.of_nat (length (cmd_data cmd))).
Proof.
  unfold avp_parse_cmd. intros H.
  destruct (json_find_string (c_str json_in) "op" 32) as [s|]; [|discriminate H].
  destruct (op_of_string s) as [op|]; [|discriminate H].
  assert (Httl : 0 <= default (default AVP_DEFAULT_TTL (json_find_int (c_str json_in) "ttl"))
                   (json_find_int (c_str json_in) "requested_ttl") < 2 ^ 32).
  { destruct (json_find_int (c_str json_in) "requested_ttl") as [t|] eqn:Ht;
      [apply (json_find_int_range _ _ _ Ht)|].
    destruct (json_find_int (c_str json_in) "ttl") as [t|] eqn:Ht';
      [apply (json_find_int_range _ _ _ Ht')|].
    simpl. unfold AVP_DEFAULT_TTL. lia. }
  assert (Hdata : forall bs len,
     match json_find_string (c_str json_in) "data" 512 with
     | Some data_hex => let '(bs, len) := hex_decode data_hex 256 in
                        (bs, if len >? 0 then len else 0)
     | None => ([], 0)
     end = (bs, len) ->
     0 <= len <= 256 /\ (len > 0 -> len = Z.of_nat (length bs))).
  { intros bs len. destruct (json_find_string (c_str json_in) "data" 512) as [h|].
    - pose proof (hex_decode_positive h 256) as Hp.
      destruct (hex_decode h 256) as [bs0 l0]. simpl in Hp.
      intros He. injection He as <- <-.
      destruct (l0 >? 0) eqn:Hg; [apply Z.gtb_lt in Hg; specialize (Hp ltac:(lia)); lia | lia].
    - intros He. injection He as <- <-. lia. }
  destruct (match json_find_string (c_str json_in) "data" 512 with
            | Some h => _ | None => _ end) as [bs len] eqn:Hd.
  injection H as <-. simpl.
  destruct (Hdata _ _ eq_refl) as [Hl1 Hl2].
  repeat split; try lia;
    apply or_empty_length; intros v Hv; apply json_find_string_length in Hv; simpl in Hv; lia.
Qed.

(** X4: Every command the parser accepts fits its C buffers: session_id at most 32 characters, workspace, name and key_name at most 63, value at most 511, auth_method and pin at most 15. Its ttl lies in [0, 2^32), its data_len lies in [0, 256], and a positive data_len equals the number of decoded bytes. *)
Theorem parse_fields_fit_buffers (json_in : string) (cmd : avp_cmd) :
  avp_parse_cmd json_in = (AVP_OK, Some cmd) ->
  (String.length (cmd_session_id cmd) <= 32)%nat /\
  (String.length (cmd_workspace cmd) <= 63)%nat /\
  (String.length (cmd_name cmd) <= 63)%nat /\
  (String.length (cmd_value cmd) <= 511)%nat /\
  (String.length (cmd_auth_method cmd) <= 15)%nat /\
  (String.length (cmd_pin cmd) <= 15)%nat /\
  (String.length (cmd_key_name cmd) <= 63)%nat /\
  0 <= cmd_ttl cmd < 2 ^ 32 /\
  0 <= cmd_data_len cmd <= 256 /\
  (cmd_data_len cmd > 0 -> cmd_data_len cmd = Z.of_nat (length (cmd_data cmd))).
Proof. exact (parse_fields_bounds json_in cmd). Qed.


Lemma op_of_string_some (s : string) (op : avp_op) :
  op_of_string s = Some op ->
  s = "DISCOVER" \/ s = "AUTHENTICATE" \/ s = "STORE" \/ s = "RETRIEVE" \/
  s = "DELETE" \/ s = "LIST" \/ s = "ROTATE" \/ s = "HW_CHALLENGE" \/
  s = "HW_SIGN" \/ s = "HW_ATTEST".
Proof.
  unfold op_of_string.
  repeat match goal with
  | |- context [String.eqb s ?t] => destruct (String.eqb_spec s t) as [->|_]; [intros _; tauto|]
  end.
  discriminate.
Qed.

(** X5: A request that starts with {"op":"<name>" for a known operation name is accepted as that operation, whatever text follows. *)
Theorem parse_op_prefix (s rest : string) (op : avp_op) :
  op_of_string s = Some op ->
  fst (avp_parse_cmd ("{" ++ jstr "op" s ++ rest)) = AVP_OK /\
  option_map cmd_op (snd (avp_parse_cmd ("{" ++ jstr "op" s ++ rest))) = Some op.
Proof.
  intros H. pose proof (op_of_string_some _ _ H) as Hs.
  unfold avp_parse_cmd.
  repeat destruct Hs as [-> | Hs]; [..| subst s]; vm_compute in H; injection H as <-;
    cbn -[json_find_int json_find_string hex_decode];
    match goal with
    | |- context [match ?m with Some h => _ | None => _ end] =>
        lazymatch m with json_find_string _ "data" _ => destruct m end
    end;
    try (destruct (hex_decode _ 256)); split; reflexivity.
Qed.

Lemma find_from_none_intro (p : avp_secret_meta -> bool) (l : list avp_secret_meta) (k : nat) :
  (forall j m, l !! j = Some m -> p m = false) -> find_from p l k = None.
Proof.
  revert k. induction l as [|m l IH]; intros k H; [reflexivity|].
  simpl. rewrite (H 0%nat m eq_refl). apply IH. intros j m' Hj. exact (H (S j) m' Hj).
Qed.

Lemma find_from_none_lookup (p : avp_secret_meta -> bool) (l : list avp_secret_meta) (k j : nat) (m : avp_secret_meta) :
  find_from p l k = None -> l !! j = Some m -> p m = false.
Proof.
  intros H Hj. pose proof (find_from_none _ _ _ H) as Hf.
  exact (Forall_lookup_1 _ _ _ _ Hf Hj).
Qed.

Lemma lookup_alter_inv (f : avp_secret_meta -> avp_secret_meta) (idx j : nat)
    (l : list avp_secret_meta) (m : avp_secret_meta) :
  alter f idx l !! j = Some m -> exists m0, l !! j = Some m0 /\ (m = m0 \/ m = f m0).
Proof.
  intros H. rewrite list_lookup_alter in H.
  destruct (decide (idx = j)) as [->|Hne]; [|eauto].
  destruct (l !! j) as [m0|]; simpl in H; [|discriminate].
  injection H as <-. eauto.
Qed.

Lemma names_ok_touch (t : Z) (idx : nat) (l : list avp_secret_meta) :
  names_ok l -> names_ok (alter (set_updated_at t) idx l).
Proof.
  intros [Hu Hn]. split.
  - intros i j mi mj Hi Hj Ui Uj E.
    destruct (lookup_alter_inv _ _ _ _ _ Hi) as (mi0 & Hi0 & Ei).
    destruct (lookup_alter_inv _ _ _ _ _ Hj) as (mj0 & Hj0 & Ej).
    apply (Hu i j mi0 mj0 Hi0 Hj0);
      destruct Ei as [-> | ->], Ej as [-> | ->]; simpl in *; auto.
  - intros i m Hi U. destruct (lookup_alter_inv _ _ _ _ _ Hi) as (m0 & Hi0 & [-> | ->]);
      simpl in *; eauto.
Qed.

Lemma names_ok_insert (idx : nat) (e : avp_secret_meta) (l : list avp_secret_meta) :
  names_ok l ->
  (sm_in_use e = true ->
     (String.length (sm_name e) <= AVP_MAX_NAME_LEN - 1)%nat /\
     forall j m, j <> idx -> l !! j = Some m -> sm_in_use m = true -> sm_name m <> sm_name e) ->
  names_ok (<[idx := e]> l).
Proof.
  intros [Hu Hn] He.
  assert (Hl : forall j m, <[idx := e]> l !! j = Some m ->
            (j = idx /\ m = e) \/ (j <> idx /\ l !! j = Some m)).
  { intros j m Hj. destruct (decide (j = idx)) as [->|Hne].
    - left. split; [reflexivity|].
      destruct (decide (idx < length l)%nat) as [Hlt|Hge].
      + rewrite list_lookup_insert_eq in Hj by exact Hlt. congruence.
      + rewrite list_insert_ge in Hj by lia. apply lookup_lt_Some in Hj. lia.
    - right. rewrite list_lookup_insert_ne in Hj by congruence. auto. }
  split.
  - intros i j mi mj Hi Hj Ui Uj E.
    destruct (Hl _ _ Hi) as [[-> ->] | [Hi' Li]], (Hl _ _ Hj) as [[-> ->] | [Hj' Lj]];
      [reflexivity | | | eauto].
    + destruct (He Ui) as [_ Hd]. exfalso. apply (Hd j mj Hj' Lj Uj). auto.
    + destruct (He Uj) as [_ Hd]. exfalso. apply (Hd i mi Hi' Li Ui). auto.
  - intros i m Hi U. destruct (Hl _ _ Hi) as [[-> ->] | [_ Li]]; [apply He; exact U | eauto].
Qed.

Lemma filter_in_use_pos (l : list avp_secret_meta) (j : nat) (m : avp_secret_meta) :
  l !! j = Some m -> sm_in_use m = true -> (0 < length (List.filter sm_in_use l))%nat.
Proof.
  revert j. induction l as [|m0 l IH]; intros j Hj U; [discriminate|].
  destruct j as [|j]; simpl in Hj.
  - injection Hj as <-. simpl. rewrite U. simpl. lia.
  - simpl. destruct (sm_in_use m0); simpl; [lia|]. eauto.
Qed.

Lemma list_names_in (l : list avp_secret_meta) (k j : nat) (m : avp_secret_meta) :
  (k + count_in_use l <= AVP_MAX_SECRETS)%nat ->
  l !! j = Some m -> sm_in_use m = true ->
  In (c_trunc (AVP_MAX_NAME_LEN - 1) (sm_name m)) (list_names l k).
Proof.
  unfold count_in_use. revert k j. induction l as [|m0 l IH]; intros k j Hk Hj U;
    [discriminate|].
  simpl in Hk |- *. destruct (k <? AVP_MAX_SECRETS)%nat eqn:Hlt.
  - destruct j as [|j]; simpl in Hj.
    + injection Hj as <-. rewrite U. left. reflexivity.
    + destruct (sm_in_use m0); simpl in Hk.
      * right. apply (IH (S k) j); auto; lia.
      * apply (IH k j); auto.
  - apply Nat.ltb_ge in Hlt. exfalso.
    destruct j as [|j]; simpl in Hj.
    + injection Hj as <-. rewrite U in Hk. simpl in Hk. unfold AVP_MAX_SECRETS in *. lia.
    + assert (Hc : (0 < length (List.filter sm_in_use l))%nat).
      { exact (filter_in_use_pos l j m Hj U). }
      destruct (sm_in_use m0); simpl in Hk; unfold AVP_MAX_SECRETS in *; lia.
Qed.

Section Tables.
Variable clock rng : nat -> Z.

Ltac run_m :=
  unfold mbind, get_ctx, put_ctx, modify_ctx, mret, fail, get_time,
    random_bytes, store_touch, tick in *; simpl.

Lemma op_store_finds_name (cmd : avp_cmd) (w : world) :
  table_inv (w_ctx w) ->
  (String.length (cmd_name cmd) <= AVP_MAX_NAME_LEN - 1)%nat ->
  r_ok (snd (fst (avp_op_store clock cmd w))) = true ->
  exists j m, ctx_secrets (w_ctx (snd (avp_op_store clock cmd w))) !! j = Some m /\
    sm_in_use m = true /\ sm_name m = cmd_name cmd.
Proof.
  intros Hinv Hn. unfold avp_op_store.
  destruct (session_live (w_ctx w) (now_of clock w)) eqn:Hl;
    [rewrite (gate_open _ _ _ _ Hl) | rewrite (gate_closed _ _ _ _ Hl); simpl; discriminate].
  run_m.
  destruct (find_secret_by_name (w_ctx w) (cmd_name cmd)) as [idx|] eqn:Hf;
    run_m.
  - intros _. unfold find_secret_by_name in Hf. rewrite (table_inv_take _ Hinv) in Hf.
    destruct (find_from_some _ _ _ _ Hf) as [_ [m [Hm Hfm]]].
    rewrite Nat.sub_0_r in Hm. apply andb_prop in Hfm as [U E].
    apply String.eqb_eq in E.
    exists idx, (set_updated_at (u32 (clock (S (w_clock w)))) m). split.
    + rewrite list_lookup_alter_eq, Hm. reflexivity.
    + simpl. auto.
  - destruct (find_free_slot (w_ctx w)) as [idx|] eqn:Hfree; run_m;
      [| discriminate].
    intros _. unfold find_free_slot in Hfree. rewrite (table_inv_take _ Hinv) in Hfree.
    destruct (find_from_some _ _ _ _ Hfree) as [_ [m [Hm _]]].
    rewrite Nat.sub_0_r in Hm.
    eexists idx, _. split.
    + rewrite list_lookup_alter_eq, list_lookup_insert_eq
        by (apply lookup_lt_Some in Hm; exact Hm).
      reflexivity.
    + simpl. split; [reflexivity|]. apply c_trunc_id. exact Hn.
Qed.

Lemma op_store_names_ok (cmd : avp_cmd) (w : world) :
  table_inv (w_ctx w) -> names_ok (ctx_secrets (w_ctx w)) ->
  (String.length (cmd_name cmd) <= AVP_MAX_NAME_LEN - 1)%nat ->
  names_ok (ctx_secrets (w_ctx (snd (avp_op_store clock cmd w)))).
Proof.
  intros Hinv Hok Hn. unfold avp_op_store.
  destruct (session_live (w_ctx w) (now_of clock w)) eqn:Hl;
    [rewrite (gate_open _ _ _ _ Hl) | rewrite (gate_closed _ _ _ _ Hl)].
  2:{ simpl. destruct (session_valid_after_secrets clock w) as (Ha & _ & _).
      rewrite Ha. exact Hok. }
  run_m.
  destruct (find_secret_by_name (w_ctx w) (cmd_name cmd)) as [idx|] eqn:Hf;
    run_m; [apply names_ok_touch; exact Hok|].
  destruct (find_free_slot (w_ctx w)) as [idx|] eqn:Hfree; run_m; [|exact Hok].
  apply names_ok_touch, names_ok_insert; [exact Hok|]. simpl. intros _. split.
  - apply c_trunc_length.
  - intros j m _ Hj U E. rewrite (c_trunc_id 63) in E by exact Hn.
    unfold find_secret_by_name in Hf. rewrite (table_inv_take _ Hinv) in Hf.
    pose proof (find_from_none_lookup _ _ _ _ _ Hf Hj) as Hp. simpl in Hp.
    rewrite U, E, String.eqb_refl in Hp. discriminate.
Qed.

Lemma op_delete_post (cmd : avp_cmd) (w : world) :
  table_inv (w_ctx w) -> names_ok (ctx_secrets (w_ctx w)) ->
  names_ok (ctx_secrets (w_ctx (snd (avp_op_delete clock cmd w)))) /\
  (r_ok (snd (fst (avp_op_delete clock cmd w))) = true ->
   forall j m, ctx_secrets (w_ctx (snd (avp_op_delete clock cmd w))) !! j = Some m ->
     sm_in_use m = true -> sm_name m <> cmd_name cmd).
Proof.
  intros Hinv Hok. unfold avp_op_delete.
  destruct (session_live (w_ctx w) (now_of clock w)) eqn:Hl;
    [rewrite (gate_open _ _ _ _ Hl) | rewrite (gate_closed _ _ _ _ Hl)].
  2:{ simpl. destruct (session_valid_after_secrets clock w) as (Ha & _ & _).
      rewrite Ha. split; [exact Hok | discriminate]. }
  run_m.
  destruct (find_secret_by_name (w_ctx w) (cmd_name cmd)) as [idx|] eqn:Hf;
    run_m; [| split; [exact Hok | discriminate]].
  split.
  - apply names_ok_insert; [exact Hok|]. simpl. discriminate.
  - intros _ j m Hj U E.
    unfold find_secret_by_name in Hf. rewrite (table_inv_take _ Hinv) in Hf.
    destruct (find_from_some _ _ _ _ Hf) as [_ [m0 [Hm0 Hp]]].
    rewrite Nat.sub_0_r in Hm0. apply andb_prop in Hp as [U0 E0].
    apply String.eqb_eq in E0.
    destruct (decide (j = idx)) as [->|Hne].
    + rewrite list_lookup_insert_eq in Hj by (apply lookup_lt_Some in Hm0; exact Hm0).
      injection Hj as <-. discriminate U.
    + rewrite list_lookup_insert_ne in Hj by congruence.
      destruct Hok as [Hu _].
      apply Hne, (Hu j idx m m0 Hj Hm0 U U0). congruence.
Qed.

Lemma dispatch_names_ok (cmd : avp_cmd) (w : world) :
  table_inv (w_ctx w) -> names_ok (ctx_secrets (w_ctx w)) ->
  (String.length (cmd_name cmd) <= AVP_MAX_NAME_LEN - 1)%nat ->
  names_ok (ctx_secrets (w_ctx (snd (avp_dispatch clock rng cmd w)))).
Proof.
  intros Hinv Hok Hn. rewrite dispatch_snd.
  destruct (avp_op_eq_dec (cmd_op cmd) AVP_OP_STORE) as [Hs|Hs];
    [unfold avp_exec; rewrite Hs; apply op_store_names_ok; assumption|].
  destruct (avp_op_eq_dec (cmd_op cmd) AVP_OP_ROTATE) as [Hr|Hr];
    [unfold avp_exec; rewrite Hr; apply op_store_names_ok; assumption|].
  destruct (avp_op_eq_dec (cmd_op cmd) AVP_OP_DELETE) as [Hd|Hd];
    [unfold avp_exec; rewrite Hd; apply op_delete_post; assumption|].
  destruct (dispatch_secrets_other clock rng cmd w Hs Hr Hd) as [Ha _].
  rewrite dispatch_snd in Ha. rewrite Ha. exact Hok.
Qed.

Lemma names_ok_init : names_ok (ctx_secrets avp_init).
Proof.
  split.
  - intros i j mi mj Hi _ Ui _ _. cbn [ctx_secrets avp_init] in Hi.
    apply lookup_replicate in Hi as [-> _]. discriminate Ui.
  - intros i m Hi U. cbn [ctx_secrets avp_init] in Hi. apply lookup_replicate in Hi as [-> _]. discriminate U.
Qed.

Lemma find_name_some (c : avp_ctx) (j : nat) (m : avp_secret_meta) :
  table_inv c -> ctx_secrets c !! j = Some m -> sm_in_use m = true ->
  find_secret_by_name c (sm_name m) <> None.
Proof.
  intros Hinv Hj U Hf. unfold find_secret_by_name in Hf.
  rewrite (table_inv_take _ Hinv) in Hf.
  pose proof (find_from_none_lookup _ _ _ _ _ Hf Hj) as Hp. simpl in Hp.
  rewrite U, String.eqb_refl in Hp. discriminate.
Qed.

(** X6: After a successful STORE of a name of at most 63 characters, as long as the session is still live, a RETRIEVE of that name succeeds and a LIST contains the name. *)
Theorem store_then_retrieve_and_list (cmd : avp_cmd) (w : world) :
  cmd_op cmd = AVP_OP_STORE -> table_inv (w_ctx w) ->
  (String.length (cmd_name cmd) <= AVP_MAX_NAME_LEN - 1)%nat ->
  r_ok (fst (avp_dispatch clock rng cmd w)) = true ->
  let w1 := snd (avp_dispatch clock rng cmd w) in
  session_live (w_ctx w1) (now_of clock w1) = true ->
  r_ok (fst (avp_dispatch clock rng (with_op AVP_OP_RETRIEVE cmd) w1)) = true /\
  In (cmd_name cmd) (r_list_names (fst (avp_dispatch clock rng (with_op AVP_OP_LIST cmd) w1))).
Proof.
  intros Hop Hinv Hn Hok w1 Hlive.
  assert (Hex : avp_exec clock rng cmd w = avp_op_store clock cmd w)
    by (unfold avp_exec; rewrite Hop; reflexivity).
  rewrite dispatch_fst, Hex in Hok.
  destruct (op_store_finds_name cmd w Hinv Hn Hok) as (j & m & Hj & U & E).
  pose proof (op_store_inv clock cmd w Hinv) as Hinv1.
  assert (Hw1 : w1 = snd (avp_op_store clock cmd w))
    by (unfold w1; rewrite dispatch_snd, Hex; reflexivity).
  rewrite <- Hw1 in Hj, Hinv1. clearbody w1.
  split.
  - unfold avp_dispatch, avp_exec. cbn [cmd_op with_op]. unfold avp_op_retrieve.
    rewrite dispatch_gate, Hlive. run_m.
    pose proof (find_name_some _ _ _ Hinv1 Hj U) as Hf. rewrite E in Hf.
    destruct (find_secret_by_name (w_ctx w1) (cmd_name cmd)); [reflexivity|].
    exfalso. apply Hf. reflexivity.
  - unfold avp_dispatch, avp_exec. cbn [cmd_op with_op]. unfold avp_op_list.
    rewrite dispatch_gate, Hlive. run_m.
    rewrite (table_inv_take _ Hinv1).
    rewrite <- E, <- (c_trunc_id (AVP_MAX_NAME_LEN - 1) (sm_name m)) by (rewrite E; exact Hn).
    apply (list_names_in _ _ j); [| exact Hj | exact U].
    pose proof (count_in_use_le (ctx_secrets (w_ctx w1))). destruct Hinv1 as [Hl _]. lia.
Qed.

Lemma list_names_member (l : list avp_secret_meta) (k : nat) (x : string) :
  In x (list_names l k) ->
  exists j m, l !! j = Some m /\ sm_in_use m = true /\
    x = c_trunc (AVP_MAX_NAME_LEN - 1) (sm_name m).
Proof.
  revert k. induction l as [|m0 l IH]; intros k H; [destruct H|].
  simpl in H. destruct (k <? AVP_MAX_SECRETS)%nat; [|destruct H].
  destruct (sm_in_use m0) eqn:U.
  - destruct H as [<- | H].
    + exists 0%nat, m0. auto.
    + destruct (IH _ H) as (j & m & Hj & Hu & Ex). exists (S j), m. auto.
  - destruct (IH _ H) as (j & m & Hj & Hu & Ex). exists (S j), m. auto.
Qed.

(** X7: On a table whose in-use names are distinct, a successful DELETE removes the name: the lookup fails, a following RETRIEVE fails, and a following LIST no longer contains it. *)
Theorem delete_then_retrieve_and_list (cmd : avp_cmd) (w : world) :
  cmd_op cmd = AVP_OP_DELETE -> table_inv (w_ctx w) -> names_ok (ctx_secrets (w_ctx w)) ->
  r_ok (fst (avp_dispatch clock rng cmd w)) = true ->
  let w1 := snd (avp_dispatch clock rng cmd w) in
  find_secret_by_name (w_ctx w1) (cmd_name cmd) = None /\
  r_ok (fst (avp_dispatch clock rng (with_op AVP_OP_RETRIEVE cmd) w1)) = false /\
  ~ In (cmd_name cmd) (r_list_names (fst (avp_dispatch clock rng (with_op AVP_OP_LIST cmd) w1))).
Proof.
  intros Hop Hinv Hok Hr w1.
  assert (Hex : avp_exec clock rng cmd w = avp_op_delete clock cmd w)
    by (unfold avp_exec; rewrite Hop; reflexivity).
  rewrite dispatch_fst, Hex in Hr.
  destruct (op_delete_post cmd w Hinv Hok) as [Hok1 Hgone].
  specialize (Hgone Hr).
  pose proof (op_delete_inv clock cmd w Hinv) as Hinv1.
  assert (Hw1 : w1 = snd (avp_op_delete clock cmd w))
    by (unfold w1; rewrite dispatch_snd, Hex; reflexivity).
  rewrite <- Hw1 in Hgone, Hinv1, Hok1. clearbody w1.
  assert (Hf : find_secret_by_name (w_ctx w1) (cmd_name cmd) = None).
  { unfold find_secret_by_name. rewrite (table_inv_take _ Hinv1).
    apply find_from_none_intro. intros j m Hj.
    destruct (sm_in_use m) eqn:U; [|reflexivity]. simpl.
    apply String.eqb_neq. exact (Hgone j m Hj U). }
  split; [exact Hf|]. split.
  - unfold avp_dispatch, avp_exec. cbn [cmd_op with_op]. unfold avp_op_retrieve.
    rewrite dispatch_gate. destruct (session_live _ _); [|reflexivity].
    run_m. rewrite Hf. reflexivity.
  - unfold avp_dispatch, avp_exec. cbn [cmd_op with_op]. unfold avp_op_list.
    rewrite dispatch_gate. destruct (session_live _ _); [|simpl; tauto].
    run_m. rewrite (table_inv_take _ Hinv1). intros Hin.
    destruct (list_names_member _ _ _ Hin) as (j & m & Hj & U & Ex).
    destruct Hok1 as [_ Hlen].
    rewrite (c_trunc_id _ _ (Hlen j m Hj U)) in Ex.
    exact (Hgone j m Hj U (eq_sym Ex)).
Qed.

(** X8: The initial table has distinct in-use names of at most 63 characters. Every request processed by avp_process keeps that property and the table invariant (32 entries, secret_count equal to the number of in-use entries). *)
Theorem process_keeps_names_distinct :
  names_ok (ctx_secrets avp_init) /\
  forall (json_in : string) (w : world),
    table_inv (w_ctx w) -> names_ok (ctx_secrets (w_ctx w)) ->
    table_inv (w_ctx (snd (avp_process clock rng json_in w))) /\
    names_ok (ctx_secrets (w_ctx (snd (avp_process clock rng json_in w)))).
Proof.
  split; [exact names_ok_init|]. intros json_in w Hinv Hok.
  unfold avp_process.
  destruct (avp_parse_cmd json_in) as [ret ocmd] eqn:Hp.
  destruct ret; try (simpl; split; assumption).
  destruct ocmd as [cmd|]; [|simpl; split; assumption].
  destruct (parse_fields_bounds _ _ Hp) as (_ & _ & Hn & _).
  split; [apply dispatch_inv; exact Hinv|].
  apply dispatch_names_ok; assumption.
Qed.

Ltac split_opts :=
  repeat (match goal with
          | |- context [match ?x with Some _ => _ | None => _ end] => destruct x; run_m
          end).

Lemma gated_closed (cmd : avp_cmd) (w : world) :
  requires_session (cmd_op cmd) = true ->
  session_live (w_ctx w) (now_of clock w) = false ->
  avp_dispatch clock rng cmd w = (resp_err AVP_ERR_NOT_AUTHENTICATED, session_valid_after clock w).
Proof.
  intros Hreq Hl. unfold avp_dispatch, avp_exec.
  destruct cmd as [op ? ? ? ? ? ? ? ? ? ?]; destruct op; try discriminate Hreq; cbn [cmd_op];
    [ unfold avp_op_store | unfold avp_op_retrieve | unfold avp_op_delete
    | unfold avp_op_list | unfold avp_op_rotate, avp_op_store
    | unfold avp_op_hw_sign | unfold avp_op_hw_attest ];
    rewrite dispatch_gate, Hl; reflexivity.
Qed.

(** X12: A request other than AUTHENTICATE either leaves the session unchanged or, when the session was active but expired, only clears its active flag. *)
Theorem session_changed_only_by_authenticate (cmd : avp_cmd) (w : world) :
  cmd_op cmd <> AVP_OP_AUTHENTICATE ->
  ctx_session (w_ctx (snd (avp_dispatch clock rng cmd w))) = ctx_session (w_ctx w) \/
  (ctx_session (w_ctx (snd (avp_dispatch clock rng cmd w)))
     = set_active false (ctx_session (w_ctx w)) /\
   session_live (w_ctx w) (now_of clock w) = false).
Proof.
  intros Hop. unfold avp_dispatch, avp_exec.
  destruct cmd as [op ? ? ? ? ? ? ? ? ? ?]; destruct op; cbn [cmd_op] in Hop |- *;
    try (exfalso; apply Hop; reflexivity);
    try (unfold avp_op_discover, avp_op_hw_challenge; run_m; left; reflexivity);
    unfold avp_op_rotate, avp_op_store, avp_op_retrieve, avp_op_delete, avp_op_list,
      avp_op_hw_sign, avp_op_hw_attest;
    (rewrite dispatch_gate; destruct (session_live _ _) eqn:Hl;
     [ run_m; split_opts; left; reflexivity
     | cbn [snd]; unfold session_valid_after; rewrite Hl;
       destruct (ss_active _);
       first [left; reflexivity | right; split; reflexivity] ]).
Qed.

Lemma auth_post_session (cmd : avp_cmd) (w : world) :
  cmd_op cmd = AVP_OP_AUTHENTICATE ->
  r_ok (fst (avp_dispatch clock rng cmd w)) = true ->
  ss_active (ctx_session (w_ctx (snd (avp_dispatch clock rng cmd w)))) = true /\
  ss_created_at (ctx_session (w_ctx (snd (avp_dispatch clock rng cmd w))))
    = u32 (clock (w_clock w)) /\
  ss_ttl (ctx_session (w_ctx (snd (avp_dispatch clock rng cmd w))))
    = (if cmd_ttl cmd >? 0 then cmd_ttl cmd else AVP_DEFAULT_TTL) /\
  w_clock (snd (avp_dispatch clock rng cmd w)) = S (w_clock w).
Proof.
  intros Hop. unfold avp_dispatch, avp_exec. rewrite Hop.
  unfold avp_op_authenticate. run_m.
  destruct (ss_pin_attempts (ctx_session (w_ctx w)) >=? AVP_MAX_PIN_ATTEMPTS);
    [simpl; intros Hf; discriminate Hf|].
  destruct (String.length (cmd_pin cmd) <? 4)%nat; [simpl; intros Hf; discriminate Hf|].
  simpl. intros _. repeat split.
Qed.

(** X13: If a successful AUTHENTICATE (ttl below 2^32) yields created_at + ttl >= 2^32, the uint32 expiry wraps. Then, as long as the clock does not go below created_at, every session-requiring request fails with NOT_AUTHENTICATED, right after the login. *)
Theorem authenticate_ttl_wrap_locks_out (cmd cmd2 : avp_cmd) (w : world) :
  cmd_op cmd = AVP_OP_AUTHENTICATE -> 0 <= cmd_ttl cmd < 2 ^ 32 ->
  r_ok (fst (avp_dispatch clock rng cmd w)) = true ->
  let w1 := snd (avp_dispatch clock rng cmd w) in
  2 ^ 32 <= ss_created_at (ctx_session (w_ctx w1)) + ss_ttl (ctx_session (w_ctx w1)) ->
  ss_created_at (ctx_session (w_ctx w1)) <= now_of clock w1 ->
  requires_session (cmd_op cmd2) = true ->
  fst (avp_dispatch clock rng cmd2 w1) = resp_err AVP_ERR_NOT_AUTHENTICATED.
Proof.
  intros Hop Httl Hok w1 Hwrap Hnow Hreq.
  destruct (auth_post_session cmd w Hop Hok) as (Ha & Hc & Ht & _).
  fold w1 in Ha, Hc, Ht.
  rewrite (gated_closed cmd2 w1 Hreq). { reflexivity. }
  unfold session_live. rewrite Ha. simpl.
  set (c := ss_created_at (ctx_session (w_ctx w1))) in *.
  set (t := ss_ttl (ctx_session (w_ctx w1))) in *.
  assert (Hc0 : 0 <= c < 2 ^ 32) by (rewrite Hc; unfold u32; apply Z.mod_pos_bound; lia).
  assert (Ht0 : 0 < t < 2 ^ 32).
  { rewrite Ht. unfold AVP_DEFAULT_TTL. destruct (Z.gtb_spec (cmd_ttl cmd) 0); lia. }
  assert (Hu : u32 (c + t) = c + t - 2 ^ 32).
  { unfold u32. symmetry. apply (Z.mod_unique _ _ 1); lia. }
  rewrite Hu. apply Z.ltb_ge. lia.
Qed.

(** X14: A successful HW_SIGN returns as its signature the hex encoding of the next 64 random bytes, 128 characters, and consumes exactly 64 random bytes. The signature depends on neither the data nor the key name. *)
Theorem hw_sign_signature_is_random_hex (cmd : avp_cmd) (w : world) :
  cmd_op cmd = AVP_OP_HW_SIGN ->
  r_ok (fst (avp_dispatch clock rng cmd w)) = true ->
  r_sign_signature (fst (avp_dispatch clock rng cmd w))
    = hex_encode (map (fun k => u8 (rng k)) (seq (w_rng w) 64)) /\
  String.length (r_sign_signature (fst (avp_dispatch clock rng cmd w))) = 128%nat /\
  w_rng (snd (avp_dispatch clock rng cmd w)) = (w_rng w + 64)%nat.
Proof.
  intros Hop. unfold avp_dispatch, avp_exec. rewrite Hop. unfold avp_op_hw_sign.
  rewrite dispatch_gate. destruct (session_live _ _); [|simpl; intros Hf; discriminate Hf].
  cbv beta iota delta [mbind random_bytes mret tick].
  cbn [fst snd r_sign_signature w_rng r_ok]. intros _. split; [reflexivity|]. split; [|reflexivity].
  rewrite hex_encode_length, length_map, length_seq. reflexivity.
Qed.

End Tables.

(** ** Response formatting *)

Lemma sb_put_length (p : nat) (c : ascii) (b : sbuf) :
  length (sb_data (sb_put p c b)) = length (sb_data b).
Proof.
  unfold sb_put. destruct (p <? length (sb_data b))%nat; simpl; [apply length_insert|reflexivity].
Qed.

Lemma sb_write_length (p : nat) (s : string) (b : sbuf) :
  length (sb_data (sb_write p s b)) = length (sb_data b).
Proof.
  revert p b. induction s as [|c s IH]; intros p b; [reflexivity|].
  simpl. rewrite IH. apply sb_put_length.
Qed.

Lemma sb_write_oob_mono (p : nat) (s : string) (b : sbuf) :
  sb_oob b = true -> sb_oob (sb_write p s b) = true.
Proof.
  revert p b. induction s as [|c s IH]; intros p b H; [exact H|].
  simpl. apply IH. unfold sb_put. destruct (p <? length (sb_data b))%nat; exact H || reflexivity.
Qed.

Lemma sb_write_past (p : nat) (c : ascii) (s : string) (b : sbuf) :
  (length (sb_data b) <= p)%nat -> sb_oob (sb_write p (String c s) b) = true.
Proof.
  intros H. simpl. apply sb_write_oob_mono. unfold sb_put.
  replace (p <? length (sb_data b))%nat with false by (symmetry; apply Nat.ltb_ge; exact H).
  reflexivity.
Qed.

Lemma snprintf_length (off size : Z) (s : string) (b : sbuf) :
  length (sb_data (snprintf_at off size s b)) = length (sb_data b).
Proof. unfold snprintf_at. destruct (size =? 0); [reflexivity | apply sb_write_length]. Qed.

Lemma snprintf_oob_mono (off size : Z) (s : string) (b : sbuf) :
  sb_oob b = true -> sb_oob (snprintf_at off size s b) = true.
Proof. unfold snprintf_at. intros H. destruct (size =? 0); [exact H | apply sb_write_oob_mono, H]. Qed.

Lemma loop_stop (len : Z) (names : list string) (k i : nat) (n : Z) (b : sbuf) :
  len - 10 <= n -> fmt_list_loop len names k i n b = (n, b).
Proof.
  intros H. destruct k as [|k]; [reflexivity|]. simpl.
  replace (n <? len - 10) with false by (symmetry; apply Z.ltb_ge; lia). reflexivity.
Qed.

Lemma str_length_app (s t : string) :
  String.length (s ++ t) = (String.length s + String.length t)%nat.
Proof. induction s as [|c s IH]; simpl; [reflexivity | rewrite IH; reflexivity]. Qed.

Lemma quoted_length (s : string) :
  String.length (dq ++ s ++ dq) = (String.length s + 2)%nat.
Proof. rewrite !str_length_app. simpl. lia. Qed.

Lemma loop_step_first (len : Z) (names : list string) (k : nat) (n : Z) (b : sbuf) :
  n < len - 10 ->
  fmt_list_loop len names (S k) 0 n b
  = fmt_list_loop len names k 1
      (n + Z.of_nat (String.length (c_str (nth 0 names EmptyString)) + 2))
      (snprintf_at n (size_t (len - n)) (dq ++ c_str (nth 0 names EmptyString) ++ dq) b).
Proof.
  intros H. cbn [fmt_list_loop]. replace (n <? len - 10) with true by (symmetry; apply Z.ltb_lt; lia).
  cbn. rewrite quoted_length. reflexivity.
Qed.

Lemma loop_step_next (len : Z) (names : list string) (k i : nat) (n : Z) (b : sbuf) :
  n < len - 10 ->
  fmt_list_loop len names (S k) (S i) n b
  = fmt_list_loop len names k (S (S i))
      (n + 1 + Z.of_nat (String.length (c_str (nth (S i) names EmptyString)) + 2))
      (snprintf_at (n + 1) (size_t (len - (n + 1)))
         (dq ++ c_str (nth (S i) names EmptyString) ++ dq)
         (snprintf_at n (size_t (len - n)) "," b)).
Proof.
  intros H. cbn [fmt_list_loop]. replace (n <? len - 10) with true by (symmetry; apply Z.ltb_lt; lia).
  cbn. rewrite quoted_length. reflexivity.
Qed.

Lemma loop_length (len : Z) (names : list string) (k i : nat) (n : Z) (b : sbuf) :
  length (sb_data (snd (fmt_list_loop len names k i n b))) = length (sb_data b).
Proof.
  revert i n b. induction k as [|k IH]; intros i n b; [reflexivity|].
  cbn [fmt_list_loop]. destruct (n <? len - 10); [|reflexivity].
  destruct (0 <? i)%nat; cbn; rewrite IH, !snprintf_length; reflexivity.
Qed.

Theorem list_response_overflows (r : avp_resp) (b : sbuf) :
  r_ok r = true -> c_nonempty (r_discover_version r) = false ->
  c_nonempty (r_auth_session_id r) = false -> c_nonempty (r_retrieve_value r) = false ->
  r_list_count r = Z.of_nat (length (r_list_names r)) ->
  (16 <= length (r_list_names r))%nat ->
  Forall (fun s => String.length (c_str s) = 63%nat) (r_list_names r) ->
  length (sb_data b) = AVP_MAX_JSON_LEN ->
  fst (avp_format_resp r AVP_MAX_JSON_LEN b) = AVP_ERR_INTERNAL /\
  sb_oob (snd (avp_format_resp r AVP_MAX_JSON_LEN b)) = true.
Proof.
  intros Hok Hv Hs Hval Hc Hge Hall Hlen.
  assert (Hn : forall i, (i < 16)%nat ->
            String.length (c_str (nth i (r_list_names r) EmptyString)) = 63%nat).
  { intros i Hi. rewrite List.Forall_forall in Hall. apply Hall, nth_In. lia. }
  unfold avp_format_resp. rewrite Hok, Hv, Hs, Hval, Hc. cbn -[fmt_list_loop snprintf_at].
  replace (0 <? Z.of_nat (length (r_list_names r))) with true
    by (symmetry; apply Z.ltb_lt; lia).
  rewrite Nat2Z.id.
  replace (length (r_list_names r)) with (16 + (length (r_list_names r) - 16))%nat by lia.
  cbn [Nat.add].
  change (Z.of_nat AVP_MAX_JSON_LEN) with 1024.
  change (Z.of_nat (String.length list_head)) with 22.
  rewrite loop_step_first by lia. rewrite (Hn 0%nat) by lia.
  do 14 (rewrite loop_step_next by lia; rewrite Hn by lia).
  rewrite loop_step_next by lia.
  rewrite Hn by lia.
  rewrite loop_stop by lia.
  cbn -[snprintf_at]. split; [reflexivity|].
  unfold snprintf_at at 1. cbn -[sb_write snprintf_at].
  apply sb_write_past.
  rewrite !snprintf_length. rewrite Hlen. vm_compute. lia.
Qed.

Lemma sb_write_in (p : nat) (s : string) (b : sbuf) :
  (p + String.length s <= length (sb_data b))%nat ->
  sb_write p s b
  = {| sb_data := take p (sb_data b) ++ list_ascii_of_string s
                  ++ drop (p + String.length s) (sb_data b);
       sb_oob := sb_oob b |}.
Proof.
  revert p b. induction s as [|c s IH]; intros p b H.
  - destruct b as [d o]. simpl. rewrite Nat.add_0_r, take_drop. reflexivity.
  - simpl in H |- *. unfold sb_put at 1.
    replace (p <? length (sb_data b))%nat with true by (symmetry; apply Nat.ltb_lt; lia).
    destruct b as [d o]. simpl in *.
    rewrite IH by (simpl; rewrite length_insert; lia). simpl.
    rewrite insert_take_drop by lia.
    replace (take p d ++ c :: drop (S p) d) with ((take p d ++ [c]) ++ drop (S p) d)
      by (rewrite <- app_assoc; reflexivity).
    assert (Ht : length (take p d ++ [c]) = S p)
      by (rewrite length_app, length_take; simpl; lia).
    rewrite take_app_length' by (rewrite Ht; reflexivity).
    rewrite drop_app_ge by (rewrite Ht; lia).
    rewrite Ht, drop_drop, <- app_assoc. simpl.
    do 4 f_equal. f_equal. lia.
Qed.


Lemma list_ascii_app (s t : string) :
  list_ascii_of_string (s ++ t)%string = list_ascii_of_string s ++ list_ascii_of_string t.
Proof. induction s as [|c s IH]; simpl; [reflexivity | rewrite IH; reflexivity]. Qed.

Lemma string_of_list_app (s : string) (l : list ascii) :
  string_of_list_ascii (list_ascii_of_string s ++ l) = (s ++ string_of_list_ascii l)%string.
Proof. induction s as [|c s IH]; simpl; [reflexivity | rewrite IH; reflexivity]. Qed.

Lemma c_str_app_nul (s t : string) : c_str s = s -> c_str (s ++ String nul t)%string = s.
Proof.
  induction s as [|c s IH]; simpl; intros H.
  - reflexivity.
  - destruct (Ascii.eqb c (ascii_of_nat 0)); [discriminate H|].
    injection H as H. rewrite IH by exact H. reflexivity.
Qed.

Lemma snprintf_text0 (s : string) (b : sbuf) :
  (String.length s < length (sb_data b))%nat -> Z.of_nat (length (sb_data b)) < 2 ^ 32 ->
  c_str s = s ->
  sb_text (snprintf_at 0 (size_t (Z.of_nat (length (sb_data b)))) s b) = s /\
  sb_oob (snprintf_at 0 (size_t (Z.of_nat (length (sb_data b)))) s b) = sb_oob b.
Proof.
  intros Hl Hw Hn. unfold snprintf_at, size_t, u32.
  rewrite Z.mod_small by lia.
  replace (Z.of_nat (length (sb_data b)) =? 0) with false by (symmetry; apply Z.eqb_neq; lia).
  replace (Z.of_nat (String.length s) <? Z.of_nat (length (sb_data b))) with true
    by (symmetry; apply Z.ltb_lt; lia).
  rewrite sb_write_in by (rewrite str_length_app; simpl; lia).
  unfold sb_text. simpl. rewrite list_ascii_app, <- app_assoc, string_of_list_app.
  split; [apply c_str_app_nul; exact Hn | reflexivity].
Qed.

Lemma error_text_props (e : avp_ret) :
  c_str (error_text e) = error_text e /\ (String.length (error_text e) < 100)%nat.
Proof. destruct e; vm_compute; split; reflexivity || lia. Qed.

Theorem error_response_text (r : avp_resp) (b : sbuf) :
  r_ok r = false -> (100 <= length (sb_data b))%nat -> Z.of_nat (length (sb_data b)) < 2 ^ 32 ->
  fst (avp_format_resp r (length (sb_data b)) b) = AVP_OK /\
  sb_text (snd (avp_format_resp r (length (sb_data b)) b)) = error_text (r_error_code r) /\
  sb_oob (snd (avp_format_resp r (length (sb_data b)) b)) = sb_oob b.
Proof.
  intros Hok Hl Hw. destruct (error_text_props (r_error_code r)) as [Hn Hlen].
  unfold avp_format_resp. rewrite Hok. cbn -[snprintf_at error_text].
  destruct (snprintf_text0 (error_text (r_error_code r)) b) as [Ht Ho]; [lia|exact Hw|exact Hn|].
  split; [|split; assumption].
  replace (Z.of_nat (String.length (error_text (r_error_code r))) >=? Z.of_nat (length (sb_data b)))
    with false by (symmetry; rewrite Z.geb_leb; apply Z.leb_gt; lia).
  reflexivity.
Qed.

Section OutputProofs.
Variable clock rng : nat -> Z.

Ltac run_m :=
  unfold mbind, get_ctx, put_ctx, modify_ctx, mret, fail, get_time,
    random_bytes, store_touch, tick in *; simpl.

Lemma cmd_process_eq (data : string) (buf : list ascii) (w : world) :
  avp_cmd_process clock rng data buf w
  = let '(r, w') := avp_process clock rng data w in
    let '(ret, b) := avp_format_resp r AVP_MAX_JSON_LEN {| sb_data := buf; sb_oob := false |} in
    ((if sb_oob b then None
      else Some (match ret with AVP_OK => (sb_text b ++ crlf)%string | _ => internal_error_line end),
      sb_data b), w').
Proof.
  unfold avp_cmd_process, avp_process_out, mbind, mret.
  destruct (avp_process clock rng data w) as [r w']. simpl.
  destruct (avp_format_resp r AVP_MAX_JSON_LEN _). reflexivity.
Qed.

(** X9: When a request fails, avp_cmd_process prints {"ok":false,"error":E,"message":E} followed by CRLF, where E is avp_error_str of the error code. *)
Theorem cmd_process_error_line (data : string) (buf : list ascii) (w : world) :
  length buf = AVP_MAX_JSON_LEN ->
  r_ok (fst (avp_process clock rng data w)) = false ->
  fst (fst (avp_cmd_process clock rng data buf w))
  = Some (error_text (r_error_code (fst (avp_process clock rng data w))) ++ crlf)%string.
Proof.
  intros Hl Hok. rewrite cmd_process_eq.
  destruct (avp_process clock rng data w) as [r w']. simpl in Hok |- *.
  destruct (error_response_text r {| sb_data := buf; sb_oob := false |}) as (H1 & H2 & H3);
    [exact Hok | simpl; rewrite Hl; unfold AVP_MAX_JSON_LEN; lia | simpl; rewrite Hl; reflexivity |].
  simpl in H1, H2, H3. rewrite Hl in H1, H2, H3.
  destruct (avp_format_resp r AVP_MAX_JSON_LEN _) as [ret b]. simpl in *.
  rewrite H3, H1, H2. reflexivity.
Qed.

Ltac split_opts :=
  repeat (match goal with
          | |- context [match ?x with Some _ => _ | None => _ end] => destruct x; run_m
          end).

Lemma dispatch_plain_fields (cmd : avp_cmd) (w : world) :
  cmd_op cmd = AVP_OP_STORE \/ cmd_op cmd = AVP_OP_ROTATE \/ cmd_op cmd = AVP_OP_DELETE \/
  cmd_op cmd = AVP_OP_HW_CHALLENGE \/ cmd_op cmd = AVP_OP_HW_ATTEST ->
  c_nonempty (r_discover_version (fst (avp_dispatch clock rng cmd w))) = false /\
  c_nonempty (r_auth_session_id (fst (avp_dispatch clock rng cmd w))) = false /\
  c_nonempty (r_retrieve_value (fst (avp_dispatch clock rng cmd w))) = false /\
  r_list_count (fst (avp_dispatch clock rng cmd w)) = 0 /\
  c_nonempty (r_sign_signature (fst (avp_dispatch clock rng cmd w))) = false.
Proof.
  intros Hop. unfold avp_dispatch, avp_exec.
  destruct Hop as [Hop|[Hop|[Hop|[Hop|Hop]]]]; rewrite Hop;
    [ unfold avp_op_store | unfold avp_op_rotate, avp_op_store | unfold avp_op_delete
    | unfold avp_op_hw_challenge | unfold avp_op_hw_attest ];
    try (rewrite dispatch_gate; destruct (session_live _ _));
    run_m; split_opts; repeat split.
Qed.

Lemma ok_text_response (r : avp_resp) (b : sbuf) :
  r_ok r = true -> c_nonempty (r_discover_version r) = false ->
  c_nonempty (r_auth_session_id r) = false -> c_nonempty (r_retrieve_value r) = false ->
  r_list_count r = 0 -> c_nonempty (r_sign_signature r) = false ->
  length (sb_data b) = AVP_MAX_JSON_LEN ->
  fst (avp_format_resp r AVP_MAX_JSON_LEN b) = AVP_OK /\
  sb_text (snd (avp_format_resp r AVP_MAX_JSON_LEN b)) = ok_text /\
  sb_oob (snd (avp_format_resp r AVP_MAX_JSON_LEN b)) = sb_oob b.
Proof.
  intros Hok H1 H2 H3 H4 H5 Hl.
  unfold avp_format_resp. rewrite Hok, H1, H2, H3, H4, H5. cbn -[snprintf_at ok_text].
  rewrite <- Hl.
  destruct (snprintf_text0 ok_text b) as [Ht Ho];
    [rewrite Hl; vm_compute; lia | rewrite Hl; vm_compute; reflexivity | vm_compute; reflexivity |].
  split; [rewrite Hl; reflexivity | split; assumption].
Qed.

(** X10: A successful STORE, ROTATE, DELETE, HW_CHALLENGE or HW_ATTEST request prints exactly {"ok":true} followed by CRLF. So the attestation and the challenge's verified, model and serial fields are never sent. *)
Theorem cmd_process_plain_ok (data : string) (buf : list ascii) (w : world) (cmd : avp_cmd) :
  length buf = AVP_MAX_JSON_LEN ->
  avp_parse_cmd data = (AVP_OK, Some cmd) ->
  cmd_op cmd = AVP_OP_STORE \/ cmd_op cmd = AVP_OP_ROTATE \/ cmd_op cmd = AVP_OP_DELETE \/
  cmd_op cmd = AVP_OP_HW_CHALLENGE \/ cmd_op cmd = AVP_OP_HW_ATTEST ->
  r_ok (fst (avp_process clock rng data w)) = true ->
  fst (fst (avp_cmd_process clock rng data buf w)) = Some (ok_text ++ crlf)%string.
Proof.
  intros Hl Hp Hop Hok. rewrite cmd_process_eq.
  assert (Hpr : avp_process clock rng data w = avp_dispatch clock rng cmd w)
    by (unfold avp_process; rewrite Hp; reflexivity).
  rewrite Hpr in Hok |- *.
  destruct (dispatch_plain_fields cmd w Hop) as (H1 & H2 & H3 & H4 & H5).
  destruct (avp_dispatch clock rng cmd w) as [r w']. simpl in *.
  destruct (ok_text_response r {| sb_data := buf; sb_oob := false |}) as (R1 & R2 & R3);
    try assumption.
  destruct (avp_format_resp r AVP_MAX_JSON_LEN _) as [ret b]. simpl in *.
  rewrite R3, R1, R2. reflexivity.
Qed.

(** X11: A successful LIST over at least 16 in-use secrets with 63-character names makes avp_format_resp store bytes past the end of the 1024-byte avp_response buffer. The loop guard n < len - 10 lets the text grow past the buffer. *)
Theorem cmd_process_list_overflow (data : string) (buf : list ascii) (w : world) (cmd : avp_cmd) :
  length buf = AVP_MAX_JSON_LEN ->
  avp_parse_cmd data = (AVP_OK, Some cmd) -> cmd_op cmd = AVP_OP_LIST ->
  table_inv (w_ctx w) -> session_live (w_ctx w) (now_of clock w) = true ->
  (16 <= count_in_use (ctx_secrets (w_ctx w)))%nat ->
  Forall (fun m => sm_in_use m = true ->
            String.length (sm_name m) = 63%nat /\ c_str (sm_name m) = sm_name m)
    (ctx_secrets (w_ctx w)) ->
  fst (fst (avp_cmd_process clock rng data buf w)) = None.
Proof.
  intros Hl Hp Hop Hinv Hlive Hcount Hnames. rewrite cmd_process_eq.
  assert (Hpr : avp_process clock rng data w = avp_dispatch clock rng cmd w)
    by (unfold avp_process; rewrite Hp; reflexivity).
  rewrite Hpr. unfold avp_dispatch, avp_exec. rewrite Hop. unfold avp_op_list.
  rewrite dispatch_gate, Hlive. run_m.
  rewrite (table_inv_take _ Hinv).
  set (names := list_names (ctx_secrets (w_ctx w)) 0).
  assert (Hlen : length names = count_in_use (ctx_secrets (w_ctx w))).
  { apply list_names_length. pose proof (count_in_use_le (ctx_secrets (w_ctx w))).
    destruct Hinv as [Hl32 _]. lia. }
  assert (Hall : Forall (fun s => String.length (c_str s) = 63%nat) names).
  { apply List.Forall_forall. intros x Hx.
    destruct (list_names_member _ _ _ Hx) as (j & m & Hj & U & ->).
    destruct (Forall_lookup_1 _ _ _ _ Hnames Hj U) as [L63 Hc].
    rewrite c_trunc_id by (rewrite L63; reflexivity). rewrite Hc. exact L63. }
  match goal with
  | |- context [avp_format_resp ?r AVP_MAX_JSON_LEN ?b] =>
      destruct (list_response_overflows r b) as [_ Ho]; cbn [r_ok r_list_names r_list_count
        r_discover_version r_auth_session_id r_retrieve_value sb_data];
        [reflexivity | reflexivity | reflexivity | reflexivity | reflexivity
        | lia | exact Hall | exact Hl | ];
      destruct (avp_format_resp r AVP_MAX_JSON_LEN b) as [ret b']
  end.
  simpl in Ho |- *. rewrite Ho. reflexivity.
Qed.

End OutputProofs.

(** ** Session *)

Section Invalidate.
Variable clock rng : nat -> Z.

(** X15: After avp_session_invalidate, every session-requiring request fails with NOT_AUTHENTICATED and changes nothing, not even the clock-call count. *)
Theorem session_invalidate_closes (cmd : avp_cmd) (w : world) :
  requires_session (cmd_op cmd) = true ->
  avp_dispatch clock rng cmd (invalidate_world w)
  = (resp_err AVP_ERR_NOT_AUTHENTICATED, invalidate_world w).
Proof.
  intros Hreq. rewrite (gated_closed clock rng cmd _ Hreq); reflexivity.
Qed.

End Invalidate.

(** X16: Distinct error codes give distinct error responses, so the printed error text identifies the code. *)
Theorem error_text_injective (e1 e2 : avp_ret) :
  error_text e1 = error_text e2 -> e1 = e2.
Proof.
  intros H. destruct e1, e2; try reflexivity; vm_compute in H; discriminate H.
Qed.

(** ** Hardware abstraction *)

Lemma length_lcg_fill (s : Z) (n : nat) : length (lcg_fill s n) = n.
Proof. revert s; induction n; intros s; simpl; [reflexivity|]. rewrite IHn. reflexivity. Qed.

Lemma length_word_bytes (w : Z) (c : nat) : length (word_bytes w c) = c.
Proof. unfold word_bytes. rewrite length_map, length_seq. reflexivity. Qed.

Lemma hw_fill_length (timer : nat -> Z) (hal : nat -> option Z) (fuel rem : nat) (st : hw_state) :
  (rem <= fuel)%nat -> length (fst (hw_fill timer hal fuel rem st)) = rem.
Proof.
  revert rem st; induction fuel as [|fuel IH]; intros rem st Hle.
  - simpl. lia.
  - destruct rem as [|r]; [reflexivity|]. cbn [hw_fill].
    destruct (hal (hw_rng_calls st)) as [w|].
    + set (st1 := {| hw_timer_calls := hw_timer_calls st; hw_rng_calls := S (hw_rng_calls st) |}).
      destruct (4 <=? S r)%nat eqn:E.
      * apply Nat.leb_le in E.
        pose proof (IH (S r - 4)%nat st1) as H.
        destruct (hw_fill timer hal fuel (S r - 4) st1) as [rest st'].
        cbn [fst] in H |- *. rewrite length_app, length_word_bytes, H by lia. lia.
      * rewrite Nat.sub_diag.
        destruct fuel; cbn [hw_fill fst]; rewrite length_app, length_word_bytes; simpl; lia.
    + cbn [fst]. apply length_lcg_fill.
Qed.

Lemma lcg_fill_app (s : Z) (n m : nat) :
  lcg_fill s (n + m) = lcg_fill s n ++ lcg_fill (lcg_iter s n) m.
Proof. revert s; induction n; intros s; simpl; [reflexivity|]. rewrite IHn. reflexivity. Qed.

Lemma word_bytes_take (w : Z) (c : nat) :
  (c <= 4)%nat -> word_bytes w c = take c (word_bytes w 4).
Proof.
  intros Hc. destruct c as [|[|[|[|[|c]]]]]; try reflexivity; lia.
Qed.

Lemma hw_fill_all_ok (timer : nat -> Z) (hal : nat -> option Z) (word : nat -> Z)
  (fuel rem : nat) (st : hw_state) :
  (forall k, hal k = Some (word k)) -> (rem <= fuel)%nat ->
  hw_fill timer hal fuel rem st
  = (take rem (words_le word (hw_rng_calls st) ((rem + 3) / 4)),
     {| hw_timer_calls := hw_timer_calls st;
        hw_rng_calls := hw_rng_calls st + (rem + 3) / 4 |}).
Proof.
  intros Hall. revert rem st; induction fuel as [|fuel IH]; intros rem st Hle.
  - assert (rem = 0%nat) as -> by lia. destruct st; simpl. rewrite Nat.add_0_r. reflexivity.
  - destruct rem as [|r].
    + destruct st; simpl. rewrite Nat.add_0_r. reflexivity.
    + cbn [hw_fill]. rewrite Hall.
      destruct (4 <=? S r)%nat eqn:E.
      * apply Nat.leb_le in E.
        rewrite (IH (S r - 4)%nat) by lia. cbn [hw_rng_calls hw_timer_calls].
        replace ((S r + 3) / 4)%nat with (S ((S r - 4 + 3) / 4)).
        2:{ replace (S r + 3)%nat with (1 * 4 + (S r - 4 + 3))%nat by lia.
            rewrite Nat.div_add_l by lia. lia. }
        unfold words_le. cbn [seq flat_map].
        rewrite take_app, length_word_bytes.
        rewrite (take_ge (word_bytes (word (hw_rng_calls st)) 4)) by (rewrite length_word_bytes; lia).
        f_equal. f_equal. lia.
      * apply Nat.leb_gt in E.
        assert (Hq : ((S r + 3) / 4)%nat = 1%nat).
        { symmetry. apply (Nat.div_unique (S r + 3) 4 1 (S r - 1)); lia. }
        rewrite Hq, Nat.sub_diag.
        unfold words_le. cbn [seq flat_map]. rewrite app_nil_r.
        rewrite <- (word_bytes_take _ (S r)) by lia.
        destruct fuel; cbn [hw_fill]; rewrite app_nil_r, Nat.add_1_r; reflexivity.
Qed.

(** X17: avp_hw_random_bytes always fills exactly len bytes, whether the hardware RNG is used, unused, or fails midway. *)
Theorem hw_random_bytes_fills_buffer (timer : nat -> Z) (hal : nat -> option Z)
  (rng_initialized : bool) (len : nat) (st : hw_state) :
  length (fst (avp_hw_random_bytes timer hal rng_initialized len st)) = len.
Proof.
  unfold avp_hw_random_bytes. destruct rng_initialized; simpl.
  - apply hw_fill_length. lia.
  - apply length_lcg_fill.
Qed.

(** X18: Without an initialised hardware RNG, the bytes depend only on the timer reading. Two calls that read the same timer value produce the same sequence, the shorter request being a prefix of the longer. *)
Theorem hw_fallback_same_reading_prefix (timer : nat -> Z) (hal : nat -> option Z)
  (n m : nat) (st1 st2 : hw_state) :
  u32 (timer (hw_timer_calls st1)) = u32 (timer (hw_timer_calls st2)) ->
  fst (avp_hw_random_bytes timer hal false n st2)
  = take n (fst (avp_hw_random_bytes timer hal false (n + m) st1)).
Proof.
  intros Ht. unfold avp_hw_random_bytes. simpl.
  rewrite lcg_fill_app, Ht, take_app_length' by (rewrite length_lcg_fill; reflexivity).
  reflexivity.
Qed.

(** X19: When the hardware RNG is initialised and every generation succeeds, the len bytes are the little-endian bytes of ceil(len/4) successive 32-bit words, the last one possibly used in part. The timer is never read. *)
Theorem hw_random_bytes_words (timer : nat -> Z) (hal : nat -> option Z) (word : nat -> Z)
  (len : nat) (st : hw_state) :
  (forall k, hal k = Some (word k)) ->
  avp_hw_random_bytes timer hal true len st
  = (take len (words_le word (hw_rng_calls st) ((len + 3) / 4)),
     {| hw_timer_calls := hw_timer_calls st;
        hw_rng_calls := hw_rng_calls st + (len + 3) / 4 |}).
Proof.
  intros Hall. unfold avp_hw_random_bytes. simpl. apply hw_fill_all_ok; [exact Hall | lia].
Qed.

Lemma hw_get_time_bound (timer : nat -> Z) (st : hw_state) :
  0 <= fst (avp_hw_get_time timer st) <= 4294967.
Proof.
  unfold avp_hw_get_time, u32. simpl.
  pose proof (Z.mod_pos_bound (timer (hw_timer_calls st)) (2 ^ 32) ltac:(lia)).
  split; [apply Z.div_pos; lia|].
  assert (timer (hw_timer_calls st) mod 2 ^ 32 / 1000 < 4294968) by (apply Z.div_lt_upper_bound; lia).
  lia.
Qed.

(** X20: With avp_hw_get_time as the clock (milliseconds / 1000, at most 4294967), a successful AUTHENTICATE with a ttl of at most 4290672328 never wraps: created_at + ttl stays below 2^32. *)
Theorem authenticate_hw_clock_no_wrap (timer : nat -> Z) (clock rng : nat -> Z)
  (cmd : avp_cmd) (w : world) :
  (forall k, exists st, clock k = fst (avp_hw_get_time timer st)) ->
  cmd_op cmd = AVP_OP_AUTHENTICATE -> 0 <= cmd_ttl cmd <= 4290672328 ->
  r_ok (fst (avp_dispatch clock rng cmd w)) = true ->
  ss_created_at (ctx_session (w_ctx (snd (avp_dispatch clock rng cmd w))))
  + ss_ttl (ctx_session (w_ctx (snd (avp_dispatch clock rng cmd w)))) < 2 ^ 32.
Proof.
  intros Hclk Hop Httl Hok.
  destruct (auth_post_session clock rng cmd w Hop Hok) as (_ & -> & -> & _).
  destruct (Hclk (w_clock w)) as [st Hst]. rewrite Hst.
  pose proof (hw_get_time_bound timer st) as Hb.
  assert (Hu : u32 (fst (avp_hw_get_time timer st)) = fst (avp_hw_get_time timer st)).
  { unfold u32. apply Z.mod_small. lia. }
  rewrite Hu. unfold AVP_DEFAULT_TTL.
  destruct (Z.gtb_spec (cmd_ttl cmd) 0); lia.
Qed.

(** ** TROPIC01 wrappers *)


Lemma lt_do_log r c s : lt_log (snd (lt_do r c s)) = lt_log s ++ [c].
Proof. reflexivity. Qed.

Lemma step_log_in_map r rl s q :
  Forall call_in_map (lt_log s) -> Forall call_in_map (lt_log (tropic_step r rl s q)).
Proof.
  intros H.
  assert (Hadd : forall c, call_in_map c -> Forall call_in_map (lt_log s ++ [c])).
  { intros c Hc. apply Forall_app; split; [exact H | constructor; [exact Hc | constructor]]. }
  destruct q as [| |pin att|slot data len|slot len|slot|k dl sl|rl'|]; cbn [tropic_step].
  - unfold avp_tropic_init. destruct (lt_initialized s); [exact H|].
    simpl. destruct (is_lt_ok _); simpl; apply Hadd; exact I.
  - unfold avp_tropic_deinit. destruct (lt_initialized s); [|exact H].
    simpl. apply Hadd; exact I.
  - exact H.
  - unfold avp_tropic_store. destruct (lt_down s); [exact H|].
    destruct (Z.ltb_spec slot SLOT_SECRETS_START), (Z.ltb_spec AVP_SLOT_SECRETS_END slot);
      simpl; try exact H.
    destruct (Z.ltb_spec 256 len); [exact H|].
    destruct (is_lt_ok _); simpl; apply Hadd; unfold SLOT_SECRETS_START, AVP_SLOT_SECRETS_END in *;
      simpl; lia.
  - unfold avp_tropic_retrieve. destruct (lt_down s); [exact H|].
    destruct (Z.ltb_spec slot SLOT_SECRETS_START), (Z.ltb_spec AVP_SLOT_SECRETS_END slot);
      simpl; try exact H.
    destruct (r (lt_log s) _); simpl; apply Hadd;
      unfold SLOT_SECRETS_START, AVP_SLOT_SECRETS_END in *; simpl; lia.
  - unfold avp_tropic_erase. destruct (lt_down s); [exact H|].
    destruct (Z.ltb_spec slot SLOT_SECRETS_START), (Z.ltb_spec AVP_SLOT_SECRETS_END slot);
      simpl; try exact H.
    destruct (is_lt_ok _); simpl; apply Hadd; unfold SLOT_SECRETS_START, AVP_SLOT_SECRETS_END in *;
      simpl; lia.
  - unfold avp_tropic_sign. destruct (lt_down s); [exact H|].
    destruct (Z.ltb_spec AVP_SLOT_KEYS_END k); [exact H|].
    destruct (sl <? 64); [exact H|]. simpl.
    destruct (is_lt_ok _); simpl; apply Hadd; unfold AVP_SLOT_KEYS_END in *; simpl; lia.
  - unfold avp_tropic_attest. destruct (lt_down s); [exact H|].
    destruct (rl' <? 64); [exact H|]. simpl.
    destruct (is_lt_ok _); simpl; apply Hadd; simpl; lia.
  - unfold avp_tropic_get_info. destruct (lt_down s); [exact H|].
    simpl. apply Hadd; exact I.
Qed.

(** X21: From power-on, any sequence of TROPIC01 wrapper calls makes only library calls inside the slot map. Writes (at most 256 bytes) and reads go to slots 96..127, and signatures use key slots 0..31. *)
Theorem tropic_calls_stay_in_slot_map r rl (qs : list tropic_req) :
  Forall call_in_map (lt_log (tropic_run r rl tropic_boot qs)).
Proof.
  unfold tropic_run. generalize tropic_boot (Forall_nil_2 call_in_map : Forall call_in_map (lt_log tropic_boot)).
  intros s Hs. revert s Hs. induction qs as [|q qs IH]; intros s Hs; simpl; [exact Hs|].
  apply IH. apply step_log_in_map. exact Hs.
Qed.

(** X22: When libtropic is not initialised or the handle is NULL, store, retrieve, erase, sign, attest and verify_pin all return HARDWARE_ERROR without calling the device. get_info returns OK with the placeholder serial and firmware version. *)
Theorem tropic_down_fails_without_calls r rl (s : tropic_state) :
  lt_down s = true ->
  (forall slot data len, avp_tropic_store r s slot data len = (AVP_ERR_HARDWARE, s)) /\
  (forall slot len, avp_tropic_retrieve r rl s slot len = (AVP_ERR_HARDWARE, len, s)) /\
  (forall slot, avp_tropic_erase r s slot = (AVP_ERR_HARDWARE, s)) /\
  (forall k dl sl, avp_tropic_sign r s k dl sl = (AVP_ERR_HARDWARE, s)) /\
  (forall rlen, avp_tropic_attest r s rlen = (AVP_ERR_HARDWARE, s)) /\
  (forall pin att, avp_tropic_verify_pin s pin att = (AVP_ERR_HARDWARE, att)) /\
  avp_tropic_get_info r s = (AVP_OK, "NC00000001", "1.0.0", s).
Proof.
  intros Hd. unfold avp_tropic_store, avp_tropic_retrieve, avp_tropic_erase, avp_tropic_sign,
    avp_tropic_attest, avp_tropic_verify_pin, avp_tropic_get_info.
  rewrite Hd. repeat split.
Qed.

(** X23: avp_tropic_init on an initialised state returns OK and calls nothing. Otherwise it makes exactly one lt_init call and returns OK exactly when the wrappers become usable. After avp_tropic_deinit they are never usable. *)
Theorem tropic_init_deinit_lifecycle r (s : tropic_state) :
  (lt_initialized s = true -> avp_tropic_init r s = (AVP_OK, s)) /\
  (lt_initialized s = false ->
     lt_log (snd (avp_tropic_init r s)) = lt_log s ++ [LT_INIT] /\
     (fst (avp_tropic_init r s) = AVP_OK <-> lt_down (snd (avp_tropic_init r s)) = false)) /\
  lt_down (avp_tropic_deinit r s) = true.
Proof.
  unfold avp_tropic_init, avp_tropic_deinit.
  split; [intros ->; reflexivity|]. split.
  - intros E. rewrite E. simpl.
    destruct (is_lt_ok _); simpl; split; try reflexivity; unfold lt_down; simpl; rewrite ?E;
      simpl; split; congruence.
  - destruct (lt_initialized s) eqn:E; simpl; [reflexivity|]. unfold lt_down. rewrite E. reflexivity.
Qed.

(** X24: For a valid secret slot, avp_tropic_retrieve asks the device for *len mod 65536 bytes, so a length of 65536 asks for none. It returns SECRET_NOT_FOUND exactly when the device reports an invalid slot. On success it stores the 16-bit read length in *len, and on failure it leaves *len unchanged. *)
Theorem tropic_retrieve_len_and_errors r rl (s : tropic_state) (slot len : Z) :
  lt_down s = false -> 96 <= slot <= 127 ->
  lt_log (snd (avp_tropic_retrieve r rl s slot len))
    = lt_log s ++ [LT_R_MEM_DATA_READ slot (len mod 65536)] /\
  (fst (fst (avp_tropic_retrieve r rl s slot len)) = AVP_ERR_SECRET_NOT_FOUND <->
   r (lt_log s) (LT_R_MEM_DATA_READ slot (len mod 65536)) = LT_L3_INVALID_SLOT) /\
  (fst (fst (avp_tropic_retrieve r rl s slot len)) = AVP_OK ->
   snd (fst (avp_tropic_retrieve r rl s slot len)) = rl (lt_log s) mod 65536) /\
  (fst (fst (avp_tropic_retrieve r rl s slot len)) <> AVP_OK ->
   snd (fst (avp_tropic_retrieve r rl s slot len)) = len).
Proof.
  intros Hd Hs. unfold avp_tropic_retrieve. rewrite Hd.
  replace ((slot <? SLOT_SECRETS_START) || (AVP_SLOT_SECRETS_END <? slot)) with false.
  2:{ unfold SLOT_SECRETS_START, AVP_SLOT_SECRETS_END.
      destruct (Z.ltb_spec slot 96), (Z.ltb_spec 127 slot); simpl; lia. }
  unfold u16. change (2 ^ 16) with 65536. simpl.
  destruct (r (lt_log s) (LT_R_MEM_DATA_READ slot (len mod 65536))); simpl;
    repeat split; try reflexivity; try discriminate; try congruence.
Qed.

(** X25: With the device up, avp_tropic_verify_pin returns OK and sets attempts to 5 for a PIN of at least 4 characters, and otherwise returns PIN_INVALID and sets attempts to 4. It ignores the previous count and never reports PIN_LOCKED. *)
Theorem tropic_verify_pin_counts (s : tropic_state) (pin : string) (attempts : Z) :
  lt_down s = false ->
  avp_tropic_verify_pin s pin attempts
    = (if (4 <=? String.length pin)%nat then (AVP_OK, 5) else (AVP_ERR_PIN_INVALID, 4)) /\
  fst (avp_tropic_verify_pin s pin attempts) <> AVP_ERR_PIN_LOCKED /\
  4 <= snd (avp_tropic_verify_pin s pin attempts).
Proof.
  intros Hd. unfold avp_tropic_verify_pin. rewrite Hd.
  destruct (4 <=? String.length pin)%nat; simpl; repeat split; try discriminate; lia.
Qed.

(** ** Witnesses of the further properties *)

Lemma hex_decode_encode_witness :
  hex_decode (hex_encode [0; 171; 255]) 3 = ([0; 171; 255], 3).
Proof.
  apply (hex_decode_encode [0; 171; 255] 3); [repeat constructor; lia | simpl; lia].
Defined.

Lemma hex_decode_accepts_half_pairs_witness :
  hex_decode (String "a" (String "!" EmptyString)) 1 = ([10], 1) /\
  hex_decode (String "-" (String "a" EmptyString)) 1 = ([(256 - 10) mod 256], 1).
Proof.
  apply (hex_decode_accepts_half_pairs "a" "!" 10 1); [reflexivity | reflexivity | lia].
Defined.

Lemma authenticate_session_id_hex_witness :
  r_ok (fst (avp_dispatch clock_ticks rng_counter good_pin_auth world_init)) = true /\
  hex_decode (r_auth_session_id (fst (avp_dispatch clock_ticks rng_counter good_pin_auth world_init))) 16
    = (map (fun k => u8 (rng_counter k)) (seq 0 16), 16).
Proof.
  assert (Hok : r_ok (fst (avp_dispatch clock_ticks rng_counter good_pin_auth world_init)) = true)
    by (vm_compute; reflexivity).
  split; [exact Hok|].
  exact (proj1 (proj2 (authenticate_session_id_hex clock_ticks rng_counter good_pin_auth world_init
                          eq_refl Hok))).
Defined.

Lemma parse_fields_fit_buffers_witness :
  avp_parse_cmd json_auth_plain = (AVP_OK, Some parsed_auth_plain) /\
  (String.length (cmd_pin parsed_auth_plain) <= 15)%nat /\
  0 <= cmd_ttl parsed_auth_plain < 2 ^ 32.
Proof.
  assert (Hp : avp_parse_cmd json_auth_plain = (AVP_OK, Some parsed_auth_plain))
    by (vm_compute; reflexivity).
  destruct (parse_fields_fit_buffers json_auth_plain parsed_auth_plain Hp)
    as (_ & _ & _ & _ & _ & Hpin & _ & Httl & _).
  split; [exact Hp|]. split; [exact Hpin | exact Httl].
Defined.

Lemma parse_op_prefix_witness :
  fst (avp_parse_cmd ("{" ++ jstr "op" "LIST" ++ "}")) = AVP_OK /\
  option_map cmd_op (snd (avp_parse_cmd ("{" ++ jstr "op" "LIST" ++ "}"))) = Some AVP_OP_LIST.
Proof. apply (parse_op_prefix "LIST" "}" AVP_OP_LIST). reflexivity. Defined.

Lemma store_then_retrieve_and_list_witness :
  r_ok (fst (avp_dispatch clock_ticks rng_counter (with_op AVP_OP_RETRIEVE store_anthropic)
               auth_store_world)) = true /\
  In "anthropic" (r_list_names (fst (avp_dispatch clock_ticks rng_counter
                    (with_op AVP_OP_LIST store_anthropic) auth_store_world))).
Proof.
  assert (E : auth_store_world = snd (avp_dispatch clock_ticks rng_counter store_anthropic auth_world))
    by (vm_compute; reflexivity).
  rewrite E.
  apply (store_then_retrieve_and_list clock_ticks rng_counter store_anthropic auth_world).
  - reflexivity.
  - split; vm_compute; reflexivity.
  - vm_compute. lia.
  - vm_compute. reflexivity.
  - vm_compute. reflexivity.
Defined.

Lemma delete_then_retrieve_and_list_witness :
  r_ok (fst (avp_dispatch clock_ticks rng_counter (with_op AVP_OP_DELETE store_anthropic)
               auth_store_world)) = true /\
  find_secret_by_name (w_ctx (snd (avp_dispatch clock_ticks rng_counter
     (with_op AVP_OP_DELETE store_anthropic) auth_store_world))) "anthropic" = None /\
  r_ok (fst (avp_dispatch clock_ticks rng_counter (with_op AVP_OP_RETRIEVE store_anthropic)
     (snd (avp_dispatch clock_ticks rng_counter
            (with_op AVP_OP_DELETE store_anthropic) auth_store_world)))) = false.
Proof.
  assert (Hok : r_ok (fst (avp_dispatch clock_ticks rng_counter (with_op AVP_OP_DELETE store_anthropic)
                   auth_store_world)) = true) by (vm_compute; reflexivity).
  assert (Hinv : table_inv (w_ctx auth_store_world)) by (split; vm_compute; reflexivity).
  assert (Hn : names_ok (ctx_secrets (w_ctx auth_store_world))).
  { assert (E : auth_store_world
                = snd (avp_dispatch clock_ticks rng_counter store_anthropic
                         (snd (avp_dispatch clock_ticks rng_counter good_pin_auth world_init))))
      by (vm_compute; reflexivity).
    rewrite E. apply dispatch_names_ok.
    - split; vm_compute; reflexivity.
    - apply dispatch_names_ok; [split; vm_compute; reflexivity | exact names_ok_init | vm_compute; lia].
    - vm_compute. lia. }
  destruct (delete_then_retrieve_and_list clock_ticks rng_counter
              (with_op AVP_OP_DELETE store_anthropic) auth_store_world eq_refl Hinv Hn Hok)
    as (H1 & H2 & _).
  split; [exact Hok|]. split; [exact H1 | exact H2].
Defined.

Lemma cmd_process_error_line_witness :
  r_error_code (fst (avp_process clock_ticks rng_counter json_list world_init))
    = AVP_ERR_NOT_AUTHENTICATED /\
  fst (fst (avp_cmd_process clock_ticks rng_counter json_list avp_response_init world_init))
  = Some (error_text (r_error_code (fst (avp_process clock_ticks rng_counter json_list world_init)))
          ++ crlf)%string.
Proof.
  split; [vm_compute; reflexivity|].
  apply (cmd_process_error_line clock_ticks rng_counter json_list avp_response_init world_init).
  - reflexivity.
  - vm_compute. reflexivity.
Defined.

Lemma cmd_process_plain_ok_witness :
  fst (fst (avp_cmd_process clock_ticks rng_counter (json_store_long 0) avp_response_init auth_world))
  = Some (ok_text ++ crlf)%string.
Proof.
  apply (cmd_process_plain_ok clock_ticks rng_counter (json_store_long 0) avp_response_init
           auth_world parsed_store_long).
  - reflexivity.
  - vm_compute. reflexivity.
  - left. reflexivity.
  - vm_compute. reflexivity.
Defined.

Lemma cmd_process_list_overflow_witness :
  fst (fst (avp_cmd_process clock_ticks rng_counter json_list avp_response_init long_names_world))
  = None.
Proof.
  apply (cmd_process_list_overflow clock_ticks rng_counter json_list avp_response_init
           long_names_world parsed_list).
  - reflexivity.
  - vm_compute. reflexivity.
  - vm_compute. reflexivity.
  - split; vm_compute; reflexivity.
  - vm_compute. reflexivity.
  - vm_compute. lia.
  - cbn [long_names_world w_ctx ctx_secrets].
    repeat (constructor; [intros Hu; first [split; reflexivity | discriminate Hu] |]); constructor.
Defined.

Lemma session_changed_only_by_authenticate_witness :
  ctx_session (w_ctx (snd (avp_dispatch clock_ticks rng_counter store_anthropic auth_world)))
    = ctx_session (w_ctx auth_world) \/
  (ctx_session (w_ctx (snd (avp_dispatch clock_ticks rng_counter store_anthropic auth_world)))
     = set_active false (ctx_session (w_ctx auth_world)) /\
   session_live (w_ctx auth_world) (now_of clock_ticks auth_world) = false).
Proof.
  apply (session_changed_only_by_authenticate clock_ticks rng_counter store_anthropic auth_world).
  discriminate.
Defined.

Lemma authenticate_ttl_wrap_locks_out_witness :
  r_ok (fst (avp_dispatch clock_ticks rng_counter auth_ttl_max auth_world)) = true /\
  fst (avp_dispatch clock_ticks rng_counter store_anthropic
         (snd (avp_dispatch clock_ticks rng_counter auth_ttl_max auth_world)))
    = resp_err AVP_ERR_NOT_AUTHENTICATED.
Proof.
  assert (Hok : r_ok (fst (avp_dispatch clock_ticks rng_counter auth_ttl_max auth_world)) = true)
    by (vm_compute; reflexivity).
  split; [exact Hok|].
  apply (authenticate_ttl_wrap_locks_out clock_ticks rng_counter auth_ttl_max store_anthropic
           auth_world eq_refl).
  - split; vm_compute; [discriminate | reflexivity].
  - exact Hok.
  - vm_compute. discriminate.
  - vm_compute. discriminate.
  - reflexivity.
Defined.

Lemma hw_sign_signature_is_random_hex_witness :
  r_sign_signature (fst (avp_dispatch clock_ticks rng_counter sign_cmd auth_world))
    = hex_encode (map (fun k => u8 (rng_counter k)) (seq (w_rng auth_world) 64)).
Proof.
  apply (hw_sign_signature_is_random_hex clock_ticks rng_counter sign_cmd auth_world).
  - reflexivity.
  - vm_compute. reflexivity.
Defined.

Lemma session_invalidate_closes_witness :
  avp_dispatch clock_ticks rng_counter store_anthropic (invalidate_world auth_world)
  = (resp_err AVP_ERR_NOT_AUTHENTICATED, invalidate_world auth_world).
Proof.
  apply (session_invalidate_closes clock_ticks rng_counter store_anthropic auth_world).
  reflexivity.
Defined.

Lemma error_text_injective_witness : AVP_ERR_PIN_LOCKED = AVP_ERR_PIN_LOCKED.
Proof. apply error_text_injective. reflexivity. Defined.

Lemma hw_fallback_same_reading_prefix_witness :
  fst (avp_hw_random_bytes same_ms_timer (fun _ => None) false 16
         {| hw_timer_calls := 1; hw_rng_calls := 0 |})
  = take 16 (fst (avp_hw_random_bytes same_ms_timer (fun _ => None) false (16 + 48)
                    {| hw_timer_calls := 0; hw_rng_calls := 0 |})).
Proof. apply hw_fallback_same_reading_prefix. reflexivity. Defined.

Lemma hw_random_bytes_words_witness :
  avp_hw_random_bytes ms_timer (fun k => Some (Z.of_nat k)) true 6
    {| hw_timer_calls := 0; hw_rng_calls := 0 |}
  = (take 6 (words_le Z.of_nat 0 ((6 + 3) / 4)),
     {| hw_timer_calls := 0; hw_rng_calls := 0 + (6 + 3) / 4 |}).
Proof.
  apply (hw_random_bytes_words ms_timer (fun k => Some (Z.of_nat k)) Z.of_nat 6
           {| hw_timer_calls := 0; hw_rng_calls := 0 |}).
  intros k. reflexivity.
Defined.

Lemma authenticate_hw_clock_no_wrap_witness :
  r_ok (fst (avp_dispatch hw_clock rng_counter auth_ttl_hw_max world_init)) = true /\
  ss_created_at (ctx_session (w_ctx (snd (avp_dispatch hw_clock rng_counter auth_ttl_hw_max world_init))))
  + ss_ttl (ctx_session (w_ctx (snd (avp_dispatch hw_clock rng_counter auth_ttl_hw_max world_init))))
  < 2 ^ 32.
Proof.
  assert (Hok : r_ok (fst (avp_dispatch hw_clock rng_counter auth_ttl_hw_max world_init)) = true)
    by (vm_compute; reflexivity).
  split; [exact Hok|].
  apply (authenticate_hw_clock_no_wrap ms_timer hw_clock rng_counter auth_ttl_hw_max world_init).
  - intros k. exists {| hw_timer_calls := k; hw_rng_calls := 0 |}. reflexivity.
  - reflexivity.
  - split; vm_compute; discriminate.
  - exact Hok.
Defined.

Lemma tropic_down_fails_without_calls_witness :
  lt_down tropic_boot = true /\
  avp_tropic_store lt_always_ok tropic_boot 100 [1; 2] 2 = (AVP_ERR_HARDWARE, tropic_boot).
Proof.
  split; [reflexivity|].
  apply (tropic_down_fails_without_calls lt_always_ok lt_len_32 tropic_boot). reflexivity.
Defined.

Lemma tropic_retrieve_len_and_errors_witness :
  lt_log (snd (avp_tropic_retrieve lt_always_ok lt_len_32 tropic_up 100 65536))
    = [LT_R_MEM_DATA_READ 100 (65536 mod 65536)] /\
  snd (fst (avp_tropic_retrieve lt_always_ok lt_len_32 tropic_up 100 65536)) = 32.
Proof.
  destruct (tropic_retrieve_len_and_errors lt_always_ok lt_len_32 tropic_up 100 65536)
    as (H1 & _ & H3 & _); [reflexivity | lia |].
  split; [exact H1|]. rewrite H3 by reflexivity. reflexivity.
Defined.

Lemma tropic_verify_pin_counts_witness :
  avp_tropic_verify_pin tropic_up "12" 0 = (AVP_ERR_PIN_INVALID, 4).
Proof.
  destruct (tropic_verify_pin_counts tropic_up "12" 0) as (H & _); [reflexivity|].
  exact H.
Defined.

End Avp.
